(** * CVA_NET: the VAE training script [src/cvn/VAE/train.py]

    A shallow embedding of the parts of the training script that carry its
    design: the shapes computed by the encoder and decoder stacks, the
    reparameterisation and KL-divergence arithmetic, the [AvgMeter] and
    [Metric] bookkeeping objects, and the [Trainer] loop (gradient
    accumulation, validation, checkpoint resume); then the preprocessor
    and the postprocessor, the writing of checkpoints and the loop of
    [fit] over the epochs.

    Conventions.
    - Python integers are [Z]; [//] and [%] are [Z.div] and [Z.modulo]
      (both floor towards minus infinity, as in Python).
    - Tensor shapes are lists of [Z]; an operation of the tensor library
      that raises is [None].
    - Floating-point scalars are idealised as real numbers [R].
    - Python dictionaries are [gmap]s; objects whose [__dict__] is handed
      out by reference live in an explicit store. *)

From Stdlib Require Import ZArith Reals Lra Lia List String Ascii.
From stdpp Require Import base option gmap strings list pretty.

Local Open Scope Z_scope.

(** ** Shapes of the network stacks *)

Module Shape.

Definition shape := list Z.

Definition numel (s : shape) : Z := fold_right Z.mul 1 s.

(** [torch.nn.Conv2d(in_channels, out_channels, kernel_size, stride, padding)] *)
Record Conv2d := mkConv2d {
  in_channels : Z;
  out_channels : Z;
  kernel_size : Z;
  stride : Z;
  padding : Z }.

(** Output extent of a convolution along one spatial axis. *)
Definition conv_out (h k s p : Z) : Z := (h + 2 * p - (k - 1) - 1) / s + 1.

(** The convolution rejects an input whose channel count is not
    [in_channels] or whose padded extent is smaller than the kernel. *)
Definition Conv2d_forward (m : Conv2d) (x : shape) : option shape :=
  match x with
  | [n; c; h; w] =>
      if (c =? in_channels m)
         && (kernel_size m <=? h + 2 * padding m)
         && (kernel_size m <=? w + 2 * padding m)
      then Some [n; out_channels m;
                 conv_out h (kernel_size m) (stride m) (padding m);
                 conv_out w (kernel_size m) (stride m) (padding m)]
      else None
  | _ => None
  end.

(** [torch.nn.GroupNorm(num_groups, num_channels)] *)
Record GroupNorm := mkGroupNorm {
  gn_num_groups : Z;
  gn_num_channels : Z }.

Definition GroupNorm_forward (m : GroupNorm) (x : shape) : option shape :=
  match x with
  | n :: c :: rest =>
      if (c =? gn_num_channels m)
         && (0 <? gn_num_groups m)
         && (gn_num_channels m mod gn_num_groups m =? 0)
      then Some x else None
  | _ => None
  end.

(** [torch.nn.Linear(in_features, out_features)] acts on the last axis. *)
Record Linear := mkLinear {
  in_features : Z;
  out_features : Z }.

Fixpoint Linear_forward (m : Linear) (x : shape) : option shape :=
  match x with
  | [] => None
  | [d] => if d =? in_features m then Some [out_features m] else None
  | d :: rest => option_map (cons d) (Linear_forward m rest)
  end.

(** [x.view(new)]: same number of elements, no negative extent. *)
Definition view (x new : shape) : option shape :=
  if forallb (Z.leb 0) new && (numel x =? numel new) then Some new else None.

(** [x.transpose(-1, -2)], swapping the two last axes. *)
Fixpoint transpose_last (x : shape) : option shape :=
  match x with
  | [a; b] => Some [b; a]
  | d :: rest => option_map (cons d) (transpose_last rest)
  | [] => None
  end.

(** [x.transpose(1, 2)] *)
Definition transpose_1_2 (x : shape) : option shape :=
  match x with
  | a :: b :: c :: rest => Some (a :: c :: b :: rest)
  | _ => None
  end.

(** [a @ b] for two rank-4 operands with equal batch axes. *)
Definition matmul (a b : shape) : option shape :=
  match a, b with
  | [b0; b1; m; k], [c0; c1; k'; n] =>
      if (b0 =? c0) && (b1 =? c1) && (k =? k') then Some [b0; b1; m; n] else None
  | _, _ => None
  end.

(** Broadcasting of two extents, and of two shapes aligned on their
    trailing axes (elementwise [+], [*]). *)
Definition broadcast_dim (a b : Z) : option Z :=
  if a =? b then Some a
  else if a =? 1 then Some b
  else if b =? 1 then Some a
  else None.

Fixpoint broadcast_rev (a b : shape) : option shape :=
  match a, b with
  | [], _ => Some b
  | _, [] => Some a
  | x :: a', y :: b' =>
      match broadcast_dim x y, broadcast_rev a' b' with
      | Some d, Some r => Some (d :: r)
      | _, _ => None
      end
  end.

Definition broadcast (a b : shape) : option shape :=
  option_map (@rev Z) (broadcast_rev (rev a) (rev b)).

(** [torch.chunk] cuts an axis of extent [c] into pieces of size
    [ceil(c / chunks)], the last one shorter; fewer than [chunks] pieces
    come back when [c] is small, and [chunks] empty ones when [c = 0]. *)
Definition chunk_sizes (c chunks : Z) : list Z :=
  if c =? 0 then replicate (Z.to_nat chunks) 0
  else
    let k := (c + chunks - 1) / chunks in
    let n := (c + k - 1) / k in
    replicate (Z.to_nat (n - 1)) k ++ [c - (n - 1) * k].

(** [a, b = torch.chunk(x, 2, dim=1)]: the unpacking needs two pieces. *)
Definition chunk2_dim1 (x : shape) : option (shape * shape) :=
  match x with
  | n :: c :: rest =>
      match chunk_sizes c 2 with
      | [c1; c2] => Some (n :: c1 :: rest, n :: c2 :: rest)
      | _ => None
      end
  | _ => None
  end.

(** [q, k, v = x.chunk(3, dim=-1)] *)
Fixpoint chunk3_last (x : shape) : option (shape * shape * shape) :=
  match x with
  | [] => None
  | [d] =>
      match chunk_sizes d 3 with
      | [d1; d2; d3] => Some ([d1], [d2], [d3])
      | _ => None
      end
  | d :: rest =>
      match chunk3_last rest with
      | Some (q, k, v) => Some (d :: q, d :: k, d :: v)
      | None => None
      end
  end.

(** [F.pad(x, (0, 1, 0, 1))]: one more column on the right, one more row
    at the bottom. *)
Definition pad_right_bottom (x : shape) : option shape :=
  match x with
  | [n; c; h; w] => Some [n; c; h + 1; w + 1]
  | _ => None
  end.

(** [nn.Upsample(scale_factor=s)] on a batch of images. *)
Definition Upsample_forward (s : Z) (x : shape) : option shape :=
  match x with
  | [n; c; h; w] => Some [n; c; h * s; w * s]
  | _ => None
  end.


(** *** [SelfAttention] *)

Record SelfAttention := mkSelfAttention {
  d_model : Z;
  n_heads : Z;
  in_proj : Linear;
  out_proj : Linear;
  d_heads : Z }.

(** The constructor asserts [d_model % n_heads == 0]. *)
Definition SelfAttention_init (d_model n_heads : Z) : option SelfAttention :=
  if n_heads =? 0 then None
  else if d_model mod n_heads =? 0 then
    Some {| d_model := d_model;
            n_heads := n_heads;
            in_proj := mkLinear d_model (3 * d_model);
            out_proj := mkLinear d_model d_model;
            d_heads := d_model / n_heads |}
  else None.

Definition SelfAttention_forward (self : SelfAttention) (x : shape) : option shape :=
  match x with
  | [batch_size; seq_len; d_model] =>
      let interim_shape := [batch_size; seq_len; n_heads self; d_heads self] in
      p ← Linear_forward (in_proj self) x;
      '(q, k, v) ← chunk3_last p;
      q ← view q interim_shape;
      k ← view k interim_shape;
      v ← view v interim_shape;
      q ← transpose_1_2 q;
      k ← transpose_1_2 k;
      v ← transpose_1_2 v;
      kt ← transpose_last k;
      weight ← matmul q kt;
      output ← matmul weight v;
      output ← transpose_1_2 output;
      output ← view output [batch_size; seq_len; d_model];
      Linear_forward (out_proj self) output
  | _ => None
  end.

(** *** [AttentionBlock] *)

Record AttentionBlock := mkAttentionBlock {
  group_norm : GroupNorm;
  attention : SelfAttention }.

Definition AttentionBlock_init (num_channels num_groups n_heads : Z)
  : option AttentionBlock :=
  attention ← SelfAttention_init num_channels n_heads;
  Some {| group_norm := mkGroupNorm num_groups num_channels;
          attention := attention |}.

Definition AttentionBlock_forward (self : AttentionBlock) (x : shape) : option shape :=
  let residual := x in
  x ← GroupNorm_forward (group_norm self) x;
  match x with
  | [batch_size; c; h; w] =>
      x ← view x [batch_size; c; h * w];
      x ← transpose_last x;
      x ← SelfAttention_forward (attention self) x;
      x ← transpose_last x;
      x ← view x [batch_size; c; h; w];
      broadcast residual x
  | _ => None
  end.

(** *** [ResidualBlock] *)

Inductive residual_layer_t :=
| Identity
| Projection (conv : Conv2d).

Record ResidualBlock := mkResidualBlock {
  group_norm1 : GroupNorm;
  conv1 : Conv2d;
  group_norm2 : GroupNorm;
  conv2 : Conv2d;
  residual_layer : residual_layer_t }.

Definition ResidualBlock_init (in_channels out_channels num_groups : Z) : ResidualBlock :=
  {| group_norm1 := mkGroupNorm num_groups in_channels;
     conv1 := mkConv2d in_channels out_channels 3 1 1;
     group_norm2 := mkGroupNorm num_groups out_channels;
     conv2 := mkConv2d out_channels out_channels 3 1 1;
     residual_layer :=
       if in_channels =? out_channels then Identity
       else Projection (mkConv2d in_channels out_channels 1 1 0) |}.

Definition residual_layer_forward (l : residual_layer_t) (x : shape) : option shape :=
  match l with
  | Identity => Some x
  | Projection conv => Conv2d_forward conv x
  end.

Definition ResidualBlock_forward (self : ResidualBlock) (x : shape) : option shape :=
  let residue := x in
  x ← GroupNorm_forward (group_norm1 self) x;
  x ← Conv2d_forward (conv1 self) x;
  x ← GroupNorm_forward (group_norm2 self) x;
  x ← Conv2d_forward (conv2 self) x;
  r ← residual_layer_forward (residual_layer self) residue;
  broadcast x r.

(** *** The members of an [nn.Sequential] *)

Inductive module :=
| M_Conv2d (m : Conv2d)
| M_ResidualBlock (m : ResidualBlock)
| M_AttentionBlock (m : AttentionBlock)
| M_GroupNorm (m : GroupNorm)
| M_SiLU
| M_Upsample (scale_factor : Z).

Definition module_forward (m : module) (x : shape) : option shape :=
  match m with
  | M_Conv2d m => Conv2d_forward m x
  | M_ResidualBlock m => ResidualBlock_forward m x
  | M_AttentionBlock m => AttentionBlock_forward m x
  | M_GroupNorm m => GroupNorm_forward m x
  | M_SiLU => Some x
  | M_Upsample s => Upsample_forward s x
  end.

(** *** [Encoder] *)

Definition Encoder_init (img_channels zch num_groups n_heads : Z)
  : option (list module) :=
  attention_block ← AttentionBlock_init 512 num_groups n_heads;
  Some [ M_Conv2d (mkConv2d img_channels 128 3 1 1);
         M_ResidualBlock (ResidualBlock_init 128 128 num_groups);
         M_Conv2d (mkConv2d 128 128 3 2 0);

         M_ResidualBlock (ResidualBlock_init 128 256 num_groups);
         M_ResidualBlock (ResidualBlock_init 256 256 num_groups);
         M_Conv2d (mkConv2d 256 256 3 2 0);

         M_ResidualBlock (ResidualBlock_init 256 512 num_groups);
         M_ResidualBlock (ResidualBlock_init 512 512 num_groups);
         M_Conv2d (mkConv2d 512 512 3 2 0);

         M_ResidualBlock (ResidualBlock_init 512 512 num_groups);
         M_ResidualBlock (ResidualBlock_init 512 512 num_groups);
         M_ResidualBlock (ResidualBlock_init 512 512 num_groups);

         M_AttentionBlock attention_block;
         M_ResidualBlock (ResidualBlock_init 512 512 num_groups);
         M_GroupNorm (mkGroupNorm num_groups 512);
         M_SiLU;

         M_Conv2d (mkConv2d 512 zch 3 1 1);
         M_Conv2d (mkConv2d zch zch 1 1 0) ].

(** The loop of [Encoder.forward]: a stride-2 convolution sees its input
    padded on the right and at the bottom. *)
Fixpoint Encoder_layers (self : list module) (x : shape) : option shape :=
  match self with
  | [] => Some x
  | module :: rest =>
      x ← match module with
          | M_Conv2d m => if stride m =? 2 then pad_right_bottom x else Some x
          | _ => Some x
          end;
      x ← module_forward module x;
      Encoder_layers rest x
  end.

(** Shapes of [out, (mean, log_variance)] returned by [Encoder.forward]. *)
Definition Encoder_forward (self : list module) (x : shape)
  : option (shape * (shape * shape)) :=
  x ← Encoder_layers self x;
  '(mean, log_variance) ← chunk2_dim1 x;
  let std := log_variance in
  let eps := std in
  noise ← broadcast eps std;
  x ← broadcast mean noise;
  let out := x in
  Some (out, (mean, log_variance)).

(** *** [Decoder] *)

Definition Decoder_init (img_channels zch num_groups n_heads : Z)
  : option (list module) :=
  attention_block ← AttentionBlock_init 512 num_groups n_heads;
  Some [ M_Conv2d (mkConv2d (zch / 2) 512 3 1 1);
         M_ResidualBlock (ResidualBlock_init 512 512 32);

         M_AttentionBlock attention_block;
         M_ResidualBlock (ResidualBlock_init 512 512 32);
         M_ResidualBlock (ResidualBlock_init 512 512 32);
         M_ResidualBlock (ResidualBlock_init 512 512 32);

         M_Upsample 2;
         M_Conv2d (mkConv2d 512 512 3 1 1);
         M_ResidualBlock (ResidualBlock_init 512 512 32);
         M_ResidualBlock (ResidualBlock_init 512 512 32);
         M_ResidualBlock (ResidualBlock_init 512 512 32);

         M_Upsample 2;
         M_Conv2d (mkConv2d 512 512 3 1 1);
         M_ResidualBlock (ResidualBlock_init 512 256 32);
         M_ResidualBlock (ResidualBlock_init 256 256 32);
         M_ResidualBlock (ResidualBlock_init 256 256 32);

         M_Upsample 2;
         M_Conv2d (mkConv2d 256 256 3 1 1);
         M_ResidualBlock (ResidualBlock_init 256 128 32);
         M_ResidualBlock (ResidualBlock_init 128 128 32);
         M_ResidualBlock (ResidualBlock_init 128 128 32);

         M_GroupNorm (mkGroupNorm num_groups 128);
         M_SiLU;

         M_Conv2d (mkConv2d 128 img_channels 3 1 1) ].

Fixpoint Decoder_forward (self : list module) (x : shape) : option shape :=
  match self with
  | [] => Some x
  | module :: rest =>
      x ← module_forward module x;
      Decoder_forward rest x
  end.

(** *** [VAE]: the configuration and the composed forward pass *)

Record ModelConfig := mkModelConfig {
  img_channels : Z;
  img_size : Z * Z;
  num_groups : Z;
  zch : Z;
  cfg_n_heads : Z }.

Record VAE := mkVAE {
  config : ModelConfig;
  encoder : list module;
  decoder : list module }.

(** [Input] asserts that the image has one or three channels. *)
Definition VAE_init (config : ModelConfig) : option VAE :=
  if (img_channels config =? 1) || (img_channels config =? 3) then
    encoder ← Encoder_init (img_channels config) (zch config)
                (num_groups config) (cfg_n_heads config);
    decoder ← Decoder_init (img_channels config) (zch config)
                (num_groups config) (cfg_n_heads config);
    Some {| config := config; encoder := encoder; decoder := decoder |}
  else None.

(** Shapes of [reconstructed, encoded, (mean, log_variance)]. *)
Definition VAE_forward (self : VAE) (x : shape)
  : option (shape * shape * (shape * shape)) :=
  '(encoded, (mean, log_variance)) ← Encoder_forward (encoder self) x;
  reconstructed ← Decoder_forward (decoder self) encoded;
  Some (reconstructed, encoded, (mean, log_variance)).

(** The shape round trip as the specification words it, at one
    configuration and one input shape: the encoder returns a latent of
    shape [[N; zch / 2; H / 8; W / 8]] and the decoder maps a latent of
    that shape back to [[N; C; H; W]]. *)
Definition shape_round_trip (C zch g nh N H W : Z) : Prop :=
  exists e d mean log_variance,
    Encoder_init C zch g nh = Some e /\
    Decoder_init C zch g nh = Some d /\
    Encoder_forward e [N; C; H; W]
      = Some ([N; zch / 2; H / 8; W / 8], (mean, log_variance)) /\
    Decoder_forward d [N; zch / 2; H / 8; W / 8] = Some [N; C; H; W].

End Shape.

(** ** Python exceptions and stateful computations *)

Module Py.

Inductive exn :=
| ValueError
| KeyError
| TypeError
| IndexError
| AttributeError
| ZeroDivisionError
| UnboundLocalError.

Inductive outcome (A : Type) :=
| Ok (a : A)
| Raise (e : exn).
Arguments Ok {A} a.
Arguments Raise {A} e.

(** A computation over a mutable state [S]: the state it leaves behind
    is observable also when it raises. *)
Definition M (S A : Type) : Type := S -> S * outcome A.

Definition ret {S A} (a : A) : M S A := fun s => (s, Ok a).

Definition raise {S A} (e : exn) : M S A := fun s => (s, Raise e).

Definition bind {S A B} (c : M S A) (k : A -> M S B) : M S B :=
  fun s =>
    match c s with
    | (s', Ok a) => k a s'
    | (s', Raise e) => (s', Raise e)
    end.

Definition get {S} : M S S := fun s => (s, Ok s).

Definition put {S} (s : S) : M S unit := fun _ => (s, Ok tt).

Definition modify {S} (f : S -> S) : M S unit := fun s => (f s, Ok tt).

(** [for x in l: body x] *)
Fixpoint for_each {S A} (l : list A) (body : A -> M S unit) : M S unit :=
  match l with
  | [] => ret tt
  | x :: rest => bind (body x) (fun _ => for_each rest body)
  end.

End Py.

Declare Scope py_scope.
Delimit Scope py_scope with py.
Notation "'let!' x ':=' c 'in' k" := (Py.bind c (fun x => k))
  (at level 10, x pattern, c at level 100, k at level 200) : py_scope.

(** ** Tensor values: reparameterisation and the KL term *)

Module Tensor.

Local Open Scope R_scope.

(** A contiguous tensor: its shape and its elements in row-major order. *)
Record tensor := mkTensor {
  shape : list Z;
  data : list R }.


Definition map_t (f : R -> R) (t : tensor) : tensor :=
  mkTensor (shape t) (map f (data t)).

(** Elementwise binary operation on operands of one shape. Operands of
    different shapes (broadcast or rejected by the library) yield [None]. *)
Definition zip_t (f : R -> R -> R) (a b : tensor) : option tensor :=
  if decide (shape a = shape b)
  then Some (mkTensor (shape a) (zip_with f (data a) (data b)))
  else None.

Definition add : tensor -> tensor -> option tensor := zip_t Rplus.
Definition sub : tensor -> tensor -> option tensor := zip_t Rminus.
Definition mul : tensor -> tensor -> option tensor := zip_t Rmult.

Definition add_scalar (c : R) : tensor -> tensor := map_t (fun x => c + x).
Definition mul_scalar (c : R) : tensor -> tensor := map_t (fun x => c * x).
Definition scale (t : tensor) (c : R) : tensor := map_t (fun x => x * c) t.
Definition pow (t : tensor) (n : nat) : tensor := map_t (fun x => x ^ n) t.
Definition exp_t : tensor -> tensor := map_t exp.

(** [torch.clamp(t, lo, hi)] *)
Definition clamp (t : tensor) (lo hi : R) : tensor :=
  map_t (fun x => Rmin (Rmax x lo) hi) t.

(** [torch.sum(t)] *)
Definition sum (t : tensor) : R := fold_right Rplus 0 (data t).


(** [torch.randn_like(t)]: the generator is the sequence [noise] of the
    samples it hands out, one per element. *)
Definition randn_like (noise : nat -> R) (t : tensor) : tensor :=
  mkTensor (shape t) (map noise (seq 0 (length (data t)))).

(** Row-major split of [n] blocks of [block] elements, each into its
    first [k] elements and the rest. *)
Fixpoint chunk_data (n block k : nat) (d : list R) : list R * list R :=
  match n with
  | O => ([], [])
  | S n' =>
      let b := take block d in
      let '(m, l) := chunk_data n' block k (drop block d) in
      (take k b ++ m, drop k b ++ l)
  end.

(** [a, b = torch.chunk(x, 2, dim=1)] *)
Definition chunk2_dim1 (x : tensor) : option (tensor * tensor) :=
  match shape x with
  | n :: c :: rest =>
      match Shape.chunk_sizes c 2 with
      | [c1; c2] =>
          let inner := Z.to_nat (Shape.numel rest) in
          let '(m, l) := chunk_data (Z.to_nat n) (Z.to_nat c * inner)
                           (Z.to_nat c1 * inner) (data x) in
          Some (mkTensor (n :: c1 :: rest) m, mkTensor (n :: c2 :: rest) l)
      | _ => None
      end
  | _ => None
  end.

(** *** [Encoder.forward] after the convolution stack

    [layers] is the loop over the members of the [nn.Sequential] (its
    arithmetic is the tensor library's); [noise] is what [randn_like]
    draws. *)
Definition Encoder_forward (layers : tensor -> option tensor)
    (mult_factor : R) (noise : nat -> R) (x : tensor)
  : option (tensor * (tensor * tensor)) :=
  x ← layers x;
  '(mean, log_variance) ← chunk2_dim1 x;
  let log_variance := clamp log_variance (-30) 20 in
  let std := exp_t (mul_scalar 0.5 log_variance) in
  let eps := randn_like noise std in
  n ← mul eps std;
  x ← add mean n;
  let out := scale x mult_factor in
  Some (out, (mean, log_variance)).

(** [Decoder.forward] first removes the encoder's scaling. *)
Definition Decoder_forward (layers : tensor -> option tensor)
    (mult_factor : R) (x : tensor) : option tensor :=
  let x := map_t (fun v => v / mult_factor) x in
  layers x.

(** *** [KLDiv] *)

Record KLDiv := mkKLDiv { beta : R }.

Definition KLDiv_forward (self : KLDiv) (mean log_variance : tensor) : option R :=
  a ← sub (add_scalar 1 log_variance) (pow mean 2);
  b ← sub a (exp_t log_variance);
  let x := sum b in
  let kl_divergence := -0.5 * x in
  let output := beta self * kl_divergence in
  Some output.

(** The closed form the documentation gives for the KL term: one sum
    over the paired elements of the two tensors. *)
Definition kl_term (m l : R) : R := 1 + l - m ^ 2 - exp l.


End Tensor.

(** ** [AvgMeter] *)

Module AvgMeter.

Local Open Scope R_scope.

Record AvgMeter := mkAvgMeter {
  total : R;
  count : Z }.

Definition init (val : R) : AvgMeter := {| total := val; count := 0 |}.

Definition reset (self : AvgMeter) : AvgMeter := {| total := 0; count := 0 |}.

(** [__add__] updates the meter in place and returns it. *)
Definition add (self : AvgMeter) (other : R) : AvgMeter :=
  {| total := total self + other; count := count self + 1 |}.

(** Python's [/] raises on a zero divisor. *)
Definition truediv (a : R) (b : Z) : Py.outcome R :=
  if (b =? 0)%Z then Py.Raise Py.ZeroDivisionError else Py.Ok (a / IZR b).

Definition avg (self : AvgMeter) : Py.outcome R :=
  if (0 <? count self)%Z then truediv (total self) (count self)
  else Py.Ok 0.

(** [Trainer._update_losses(input_losses, output_losses)]; the input
    dictionary is the list of its items. *)
Definition _update_losses (input_losses : list (string * R))
    (output_losses : gmap string AvgMeter) : gmap string AvgMeter :=
  fold_left
    (fun output_losses '(key, val) =>
       match output_losses !! key with
       | Some m => <[key := add m val]> output_losses
       | None => <[key := init val]> output_losses
       end)
    input_losses output_losses.

End AvgMeter.

(** ** [Metric] *)

Module Metric.

Import Py.
Local Open Scope py_scope.

Section WithValue.

(** The numbers kept in the buffers are only stored and copied; [nan] is
    numpy's [nan], the mark of an entry not written yet.
    [class_attribute] tells the names that [hasattr] finds on the class
    and its bases rather than in the instance dictionary. *)
Context {value : Type} (nan : value) (class_attribute : string -> bool).

(** What an entry of a [Metric]'s [__dict__] holds: an integer
    ([num_epochs], [num_channels]), the list of channel labels, or a
    2-D array with one row per channel and one column per epoch. *)
Inductive attr :=
| A_int (z : Z)
| A_channels (l : list string)
| A_buffer (b : list (list value)).

(** Objects are referred to by address; the store maps an address to the
    object's [__dict__]. [log] is what the logger has been given. *)
Record world := mkWorld {
  objects : gmap positive (gmap string attr);
  log : list string }.

Definition read (l : positive) : M world (gmap string attr) :=
  fun w => (w, Ok (objects w !!! l)).

Definition write (l : positive) (d : gmap string attr) : M world unit :=
  modify (fun w => mkWorld (<[l := d]> (objects w)) (log w)).

Definition alloc (d : gmap string attr) : M world positive :=
  fun w =>
    let l := fresh (dom (objects w)) in
    (mkWorld (<[l := d]> (objects w)) (log w), Ok l).

Definition logger (msg : string) : M world unit :=
  modify (fun w => mkWorld (objects w) (log w ++ [msg])).

(** [self.name] for a data attribute *)
Definition getattr (self : positive) (name : string) : M world attr :=
  let! d := read self in
  match d !! name with
  | Some a => ret a
  | None => raise AttributeError
  end.

(** [self.name = a] *)
Definition setattr (self : positive) (name : string) (a : attr) : M world unit :=
  let! d := read self in
  write self (<[name := a]> d).

(** [d[name]] *)
Definition getitem (d : positive) (name : string) : M world attr :=
  let! m := read d in
  match m !! name with
  | Some a => ret a
  | None => raise KeyError
  end.

(** [del d[name]] *)
Definition delitem (d : positive) (name : string) : M world unit :=
  let! m := read d in
  match m !! name with
  | Some _ => write d (delete name m)
  | None => raise KeyError
  end.

Definition hasattr (self : positive) (name : string) : M world bool :=
  let! d := read self in
  ret (bool_decide (is_Some (d !! name)) || class_attribute name).

Definition as_int {S} (a : attr) : M S Z :=
  match a with
  | A_int z => ret z
  | _ => raise TypeError
  end.

Definition as_buffer {S} (a : attr) : M S (list (list value)) :=
  match a with
  | A_buffer b => ret b
  | _ => raise TypeError
  end.

(** [range(n)] *)
Definition range (n : Z) : list Z := map Z.of_nat (seq 0 (Z.to_nat n)).

(** [new_buffer]: [np.zeros((num_channels, num_epochs))] filled with
    [nan]; a negative extent is refused. *)
Definition new_buffer {S} (num_channels num_epochs : Z) : M S (list (list value)) :=
  if (num_channels <? 0) || (num_epochs <? 0) then raise ValueError
  else ret (replicate (Z.to_nat num_channels) (replicate (Z.to_nat num_epochs) nan)).

(** [Metric(num_epochs, num_channels)] *)
Definition init (num_epochs num_channels : Z) : M world positive :=
  let channels := map (fun c => "ch_" +:+ pretty c) (range num_channels) in
  let! mse_losses := new_buffer num_channels num_epochs in
  let! kl_divergence_losses := new_buffer num_channels num_epochs in
  alloc (<["kl_divergence_losses" := A_buffer kl_divergence_losses]>
         (<["mse_losses" := A_buffer mse_losses]>
         (<["channels" := A_channels channels]>
         (<["num_channels" := A_int num_channels]>
         (<["num_epochs" := A_int num_epochs]> ∅))))).

(** [channels.index(name)] *)
Fixpoint index_of (name : string) (l : list string) : option Z :=
  match l with
  | [] => None
  | x :: rest =>
      if decide (x = name) then Some 0
      else option_map Z.succ (index_of name rest)
  end.

Definition channel_id (self : positive) (name : string) : M world Z :=
  let! a := getattr self "channels" in
  match a with
  | A_channels channels =>
      match index_of name channels with
      | Some i => ret i
      | None => raise ValueError
      end
  | _ => raise TypeError
  end.

(** [b[i, j] = v] with non-negative indices: out of bounds is an
    [IndexError]. *)
Definition buffer_set (b : list (list value)) (i j : Z) (v : value)
  : option (list (list value)) :=
  match b !! Z.to_nat i with
  | Some row =>
      if (0 <=? i) && (0 <=? j) && (j <? Z.of_nat (length row))
      then Some (<[Z.to_nat i := <[Z.to_nat j := v]> row]> b)
      else None
  | None => None
  end.

(** [self.__dict__[m_name][i, j] = v] *)
Definition store_cell (self : positive) (m_name : string) (i j : Z) (v : value)
  : M world unit :=
  let! target := getitem self m_name in
  let! b := as_buffer target in
  match buffer_set b i j v with
  | Some b' =>
      let! d := read self in
      write self (<[m_name := A_buffer b']> d)
  | None => raise IndexError
  end.

(** The values given for one metric name: a dictionary from channel
    label to value (the list of its items), a list with one value per
    channel, or anything else. *)
Inductive m_values_t :=
| MV_dict (items : list (string * value))
| MV_list (l : list value)
| MV_other.

(** [Metric.__setitem__(epoch, metric_values)]; [metric_values] is the
    list of the dictionary's items. *)
Definition __setitem__ (self : positive) (epoch : Z)
    (metric_values : list (string * m_values_t)) : M world unit :=
  let! a := getattr self "num_epochs" in
  let! num_epochs := as_int a in
  if negb ((0 <=? epoch) && (epoch <? num_epochs)) then
    logger ("Epoch indexed is out of range. The max epoch indexable is "
            +:+ pretty num_epochs)
  else
    for_each metric_values (fun '(m_name, m_values) =>
      let! has := hasattr self m_name in
      if negb has then
        logger ("Metric named " +:+ m_name +:+ " is not defined")
      else
        match m_values with
        | MV_dict items =>
            for_each items (fun '(chn, m_value) =>
              let! chi := channel_id self chn in
              store_cell self m_name chi epoch m_value)
        | MV_list l =>
            let! nc := getattr self "num_channels" in
            match nc with
            | A_int num_channels =>
                if negb (Z.of_nat (length l) =? num_channels) then raise ValueError
                else
                  for_each (range num_channels) (fun i =>
                    match l !! Z.to_nat i with
                    | Some v => store_cell self m_name i epoch v
                    | None => raise IndexError
                    end)
            | _ => raise ValueError
            end
        | MV_other => ret tt
        end).

(** [Metric.state_dict] hands out the instance dictionary itself. *)
Definition state_dict (self : positive) : positive := self.

(** [row[:n]] *)
Definition slice_to (n : Z) (row : list value) : list value :=
  if 0 <=? n then take (Z.to_nat n) row
  else take (Z.to_nat (Z.of_nat (length row) + n)) row.

(** [metric[i, :n] = values[i, :n]]: the right-hand side must have the
    length of the slice it replaces, or length one (it is then repeated). *)
Definition copy_row (metric values : list (list value)) (i n : Z)
  : outcome (list (list value)) :=
  match values !! Z.to_nat i, metric !! Z.to_nat i with
  | Some vrow, Some mrow =>
      let src := slice_to n vrow in
      let len := length (slice_to n mrow) in
      if decide (length src = len) then
        Ok (<[Z.to_nat i := src ++ drop len mrow]> metric)
      else
        match src with
        | [v] => Ok (<[Z.to_nat i := replicate len v ++ drop len mrow]> metric)
        | _ => Raise ValueError
        end
  | _, _ => Raise IndexError
  end.

(** [Metric.load(state_dict, new_num_epochs)] *)
Definition load (state_dict : option positive) (new_num_epochs : option Z)
  : M world (option positive) :=
  match state_dict with
  | None => ret None
  | Some sd =>
      let! d := read sd in
      if decide (d = ∅) then ret None
      else
        let! a := getitem sd "num_epochs" in
        let! c := getitem sd "num_channels" in
        let! num_epochs := as_int a in
        let! num_channels := as_int c in
        let! instance :=
          match new_num_epochs with
          | Some new =>
              if negb (new =? 0) && (num_epochs <? new)
              then init new num_channels
              else init num_epochs num_channels
          | None => init num_epochs num_channels
          end in
        let! channels := getitem sd "channels" in
        let! _ := setattr instance "channels" channels in
        let! _ := delitem sd "num_epochs" in
        let! _ := delitem sd "num_channels" in
        let! _ := delitem sd "channels" in
        let! d := read sd in
        let! _ :=
          for_each (map_to_list d) (fun '(name, values) =>
            let! metric := getitem instance name in
            let! nc := getattr instance "num_channels" in
            let! nc := as_int nc in
            for_each (range nc) (fun i =>
              let! metric := getitem instance name in
              let! mb := as_buffer metric in
              let! vb := as_buffer values in
              match copy_row mb vb i num_epochs with
              | Ok mb' => setattr instance name (A_buffer mb')
              | Raise e => raise e
              end)) in
        let! _ := logger "Metric state dict is loaded successfully" in
        ret (Some instance)
  end.

(** *** Vocabulary for the statements about [load] *)

(** The dictionary of a [Metric]. *)
Definition metric_dict (num_epochs num_channels : Z) (channels : attr)
    (mse_losses kl_divergence_losses : list (list value))
  : gmap string attr :=
  <["kl_divergence_losses" := A_buffer kl_divergence_losses]>
  (<["mse_losses" := A_buffer mse_losses]>
  (<["channels" := channels]>
  (<["num_channels" := A_int num_channels]>
  (<["num_epochs" := A_int num_epochs]> ∅)))).

Definition nan_buffer (num_channels num_epochs : Z) : list (list value) :=
  replicate (Z.to_nat num_channels) (replicate (Z.to_nat num_epochs) nan).

(** The dictionary a freshly constructed [Metric] starts with. *)
Definition fresh_dict (num_epochs num_channels : Z) : gmap string attr :=
  metric_dict num_epochs num_channels
    (A_channels (map (fun c => "ch_" +:+ pretty c) (range num_channels)))
    (nan_buffer num_channels num_epochs) (nan_buffer num_channels num_epochs).

(** A buffer with [num_channels] rows of [num_epochs] entries. *)
Definition buffer_dims (num_channels num_epochs : Z) (b : list (list value)) : Prop :=
  length b = Z.to_nat num_channels /\
  Forall (fun row => length row = Z.to_nat num_epochs) b.

(** A buffer with [k] more epochs, not written yet. *)
Definition extend (k : Z) (b : list (list value)) : list (list value) :=
  map (fun row => row ++ replicate (Z.to_nat k) nan) b.

(** The epoch capacity [load] gives the instance it returns. *)
Definition capacity (num_epochs : Z) (new_num_epochs : option Z) : Z :=
  match new_num_epochs with
  | Some new => if num_epochs <? new then new else num_epochs
  | None => num_epochs
  end.


End WithValue.

Arguments attr : clear implicits.
Arguments world : clear implicits.
Arguments m_values_t : clear implicits.

End Metric.

(** ** [Trainer] *)

Module Trainer.

Import Py.
Local Open Scope py_scope.

(** The tensor engine: the types and the numerical routines the trainer
    calls without looking inside. A random generator is the state its
    draws advance. *)
Class Engine := {
  tensor : Type;
  weights : Type;
  grad : Type;
  opt_state : Type;
  sched_state : Type;
  config_t : Type;
  rng : Type;
  (** [len(t)]: the extent of the first axis, the number of samples *)
  len : tensor -> Z;
  (** the preprocessor [Input.forward] *)
  input_function : tensor -> tensor;
  (** [Encoder.forward], drawing its noise from torch's generator *)
  encoder : weights -> tensor -> rng -> (tensor * (tensor * tensor)) * rng;
  decoder : weights -> tensor -> tensor;
  (** [nn.MSELoss] and [KLDiv], read back with [.item()] *)
  mse_loss : tensor -> tensor -> R;
  kl_div : tensor -> tensor -> R;
  (** [loss.backward()] for the pass on [images], [targets] that started
      from the given generator state: adds to the stored gradients *)
  backward : weights -> tensor -> tensor -> rng -> grad -> grad;
  optimizer_step : opt_state -> weights -> grad -> opt_state * weights;
  zero_grad : grad -> grad;
  optimizer_load_state_dict : opt_state -> opt_state -> opt_state;
  scheduler_load_state_dict : sched_state -> sched_state -> sched_state;
  (** [np.random.rand()] *)
  np_random_rand : rng -> R * rng }.

Section WithEngine.

Context `{Engine} {value : Type} (nan : value).

(** Calls that leave the trainer: to the autograd engine, the optimizer,
    the progress bar's [write] and the sample generator. *)
Inductive call :=
| Backward
| OptimizerStep
| ZeroGrad
| Write (recon_avg kl_avg : R)
| Generate (reconstructed references : tensor).

(** What a checkpoint file holds under one of its keys. *)
Inductive ckpt_value :=
| CV_config (c : config_t)
| CV_weights (w : weights)
| CV_optimizer (o : opt_state)
| CV_scheduler (s : sched_state)
| CV_int (z : Z)
| CV_metric (d : gmap string (Metric.attr value)).

(** The attributes of a [Trainer] instance. *)
Record Trainer := mkTrainer {
  config : config_t;
  params : weights;
  grads : grad;
  optimizer : opt_state;
  lr_scheduler : sched_state;
  metric : option positive;
  recon_loss : AvgMeter.AvgMeter;
  kl_loss : AvgMeter.AvgMeter;
  gas : Z;
  num_epochs : Z;
  gac : Z;
  checkpoint_dir : string;
  resume_ckpt : option string;
  epoch : Z }.

(** The process the trainer runs in. *)
Record process := mkProcess {
  heap : Metric.world value;
  files : gmap string (gmap string ckpt_value);
  torch_rng : rng;
  numpy_rng : rng;
  calls : list call }.

Definition state : Type := Trainer * process.

Definition set_params (v : weights) (t : Trainer) : Trainer :=
  mkTrainer (config t) v (grads t) (optimizer t) (lr_scheduler t) (metric t)
    (recon_loss t) (kl_loss t) (gas t) (num_epochs t) (gac t)
    (checkpoint_dir t) (resume_ckpt t) (epoch t).

Definition set_grads (v : grad) (t : Trainer) : Trainer :=
  mkTrainer (config t) (params t) v (optimizer t) (lr_scheduler t) (metric t)
    (recon_loss t) (kl_loss t) (gas t) (num_epochs t) (gac t)
    (checkpoint_dir t) (resume_ckpt t) (epoch t).

Definition set_optimizer (v : opt_state) (t : Trainer) : Trainer :=
  mkTrainer (config t) (params t) (grads t) v (lr_scheduler t) (metric t)
    (recon_loss t) (kl_loss t) (gas t) (num_epochs t) (gac t)
    (checkpoint_dir t) (resume_ckpt t) (epoch t).

Definition set_lr_scheduler (v : sched_state) (t : Trainer) : Trainer :=
  mkTrainer (config t) (params t) (grads t) (optimizer t) v (metric t)
    (recon_loss t) (kl_loss t) (gas t) (num_epochs t) (gac t)
    (checkpoint_dir t) (resume_ckpt t) (epoch t).

Definition set_metric (v : option positive) (t : Trainer) : Trainer :=
  mkTrainer (config t) (params t) (grads t) (optimizer t) (lr_scheduler t) v
    (recon_loss t) (kl_loss t) (gas t) (num_epochs t) (gac t)
    (checkpoint_dir t) (resume_ckpt t) (epoch t).

Definition set_recon_loss (v : AvgMeter.AvgMeter) (t : Trainer) : Trainer :=
  mkTrainer (config t) (params t) (grads t) (optimizer t) (lr_scheduler t)
    (metric t) v (kl_loss t) (gas t) (num_epochs t) (gac t)
    (checkpoint_dir t) (resume_ckpt t) (epoch t).

Definition set_kl_loss (v : AvgMeter.AvgMeter) (t : Trainer) : Trainer :=
  mkTrainer (config t) (params t) (grads t) (optimizer t) (lr_scheduler t)
    (metric t) (recon_loss t) v (gas t) (num_epochs t) (gac t)
    (checkpoint_dir t) (resume_ckpt t) (epoch t).

Definition set_gac (v : Z) (t : Trainer) : Trainer :=
  mkTrainer (config t) (params t) (grads t) (optimizer t) (lr_scheduler t)
    (metric t) (recon_loss t) (kl_loss t) (gas t) (num_epochs t) v
    (checkpoint_dir t) (resume_ckpt t) (epoch t).

Definition set_epoch (v : Z) (t : Trainer) : Trainer :=
  mkTrainer (config t) (params t) (grads t) (optimizer t) (lr_scheduler t)
    (metric t) (recon_loss t) (kl_loss t) (gas t) (num_epochs t) (gac t)
    (checkpoint_dir t) (resume_ckpt t) v.

Definition set_heap (v : Metric.world value) (p : process) : process :=
  mkProcess v (files p) (torch_rng p) (numpy_rng p) (calls p).

Definition set_files (v : gmap string (gmap string ckpt_value)) (p : process)
  : process :=
  mkProcess (heap p) v (torch_rng p) (numpy_rng p) (calls p).

Definition set_torch_rng (v : rng) (p : process) : process :=
  mkProcess (heap p) (files p) v (numpy_rng p) (calls p).

Definition set_numpy_rng (v : rng) (p : process) : process :=
  mkProcess (heap p) (files p) (torch_rng p) v (calls p).

Definition add_call (c : call) (p : process) : process :=
  mkProcess (heap p) (files p) (torch_rng p) (numpy_rng p) (calls p ++ [c]).

(** Access to the two halves of the state. *)
Definition self : M state Trainer := fun s => (s, Ok s.1).
Definition update (f : Trainer -> Trainer) : M state unit :=
  modify (fun s => (f s.1, s.2)).
Definition proc : M state process := fun s => (s, Ok s.2).
Definition update_proc (f : process -> process) : M state unit :=
  modify (fun s => (s.1, f s.2)).
Definition do_call (c : call) : M state unit := update_proc (add_call c).

Definition lift {S A} (o : outcome A) : M S A := fun s => (s, o).

(** Runs a computation on the heap of metric objects. *)
Definition on_heap {A} (c : M (Metric.world value) A) : M state A :=
  fun s =>
    let '(h, o) := c (heap s.2) in
    ((s.1, set_heap h s.2), o).

Definition logger (msg : string) : M state unit := on_heap (Metric.logger msg).

(** *** [train_step] *)

Definition train_step (images targets : tensor) (optimize : bool) : M state unit :=
  (* forward pass *)
  let! t := self in
  let! p := proc in
  let '(encoded, (mean, log_variance), g) := encoder (params t) images (torch_rng p) in
  let! _ := update_proc (set_torch_rng g) in
  let reconstructed_image := decoder (params t) encoded in
  (* losses *)
  let reconstructed_loss := mse_loss reconstructed_image targets in
  let kl_divergence := kl_div mean log_variance in
  (* backward pass *)
  let! _ := update (set_grads (backward (params t) images targets (torch_rng p) (grads t))) in
  let! _ := do_call Backward in
  let! _ := update (fun t => set_recon_loss (AvgMeter.add (recon_loss t) reconstructed_loss) t) in
  let! _ := update (fun t => set_kl_loss (AvgMeter.add (kl_loss t) kl_divergence) t) in
  let! _ := update (fun t => set_gac (gac t + len images) t) in
  let! t := self in
  if (gas t <=? gac t) || optimize then
    let '(o, w) := optimizer_step (optimizer t) (params t) (grads t) in
    let! _ := update (fun t => set_params w (set_optimizer o t)) in
    let! _ := do_call OptimizerStep in
    let! _ := update (fun t => set_grads (zero_grad (grads t)) t) in
    let! _ := do_call ZeroGrad in
    let! r := lift (AvgMeter.avg (recon_loss t)) in
    let! k := lift (AvgMeter.avg (kl_loss t)) in
    let! _ := do_call (Write r k) in
    update (set_gac 0)
  else ret tt.

(** *** [train_one_epoch]

    [train_loader] is the list of the mini-batches the loader yields in
    this epoch, so that [len(train_loader)] is its length. The result is
    the pair ([mse_losses], [kl_divergence_losses]) of [loss_data], or
    [None] for the empty dictionary. *)

Fixpoint train_loop (length index : Z) (batches : list (tensor * tensor))
    (loss_data : option (R * R)) : M state (option (R * R)) :=
  match batches with
  | [] => ret loss_data
  | (images, targets) :: rest =>
      let images := input_function images in
      let targets := input_function targets in
      let is_last_index := length - 1 <=? index in
      let! _ := train_step images targets is_last_index in
      let! t := self in
      let! r := lift (AvgMeter.avg (recon_loss t)) in
      let! k := lift (AvgMeter.avg (kl_loss t)) in
      train_loop length (index + 1) rest (Some (r, k))
  end.

Definition train_one_epoch (train_loader : list (tensor * tensor))
  : M state (option (R * R)) :=
  let! _ := update (fun t => set_recon_loss (AvgMeter.reset (recon_loss t)) t) in
  let! _ := update (fun t => set_kl_loss (AvgMeter.reset (kl_loss t)) t) in
  let length := Z.of_nat (List.length train_loader) in
  let! _ := update (fun t => set_grads (zero_grad (grads t)) t) in
  let! _ := do_call ZeroGrad in
  train_loop length 0 train_loader None.

(** *** [validate] *)

(** The local variables of [validate] that outlive an iteration:
    [references] and [predictions] start as [None]; [reconstructed_image]
    and [targets] are unbound until the loop body has run once. *)
Record validate_locals := mkLocals {
  loss_data : option (R * R);
  references : option tensor;
  predictions : option tensor;
  reconstructed_image : option tensor;
  targets : option tensor }.

Definition validate_body (l : validate_locals) (batch : tensor * tensor)
  : M state validate_locals :=
  let '(images, targets) := batch in
  let images := input_function images in
  let targets := input_function targets in
  let! t := self in
  let! p := proc in
  let '(encoded, (mean, log_variance), g) := encoder (params t) images (torch_rng p) in
  let! _ := update_proc (set_torch_rng g) in
  let reconstructed_image := decoder (params t) encoded in
  let reconstructed_loss := mse_loss reconstructed_image targets in
  let kl_divergence := kl_div mean log_variance in
  let! _ := update (fun t => set_recon_loss (AvgMeter.add (recon_loss t) reconstructed_loss) t) in
  let! _ := update (fun t => set_kl_loss (AvgMeter.add (kl_loss t) kl_divergence) t) in
  let! t := self in
  let! r := lift (AvgMeter.avg (recon_loss t)) in
  let! k := lift (AvgMeter.avg (kl_loss t)) in
  let! p := proc in
  let '(random_val, g) := np_random_rand (numpy_rng p) in
  let! _ := update_proc (set_numpy_rng g) in
  let none_in :=
    match predictions l, references l with
    | Some _, Some _ => false
    | _, _ => true
    end in
  if none_in && (if Rlt_dec random_val 0.3 then true else false) then
    ret (mkLocals (Some (r, k)) (Some targets) (Some reconstructed_image)
           (Some reconstructed_image) (Some targets))
  else
    ret (mkLocals (Some (r, k)) (references l) (predictions l)
           (Some reconstructed_image) (Some targets)).

Fixpoint validate_loop (l : validate_locals) (val_loader : list (tensor * tensor))
  : M state validate_locals :=
  match val_loader with
  | [] => ret l
  | batch :: rest =>
      let! l := validate_body l batch in
      validate_loop l rest
  end.

(** [SPG.generate(reconstructed, references)] *)
Definition generate (reconstructed references : tensor) : M state unit :=
  do_call (Generate reconstructed references).

Definition validate (val_loader : list (tensor * tensor)) : M state (option (R * R)) :=
  let! _ := update (fun t => set_recon_loss (AvgMeter.reset (recon_loss t)) t) in
  let! _ := update (fun t => set_kl_loss (AvgMeter.reset (kl_loss t)) t) in
  let! l := validate_loop (mkLocals None None None None None) val_loader in
  match reconstructed_image l, targets l with
  | Some reconstructed_image, Some targets =>
      let! _ := generate reconstructed_image targets in
      ret (loss_data l)
  | _, _ => raise UnboundLocalError
  end.

(** *** [checkpoint] and [load_checkpoint] *)

Fixpoint ends_with_slash (s : string) : bool :=
  match s with
  | EmptyString => false
  | String c EmptyString => bool_decide (c = Ascii.ascii_of_nat 47)
  | String _ rest => ends_with_slash rest
  end.

(** [os.path.join(a, b)] for a relative [b] *)
Definition path_join (a b : string) : string :=
  if decide (a = "") then b
  else if ends_with_slash a then a +:+ b
  else a +:+ "/" +:+ b.

(** [Trainer.checkpoint] with its keyword arguments. The encoder's and the decoder's state
    dictionaries are both read off the trainer's parameters; the metric
    state is the metric's dictionary as it stands when the file is
    written. *)
Definition checkpoint (kwargs : gmap string ckpt_value) : M state unit :=
  let! t := self in
  let! m := match metric t with
            | Some m => ret m
            | None => raise AttributeError
            end in
  let! metric_state_dict := on_heap (Metric.read (Metric.state_dict m)) in
  let checkpoint : gmap string ckpt_value :=
    kwargs ∪
    <["model_config" := CV_config (config t)]>
    (<["encoder_model_state_dict" := CV_weights (params t)]>
    (<["decoder_model_state_dict" := CV_weights (params t)]>
    (<["optimizer_state_dict" := CV_optimizer (optimizer t)]>
    (<["lr_scheduler_state_dict" := CV_scheduler (lr_scheduler t)]>
    (<["epoch" := CV_int (epoch t)]>
    (<["metric_state_dict" := CV_metric metric_state_dict]> ∅)))))) in
  let file_path1 := path_join (checkpoint_dir t) "checkpoint.pth" in
  let file_path2 :=
    path_join (checkpoint_dir t) ("checkpoint_" +:+ pretty (epoch t) +:+ ".pth") in
  let! _ := update_proc (fun p => set_files (<[file_path1 := checkpoint]> (files p)) p) in
  let! _ := update_proc (fun p =>
              match files p !! file_path1 with
              | Some f => set_files (<[file_path2 := f]> (files p)) p
              | None => p
              end) in
  let! _ := logger "Checkpoint done successfully" in
  if 2 <=? epoch t then
    let old_checkpoint_file :=
      path_join (checkpoint_dir t)
        ("checkpoint_" +:+ pretty (epoch t - 2) +:+ ".pth") in
    let! p := proc in
    match files p !! old_checkpoint_file with
    | Some _ =>
        let! _ := update_proc (fun p => set_files (delete old_checkpoint_file (files p)) p) in
        logger (old_checkpoint_file +:+ " checkpoint is removed.")
    | None => ret tt
    end
  else ret tt.

(** [ckpt_data[key]] *)
Definition ckpt_getitem {S} (ckpt_data : gmap string ckpt_value) (key : string)
  : M S ckpt_value :=
  match ckpt_data !! key with
  | Some v => ret v
  | None => raise KeyError
  end.

(** [Trainer.load_checkpoint]. The file's metric dictionary is a fresh
    object; a value of another kind under that key is falsy ([0]) or
    cannot be indexed by name. *)
Definition load_checkpoint : M state unit :=
  let! t := self in
  match resume_ckpt t with
  | None => ret tt
  | Some path =>
      if decide (path = "") then ret tt
      else
        let! p := proc in
        match files p !! path with
        | None => logger ("No such checkpoint file at " +:+ path)
        | Some ckpt_data =>
            let! o := ckpt_getitem ckpt_data "optimizer_state_dict" in
            let! o := match o with
                      | CV_optimizer o => ret o
                      | _ => raise TypeError
                      end in
            let! _ := update (fun t => set_optimizer (optimizer_load_state_dict (optimizer t) o) t) in
            let! s := ckpt_getitem ckpt_data "lr_scheduler_state_dict" in
            let! s := match s with
                      | CV_scheduler s => ret s
                      | _ => raise TypeError
                      end in
            let! _ := update (fun t => set_lr_scheduler (scheduler_load_state_dict (lr_scheduler t) s) t) in
            let! e := ckpt_getitem ckpt_data "epoch" in
            let! e := match e with
                      | CV_int e => ret e
                      | _ => raise TypeError
                      end in
            let! _ := update (set_epoch (e + 1)) in
            let! sd := match ckpt_data !! "metric_state_dict" with
                       | None => ret None
                       | Some (CV_metric d) =>
                           let! l := on_heap (Metric.alloc d) in
                           ret (Some l)
                       | Some (CV_int 0) => ret None
                       | Some _ => raise TypeError
                       end in
            let! t := self in
            let! m := on_heap (Metric.load nan sd (Some (num_epochs t))) in
            let! _ := update (set_metric m) in
            logger ("Checkpoint loaded successfully from " +:+ path +:+ "!")
        end
  end.

(** *** Vocabulary for the statements about the loops *)

(** For each optimizer step among [calls], the number of backward passes
    made before it: the batch after which the step was taken. *)
Fixpoint optimizer_steps (seen : Z) (calls : list call) : list Z :=
  match calls with
  | [] => []
  | Backward :: rest => optimizer_steps (seen + 1) rest
  | OptimizerStep :: rest => seen :: optimizer_steps seen rest
  | _ :: rest => optimizer_steps seen rest
  end.

(** The schedule of optimizer steps for mini-batches of the given sizes:
    the counter grows by the size of each batch; a step is taken when it
    has reached [gas] or the batch is the last one, and resets it. *)
Fixpoint schedule (gas gac length index : Z) (sizes : list Z) : list Z :=
  match sizes with
  | [] => []
  | n :: rest =>
      if (gas <=? gac + n) || (length - 1 <=? index)
      then (index + 1) :: schedule gas 0 length (index + 1) rest
      else schedule gas (gac + n) length (index + 1) rest
  end.

(** The numbers of samples of the mini-batches of a loader. *)
Definition sizes (loader : list (tensor * tensor)) : list Z :=
  map (fun b => len (input_function b.1)) loader.

(** The schedule as the specification words it: steps after batches 4,
    8 and 10 of the epoch. *)
Definition steps_after_4_8_10 (train_loader : list (tensor * tensor))
    (s : state) : Prop :=
  exists s' r new_calls,
    train_one_epoch train_loader s = (s', Ok r) /\
    calls s'.2 = calls s.2 ++ new_calls /\
    optimizer_steps 0 new_calls = [4; 8; 10].

(** What one pass of the validation loop body computes for a batch when
    it starts in state [s]: the reconstruction. *)
Definition reconstruction (s : state) (batch : tensor * tensor) : tensor :=
  decoder (params s.1)
    (encoder (params s.1) (input_function batch.1) (torch_rng s.2)).1.1.

(** The state in which [validate] enters its loop. *)
Definition validate_entry (s : state) : state :=
  (set_kl_loss (AvgMeter.reset (kl_loss s.1))
     (set_recon_loss (AvgMeter.reset (recon_loss s.1)) s.1), s.2).

End WithEngine.

End Trainer.

(** ** Concrete instances used in the examples *)

Module Toy.

(** A tensor engine that keeps of a batch only its number of samples. *)
Definition toy_engine : Trainer.Engine :=
  {| Trainer.tensor := Z;
     Trainer.weights := unit;
     Trainer.grad := unit;
     Trainer.opt_state := Z;
     Trainer.sched_state := Z;
     Trainer.config_t := unit;
     Trainer.rng := unit;
     Trainer.len := fun t => t;
     Trainer.input_function := fun t => t;
     Trainer.encoder := fun _ x g => ((x, (x, x)), g);
     Trainer.decoder := fun _ x => x;
     Trainer.mse_loss := fun _ _ => 0%R;
     Trainer.kl_div := fun _ _ => 0%R;
     Trainer.backward := fun _ _ _ _ g => g;
     Trainer.optimizer_step := fun o w _ => (o, w);
     Trainer.zero_grad := fun g => g;
     Trainer.optimizer_load_state_dict := fun _ saved => saved;
     Trainer.scheduler_load_state_dict := fun _ saved => saved;
     Trainer.np_random_rand := fun g => (0%R, g) |}.

Definition toy_trainer (gas : Z) (resume_ckpt : option string)
  : @Trainer.Trainer toy_engine :=
  @Trainer.mkTrainer toy_engine tt tt tt 0 0 None (AvgMeter.init 0) (AvgMeter.init 0)
    gas 1 0 "checkpoints" resume_ckpt 0.

Definition toy_process
    (files : gmap string (gmap string (@Trainer.ckpt_value toy_engine (option Z))))
  : @Trainer.process toy_engine (option Z) :=
  @Trainer.mkProcess toy_engine (option Z) (Metric.mkWorld ∅ []) files tt tt [].

(** Ten mini-batches of [n] samples each, accumulation threshold 4. *)
Definition ten_batches (n : Z) : list (Z * Z) := replicate 10 (n, n).

Definition toy_state : @Trainer.state toy_engine (option Z) :=
  (toy_trainer 4 None, toy_process ∅).

(** A checkpoint file written at epoch 3. *)
Definition toy_checkpoint : gmap string (@Trainer.ckpt_value toy_engine (option Z)) :=
  <["optimizer_state_dict" := @Trainer.CV_optimizer toy_engine (option Z) 7]>
  (<["lr_scheduler_state_dict" := @Trainer.CV_scheduler toy_engine (option Z) 9]>
  (<["epoch" := @Trainer.CV_int toy_engine (option Z) 3]> ∅)).

Definition toy_resume_state (files : gmap string (gmap string (@Trainer.ckpt_value toy_engine (option Z))))
  : @Trainer.state toy_engine (option Z) :=
  (toy_trainer 4 (Some "checkpoints/checkpoint.pth"), toy_process files).

(** A metric for three epochs and two channels, alone in its store. *)
Definition toy_world : Metric.world (option Z) :=
  (Metric.init None 3 2 (Metric.mkWorld ∅ [])).1.

Definition toy_saved_world : Metric.world (option Z) :=
  Metric.mkWorld
    {[ 1%positive :=
         Metric.metric_dict 3 2 (Metric.A_channels ["train"; "val"])
           [[Some 5; Some 4; None]; [Some 6; None; None]]
           [[Some 1; Some 1; None]; [Some 2; None; None]] ]} [].

End Toy.

(** ** The preprocessor, the postprocessor and the loss of a step *)

Module Processing.

Import Shape.

(** [Input]: the configured channel count and image size. *)
Record Input := mkInput {
  inp_img_channels : Z;
  inp_img_size : Z * Z }.

(** The constructor asserts one or three image channels. *)
Definition Input_init (img_channels : Z) (img_size : Z * Z) : option Input :=
  if (img_channels =? 1) || (img_channels =? 3)
  then Some (mkInput img_channels img_size)
  else None.

(** [TF.resize(x, [h, w])]: the two last axes take the requested extents;
    empty images and non-positive targets are refused. *)
Definition resize (x : shape) (size : Z * Z) : option shape :=
  match x with
  | [n; c; h; w] =>
      if (0 <? h) && (0 <? w) && (0 <? size.1) && (0 <? size.2)
      then Some [n; c; size.1; size.2]
      else None
  | _ => None
  end.

(** [x.shape[-2:] != self.img_size] compares a [torch.Size], which is a
    tuple, with a list: never equal, whatever the extents. *)
Definition size_differs_from_list (s : shape) (l : Z * Z) : bool := true.

(** The element types a batch can have: the data set yields [uint8]. *)
Inductive dtype := uint8 | float32.

(** [Input.forward] on a batch laid out as [[batch; w; h; channels]].
    [TF.normalize] raises on a tensor that is not floating point. *)
Definition Input_forward (self : Input) (dt : dtype) (x : shape) : option shape :=
  match x with
  | [b; w; h; c] =>
      if (c =? 1) || (c =? 3) then
        (* x.permute((0, 3, 2, 1)) *)
        let x := [b; c; h; w] in
        x ← (if size_differs_from_list [h; w] (inp_img_size self)
             then resize x (inp_img_size self) else Some x);
        match x with
        | [b; c; h; w] =>
            if (c =? 1) && (inp_img_channels self =? 3) then
              (* torch.cat([x, x, x], dim=1), then TF.normalize *)
              match dt with
              | float32 => Some [b; 3; h; w]
              | uint8 => None
              end
            else if (c =? 3) && (inp_img_channels self =? 1) then
              (* TF.rgb_to_grayscale(x, num_output_channels=1) *)
              Some [b; 1; h; w]
            else Some x
        | _ => None
        end
      else None
  | _ => None
  end.

(** [Output]: the shapes of the per-channel statistics, [[n; 1; 1]] for
    a list of [n] numbers. *)
Record Output := mkOutput {
  out_mean : shape;
  out_std : shape }.

Definition Output_init (mean_length std_length : Z) : Output :=
  mkOutput [mean_length; 1; 1] [std_length; 1; 1].

(** [Output()] with the default statistics of three channels. *)
Definition Output_default : Output := Output_init 3 3.

(** [Output.forward] *)
Definition Output_forward (self : Output) (x : shape) : option shape :=
  (* x.mul(self.std).add(self.mean) *)
  x ← broadcast x (out_std self);
  x ← broadcast x (out_mean self);
  match x with
  | [b; c; h; w] =>
      (* convert to RGB, then x.permute((0, 3, 2, 1)) *)
      let c := if c =? 1 then 3 else c in
      Some [b; w; h; c]
  | _ => None
  end.

(** Shape of the reconstruction as [validate] hands it to the sample
    generator and the generator post-processes it: preprocessing,
    encoder, decoder, postprocessing. *)
Definition rendered_reconstruction (input_function : Input) (encoder decoder : list module)
    (output_function : Output) (dt : dtype) (images : shape) : option shape :=
  images ← Input_forward input_function dt images;
  '(encoded, _) ← Encoder_forward encoder images;
  reconstructed_image ← Decoder_forward decoder encoded;
  Output_forward output_function reconstructed_image.

(** [nn.MSELoss()(input, target)]: the operands are broadcast against
    each other and the mean is a scalar. *)
Definition MSELoss_forward (input target : shape) : option shape :=
  _ ← broadcast input target;
  Some [].

(** Shape of [KLDiv.forward]: the sum of
    [1 + log_variance - mean.pow(2) - log_variance.exp()]. *)
Definition KLDiv_forward (mean log_variance : shape) : option shape :=
  x ← broadcast log_variance mean;
  _ ← broadcast x log_variance;
  Some [].

(** The forward pass and the loss of [train_step] on a raw batch, as
    [train_one_epoch] feeds it: both tensors go through the preprocessor
    first. *)
Definition train_step_loss (input_function : Input) (encoder decoder : list module)
    (dt : dtype) (images targets : shape) : option shape :=
  images ← Input_forward input_function dt images;
  targets ← Input_forward input_function dt targets;
  '(encoded, (mean, log_variance)) ← Encoder_forward encoder images;
  reconstructed_image ← Decoder_forward decoder encoded;
  reconstructed_loss ← MSELoss_forward reconstructed_image targets;
  kl_divergence ← KLDiv_forward mean log_variance;
  broadcast reconstructed_loss kl_divergence.

End Processing.

(** ** Vocabulary for the trace of calls *)

Module Trace.
Import Trainer.

Section WithEngine.
Context `{Engine}.

Definition is_backward (c : call) : bool :=
  match c with Backward => true | _ => false end.

Definition is_optimizer_step (c : call) : bool :=
  match c with OptimizerStep => true | _ => false end.

Definition is_zero_grad (c : call) : bool :=
  match c with ZeroGrad => true | _ => false end.

Definition is_generate (c : call) : bool :=
  match c with Generate _ _ => true | _ => false end.

(** How many of the calls satisfy [p]. *)
Definition count (p : call -> bool) (calls : list call) : nat :=
  length (filter p calls).

(** The calls that change the weights or the gradients. *)
Definition trains (c : call) : bool :=
  is_backward c || is_optimizer_step c || is_zero_grad c.

(** What a training step leaves the trainer: the calls it makes, in
    order, given whether it takes an optimizer step and the two averages
    it reports then. *)
Definition step_calls (fire : bool) (recon_avg kl_avg : R) : list call :=
  Backward :: (if fire then [OptimizerStep; ZeroGrad; Write recon_avg kl_avg] else []).

End WithEngine.
End Trace.

(** ** A toy trainer in the middle of a run *)

Module ToyRun.
Import Toy.

(** A toy trainer in the middle of a run: it has its metric (the object
    at address 1 of [toy_world]) and resumes from its own checkpoint
    file. *)
Definition toy_running_state (epoch : Z) : @Trainer.state toy_engine (option Z) :=
  (@Trainer.mkTrainer toy_engine tt tt tt 7 9 (Some 1%positive)
     (AvgMeter.init 0) (AvgMeter.init 0) 4 3 0 "checkpoints"
     (Some "checkpoints/checkpoint.pth") epoch,
   @Trainer.mkProcess toy_engine (option Z) toy_world ∅ tt tt []).

End ToyRun.

(** ** [_add_to_epoch_results] *)

Module EpochResults.

Import Py.
Local Open Scope py_scope.

(** The dictionary [epc_res]: its items in insertion order, each key
    bound to the address of a list, and the lists themselves. Two keys
    may be bound to one list. *)
Record results := mkResults {
  entries : list (string * positive);
  lists : gmap positive (list R) }.

(** [d[key]] on the items of a dictionary *)
Fixpoint dict_lookup (key : string) (d : list (string * positive)) : option positive :=
  match d with
  | [] => None
  | (k, a) :: rest => if decide (k = key) then Some a else dict_lookup key rest
  end.

(** The body of the loop of [_add_to_epoch_results] for one item. *)
Definition add_item (new_res : gmap string R) (item : string * positive)
  : M results unit :=
  let '(key, val) := item in
  let! epc_res := get in
  match dict_lookup key (entries epc_res) with
  | Some a =>
      (* epc_res[key].append(new_res[key]) *)
      match new_res !! key with
      | Some v =>
          put (mkResults (entries epc_res)
                 (<[a := (lists epc_res !!! a) ++ [v]]> (lists epc_res)))
      | None => raise KeyError
      end
  | None =>
      (* epc_res[key] = [new_res[key]] *)
      match new_res !! key with
      | Some v =>
          let a := fresh (dom (lists epc_res)) in
          put (mkResults (entries epc_res ++ [(key, a)])
                 (<[a := [v]]> (lists epc_res)))
      | None => raise KeyError
      end
  end.

(** [Trainer._add_to_epoch_results(epc_res, new_res)]: the loop runs over
    the items of [epc_res] itself. *)
Definition _add_to_epoch_results (new_res : gmap string R) : M results unit :=
  let! epc_res := get in
  for_each (entries epc_res) (add_item new_res).

(** The lists after the loop has gone through the items [todo]. *)
Definition appended (new_res : gmap string R) (todo : list (string * positive))
    (E : list (string * positive)) (L : gmap positive (list R))
  : gmap positive (list R) :=
  foldl (fun L '(k, _) =>
           match dict_lookup k E with
           | Some a => <[a := (L !!! a) ++ [default 0%R (new_res !! k)]]> L
           | None => L
           end) L todo.

End EpochResults.

(** ** [fit]: the loop over the epochs *)

Module Fit.

Import Py Trainer.
Local Open Scope py_scope.

Section WithEngine.

(** Besides the engine: which names [hasattr] finds on the [Metric]
    class, [lr_scheduler.step()], the number a float becomes in a numpy
    buffer, and the text [print_results] makes of a dictionary of
    losses. *)
Context `{Engine} {value : Type} (nan : value) (class_attribute : string -> bool)
  (scheduler_step : sched_state -> sched_state)
  (of_float : R -> value)
  (print_results : option (R * R) -> string).

(** [range(a, b)] *)
Definition range_from (a b : Z) : list Z :=
  map (fun i => a + Z.of_nat i) (seq 0 (Z.to_nat (b - a))).

(** [{name: {channel: value} for name, value in losses.items()}] for the
    dictionary of losses an epoch returns. *)
Definition losses_of (channel : string) (losses : option (R * R))
  : list (string * Metric.m_values_t value) :=
  match losses with
  | None => []
  | Some (mse, kl) =>
      [("mse_losses", Metric.MV_dict [(channel, of_float mse)]);
       ("kl_divergence_losses", Metric.MV_dict [(channel, of_float kl)])]
  end.

(** [self.metric[epoch] = metric_values] *)
Definition metric_setitem (epoch : Z)
    (metric_values : list (string * Metric.m_values_t value)) : M state unit :=
  let! t := self in
  match metric t with
  | Some m => on_heap (Metric.__setitem__ class_attribute m epoch metric_values)
  | None => raise TypeError
  end.

(** [self.metric.channels[i] = name] *)
Definition set_channel (m : positive) (i : nat) (name : string)
  : M (Metric.world value) unit :=
  let! a := Metric.getattr m "channels" in
  match a with
  | Metric.A_channels channels =>
      if decide (i < length channels)%nat
      then Metric.setattr m "channels" (Metric.A_channels (<[i := name]> channels))
      else raise IndexError
  | _ => raise TypeError
  end.

(** ["-" * 80 + "\n"] *)
Definition rule : string :=
  string_of_list_ascii (replicate 80 (Ascii.ascii_of_nat 45) ++ [Ascii.ascii_of_nat 10]).

(** The body of the loop of [fit] for one epoch. [train_loader] is what
    the shuffling loader yields in this epoch, [val_loader] what the
    validation loader yields in every epoch. *)
Definition fit_epoch (train_loader val_loader : list (tensor * tensor)) (epoch : Z)
  : M state unit :=
  let! _ := update (set_epoch epoch) in
  let! t := self in
  let! _ := logger ("Epoch: " +:+ pretty (epoch + 1) +:+ " / "
                    +:+ pretty (num_epochs t) +:+ ":") in
  let! train_losses := train_one_epoch train_loader in
  (* Update the learning rate *)
  let! _ := update (fun t => set_lr_scheduler (scheduler_step (lr_scheduler t)) t) in
  let! _ := metric_setitem epoch (losses_of "train" train_losses) in
  let! _ := logger (print_results train_losses) in
  (* Make checkpoint after training *)
  let! _ := checkpoint ∅ in
  let! val_losses := validate val_loader in
  let! _ := metric_setitem epoch (losses_of "val" val_losses) in
  let! _ := logger (print_results val_losses) in
  (* Make checkpoint after validation *)
  let! _ := checkpoint ∅ in
  let! t := self in
  if negb (epoch =? num_epochs t - 1) then logger rule else ret tt.

(** The second half of that body, from the validation on. *)
Definition fit_epoch_rest (val_loader : list (tensor * tensor)) (epoch : Z)
  : M state unit :=
  let! val_losses := validate val_loader in
  let! _ := metric_setitem epoch (losses_of "val" val_losses) in
  let! _ := logger (print_results val_losses) in
  let! _ := checkpoint ∅ in
  let! t := self in
  if negb (epoch =? num_epochs t - 1) then logger rule else ret tt.

(** [fit] up to the end of its loop; saving the encoder and the decoder,
    which follows, is outside the model. Creating the checkpoint
    directory and moving the postprocessor's statistics to the device
    change nothing in the state, and neither does clearing the console.
    [train_loader] gives the mini-batches of each epoch. *)
Definition fit (train_loader : Z -> list (tensor * tensor))
    (val_loader : list (tensor * tensor)) : M state unit :=
  let! _ := load_checkpoint nan in
  let! t := self in
  let! _ := match metric t with
            | Some _ => ret tt
            | None =>
                let! m := on_heap (Metric.init nan (num_epochs t) 2) in
                let! _ := update (set_metric (Some m)) in
                let! _ := on_heap (set_channel m 0 "train") in
                on_heap (set_channel m 1 "val")
            end in
  let! t := self in
  for_each (range_from (epoch t) (num_epochs t))
    (fun epoch => fit_epoch (train_loader epoch) val_loader epoch).

(** A row of a buffer after the epochs from [lo] to [hi - 1] have been
    recorded in it: those entries hold floats, the others are as before. *)
Definition recorded (lo hi : Z) (old new : list value) : Prop :=
  length new = length old /\
  forall j : nat,
    (j < length old)%nat ->
    if decide (lo <= Z.of_nat j < hi)
    then exists x, new !! j = Some (of_float x)
    else new !! j = old !! j.

(** Recording the losses of one channel, or nothing when the epoch
    returned the empty dictionary. *)
Definition record_loss (e : Z) (x : option R) (row : list value) : list value :=
  match x with
  | Some x => <[Z.to_nat e := of_float x]> row
  | None => row
  end.

(** What the trainer keeps through training and validation: its
    bookkeeping attributes, the heap and the files. *)
Definition bookkeeping_kept (s s' : @state _ value) : Prop :=
  num_epochs s'.1 = num_epochs s.1 /\
  metric s'.1 = metric s.1 /\
  checkpoint_dir s'.1 = checkpoint_dir s.1 /\
  resume_ckpt s'.1 = resume_ckpt s.1 /\
  epoch s'.1 = epoch s.1 /\
  config s'.1 = config s.1 /\
  lr_scheduler s'.1 = lr_scheduler s.1 /\
  heap s'.2 = heap s.2 /\
  files s'.2 = files s.2.

End WithEngine.

End Fit.

(** * Properties *)

Module PyFacts.
Import Py.

(** Stepping through a computation. *)
Lemma bind_ok {S A B} (c : M S A) (k : A -> M S B) s s' a :
  c s = (s', Ok a) -> bind c k s = k a s'.
Proof. intros Hc. unfold bind. by rewrite Hc. Qed.

Lemma bind_raise {S A B} (c : M S A) (k : A -> M S B) s s' e :
  c s = (s', Raise e) -> bind c k s = (s', Raise e).
Proof. intros Hc. unfold bind. by rewrite Hc. Qed.

Lemma bind_assoc {S A B C} (c : M S A) (k1 : A -> M S B) (k2 : B -> M S C) s :
  bind (bind c k1) k2 s = bind c (fun a => bind (k1 a) k2) s.
Proof. unfold bind. by destruct (c s) as [? [?|?]]. Qed.

End PyFacts.

Module ShapeFacts.
Import Shape.

Ltac bool_true :=
  repeat match goal with
  | |- context [?a =? ?a] => rewrite (Z.eqb_refl a)
  | |- context [?a <=? ?b] => rewrite (proj2 (Z.leb_le a b)) by lia
  | |- context [?a <? ?b] => rewrite (proj2 (Z.ltb_lt a b)) by lia
  | |- context [?a =? ?b] => rewrite (proj2 (Z.eqb_eq a b)) by lia
  end; cbn [andb orb negb].

Lemma conv_out_same h : conv_out h 3 1 1 = h.
Proof. unfold conv_out. rewrite Z.div_1_r. lia. Qed.

Lemma conv_out_pointwise h : conv_out h 1 1 0 = h.
Proof. unfold conv_out. rewrite Z.div_1_r. lia. Qed.

Lemma conv_out_halving h : conv_out (2 * h + 1) 3 2 0 = h.
Proof.
  unfold conv_out.
  replace (2 * h + 1 + 2 * 0 - (3 - 1) - 1) with ((h - 1) * 2) by lia.
  rewrite Z.div_mul by lia. lia.
Qed.

Lemma Conv2d_forward_same n cin cout h w :
  1 <= h -> 1 <= w ->
  Conv2d_forward (mkConv2d cin cout 3 1 1) [n; cin; h; w] = Some [n; cout; h; w].
Proof.
  intros Hh Hw. unfold Conv2d_forward. cbn [in_channels out_channels kernel_size stride padding].
  bool_true. by rewrite !conv_out_same.
Qed.

Lemma Conv2d_forward_pointwise n cin cout h w :
  1 <= h -> 1 <= w ->
  Conv2d_forward (mkConv2d cin cout 1 1 0) [n; cin; h; w] = Some [n; cout; h; w].
Proof.
  intros Hh Hw. unfold Conv2d_forward. cbn [in_channels out_channels kernel_size stride padding].
  bool_true. by rewrite !conv_out_pointwise.
Qed.

Lemma Conv2d_forward_halving n c c' h w :
  1 <= h -> 1 <= w ->
  Conv2d_forward (mkConv2d c c' 3 2 0) [n; c; 2 * h + 1; 2 * w + 1] = Some [n; c'; h; w].
Proof.
  intros Hh Hw. unfold Conv2d_forward. cbn [in_channels out_channels kernel_size stride padding].
  bool_true. by rewrite !conv_out_halving.
Qed.

Lemma GroupNorm_forward_ok g c n rest :
  0 < g -> (g | c) ->
  GroupNorm_forward (mkGroupNorm g c) (n :: c :: rest) = Some (n :: c :: rest).
Proof.
  intros Hg Hd. unfold GroupNorm_forward. cbn [gn_num_groups gn_num_channels].
  rewrite (proj2 (Z.mod_divide c g ltac:(lia)) Hd). by bool_true.
Qed.

Lemma broadcast_dim_refl a : broadcast_dim a a = Some a.
Proof. unfold broadcast_dim. by rewrite Z.eqb_refl. Qed.

Lemma broadcast_rev_refl s : broadcast_rev s s = Some s.
Proof.
  induction s as [|a s IH]; [done|]. cbn. by rewrite broadcast_dim_refl, IH.
Qed.

Lemma broadcast_refl s : broadcast s s = Some s.
Proof.
  unfold broadcast. rewrite broadcast_rev_refl. cbn. by rewrite rev_involutive.
Qed.

Lemma ResidualBlock_forward_shape cin cout g n h w :
  0 < g -> (g | cin) -> (g | cout) -> 1 <= h -> 1 <= w ->
  ResidualBlock_forward (ResidualBlock_init cin cout g) [n; cin; h; w]
  = Some [n; cout; h; w].
Proof.
  intros Hg Hin Hout Hh Hw.
  unfold ResidualBlock_forward, ResidualBlock_init.
  cbn [group_norm1 conv1 group_norm2 conv2 residual_layer].
  rewrite GroupNorm_forward_ok by done. cbn [mbind option_bind].
  rewrite Conv2d_forward_same by done. cbn [mbind option_bind].
  rewrite GroupNorm_forward_ok by done. cbn [mbind option_bind].
  rewrite Conv2d_forward_same by done. cbn [mbind option_bind].
  destruct (Z.eqb_spec cin cout) as [->|Hne]; cbn [residual_layer_forward].
  - cbn [mbind option_bind]. apply broadcast_refl.
  - rewrite Conv2d_forward_pointwise by done. cbn [mbind option_bind]. apply broadcast_refl.
Qed.


Lemma view_ok x new :
  Forall (Z.le 0) new -> numel x = numel new -> view x new = Some new.
Proof.
  intros Hnn Hnum. unfold view.
  rewrite (proj2 (Z.eqb_eq _ _) Hnum), andb_true_r.
  assert (forallb (Z.leb 0) new = true) as ->; [|done].
  apply forallb_forall. intros d Hd. apply Z.leb_le.
  by eapply (proj1 (List.Forall_forall _ _) Hnn).
Qed.

Lemma chunk_sizes_thirds d : 0 < d -> chunk_sizes (3 * d) 3 = [d; d; d].
Proof.
  intros Hd. unfold chunk_sizes.
  rewrite (proj2 (Z.eqb_neq _ _)) by lia.
  replace ((3 * d + 3 - 1) / 3) with d.
  2:{ apply Z.div_unique_pos with (r := 2); lia. }
  replace ((3 * d + d - 1) / d) with 3.
  2:{ apply Z.div_unique_pos with (r := d - 1); lia. }
  change (Z.to_nat (3 - 1)) with 2%nat. cbn [replicate app].
  do 3 f_equal. lia.
Qed.

Lemma chunk_sizes_halves k : 0 < k -> chunk_sizes (2 * k) 2 = [k; k].
Proof.
  intros Hk. unfold chunk_sizes.
  rewrite (proj2 (Z.eqb_neq _ _)) by lia.
  replace ((2 * k + 2 - 1) / 2) with k.
  2:{ apply Z.div_unique_pos with (r := 1); lia. }
  replace ((2 * k + k - 1) / k) with 2.
  2:{ apply Z.div_unique_pos with (r := k - 1); lia. }
  change (Z.to_nat (2 - 1)) with 1%nat. cbn [replicate app].
  do 2 f_equal. lia.
Qed.

Lemma SelfAttention_init_ok d nh :
  0 < nh -> (nh | d) ->
  SelfAttention_init d nh
  = Some (mkSelfAttention d nh (mkLinear d (3 * d)) (mkLinear d d) (d / nh)).
Proof.
  intros Hnh Hdiv. unfold SelfAttention_init.
  rewrite (proj2 (Z.eqb_neq _ _)) by lia.
  by rewrite (proj2 (Z.mod_divide d nh ltac:(lia)) Hdiv).
Qed.

Lemma SelfAttention_forward_shape d nh b s :
  0 < nh -> 0 < d -> (nh | d) -> 0 <= b -> 0 <= s ->
  SelfAttention_forward
    (mkSelfAttention d nh (mkLinear d (3 * d)) (mkLinear d d) (d / nh)) [b; s; d]
  = Some [b; s; d].
Proof.
  intros Hnh Hd [q Hq] Hb Hs.
  assert (d / nh = q) as Hdh by (subst d; apply Z.div_mul; lia).
  assert (0 < q) as Hqpos by nia.
  unfold SelfAttention_forward.
  cbn [in_proj out_proj n_heads d_heads Linear_forward in_features out_features].
  rewrite Z.eqb_refl. cbn [option_map mbind option_bind chunk3_last].
  rewrite chunk_sizes_thirds by done. cbn [mbind option_bind].
  rewrite Hdh.
  rewrite (view_ok [b; s; d] [b; s; nh; q]).
  2:{ repeat constructor; lia. }
  2:{ cbn [numel fold_right]. subst d. ring. }
  cbn [mbind option_bind transpose_1_2 transpose_last option_map matmul].
  rewrite !Z.eqb_refl. cbn [andb mbind option_bind transpose_1_2].
  cbn [matmul]. rewrite !Z.eqb_refl. cbn [andb mbind option_bind transpose_1_2].
  rewrite (view_ok [b; s; nh; q] [b; s; d]).
  2:{ repeat constructor; lia. }
  2:{ cbn [numel fold_right]. subst d. ring. }
  cbn [mbind option_bind Linear_forward option_map in_features out_features].
  by rewrite Z.eqb_refl.
Qed.

Lemma AttentionBlock_forward_shape c g nh n h w a :
  0 < g -> (g | c) -> 0 < nh -> 0 < c -> (nh | c) ->
  0 <= n -> 0 <= h -> 0 <= w ->
  AttentionBlock_init c g nh = Some a ->
  AttentionBlock_forward a [n; c; h; w] = Some [n; c; h; w].
Proof.
  intros Hg Hgc Hnh Hc Hnc Hn Hh Hw Ha.
  unfold AttentionBlock_init in Ha. rewrite SelfAttention_init_ok in Ha by done.
  cbn in Ha. injection Ha as <-.
  unfold AttentionBlock_forward. cbn [group_norm attention].
  rewrite GroupNorm_forward_ok by done. cbn [mbind option_bind].
  rewrite (view_ok [n; c; h; w] [n; c; h * w]).
  2:{ repeat constructor; nia. }
  2:{ cbn [numel fold_right]. ring. }
  cbn [mbind option_bind transpose_last option_map].
  rewrite SelfAttention_forward_shape by (done || nia).
  cbn [mbind option_bind transpose_last option_map].
  rewrite (view_ok [n; c; h * w] [n; c; h; w]).
  2:{ repeat constructor; nia. }
  2:{ cbn [numel fold_right]. ring. }
  cbn [mbind option_bind]. apply broadcast_refl.
Qed.


Lemma Conv2d_forward_padded_halving n c c' h w h2 w2 :
  h = 2 * h2 -> w = 2 * w2 -> 1 <= h2 -> 1 <= w2 ->
  Conv2d_forward (mkConv2d c c' 3 2 0) [n; c; h + 1; w + 1] = Some [n; c'; h2; w2].
Proof. intros -> -> ? ?. by apply Conv2d_forward_halving. Qed.

Lemma divide_128_256 g : (g | 128) -> (g | 256).
Proof. intros [k Hk]. exists (2 * k). lia. Qed.

Lemma divide_128_512 g : (g | 128) -> (g | 512).
Proof. intros [k Hk]. exists (4 * k). lia. Qed.

Ltac shape_step :=
  first
  [ rewrite Conv2d_forward_same by lia
  | rewrite Conv2d_forward_pointwise by lia
  | rewrite ResidualBlock_forward_shape
      by (lia || assumption || (by apply divide_128_256) || (by apply divide_128_512)
          || (by exists 4) || (by exists 8) || (by exists 16))
  | rewrite GroupNorm_forward_ok
      by (lia || assumption || (by apply divide_128_256) || (by apply divide_128_512)) ];
  cbn [mbind option_bind].

Lemma Encoder_layers_shape C zch g nh n h w e :
  0 < g -> (g | 128) -> 0 < nh -> (nh | 512) ->
  0 <= n -> 1 <= h -> 1 <= w ->
  Encoder_init C zch g nh = Some e ->
  Encoder_layers e [n; C; 8 * h; 8 * w] = Some [n; zch; h; w].
Proof.
  intros Hg Hg128 Hnh Hnh512 Hn Hh Hw He.
  unfold Encoder_init in He.
  destruct (AttentionBlock_init 512 g nh) as [a|] eqn:Ha; [|done].
  cbn [mbind option_bind] in He. injection He as <-.
  cbn [Encoder_layers module_forward stride Z.eqb Pos.eqb mbind option_bind
       pad_right_bottom].
  do 2 shape_step.
  cbn [mbind option_bind pad_right_bottom].
  rewrite (Conv2d_forward_padded_halving _ _ _ _ _ (4 * h) (4 * w)) by lia.
  cbn [mbind option_bind pad_right_bottom].
  do 2 shape_step.
  cbn [mbind option_bind pad_right_bottom].
  rewrite (Conv2d_forward_padded_halving _ _ _ _ _ (2 * h) (2 * w)) by lia.
  cbn [mbind option_bind pad_right_bottom].
  do 2 shape_step.
  cbn [mbind option_bind pad_right_bottom].
  rewrite (Conv2d_forward_padded_halving _ _ _ _ _ h w) by lia.
  cbn [mbind option_bind pad_right_bottom].
  do 3 shape_step.
  rewrite (AttentionBlock_forward_shape 512 g nh n h w a)
    by (lia || assumption || by apply divide_128_512).
  cbn [mbind option_bind].
  do 4 shape_step.
  done.
Qed.


Lemma chunk2_dim1_even n k rest :
  0 < k ->
  chunk2_dim1 (n :: 2 * k :: rest) = Some (n :: k :: rest, n :: k :: rest).
Proof. intros Hk. unfold chunk2_dim1. by rewrite chunk_sizes_halves. Qed.

Lemma Encoder_forward_shape C k g nh n h w e :
  0 < g -> (g | 128) -> 0 < nh -> (nh | 512) -> 0 < k ->
  0 <= n -> 1 <= h -> 1 <= w ->
  Encoder_init C (2 * k) g nh = Some e ->
  Encoder_forward e [n; C; 8 * h; 8 * w]
  = Some ([n; k; h; w], ([n; k; h; w], [n; k; h; w])).
Proof.
  intros Hg Hg128 Hnh Hnh512 Hk Hn Hh Hw He.
  unfold Encoder_forward.
  rewrite (Encoder_layers_shape C (2 * k) g nh) by done.
  cbn [mbind option_bind]. rewrite chunk2_dim1_even by done.
  cbn [mbind option_bind]. rewrite broadcast_refl. cbn [mbind option_bind].
  rewrite broadcast_refl. by cbn [mbind option_bind].
Qed.

Lemma Upsample_forward_double n c h w :
  Upsample_forward 2 [n; c; h; w] = Some [n; c; 2 * h; 2 * w].
Proof. cbn [Upsample_forward]. by rewrite (Z.mul_comm h), (Z.mul_comm w). Qed.

Lemma Decoder_forward_shape C k g nh n h w d :
  0 < g -> (g | 128) -> 0 < nh -> (nh | 512) ->
  0 <= n -> 1 <= h -> 1 <= w ->
  Decoder_init C (2 * k) g nh = Some d ->
  Decoder_forward d [n; k; h; w] = Some [n; C; 8 * h; 8 * w].
Proof.
  intros Hg Hg128 Hnh Hnh512 Hn Hh Hw Hd.
  unfold Decoder_init in Hd.
  destruct (AttentionBlock_init 512 g nh) as [a|] eqn:Ha; [|done].
  cbn [mbind option_bind] in Hd. injection Hd as <-.
  rewrite (Z.mul_comm 2 k), Z.div_mul by lia.
  cbn [Decoder_forward module_forward mbind option_bind].
  do 2 shape_step.
  rewrite (AttentionBlock_forward_shape 512 g nh n h w a)
    by (lia || assumption || by apply divide_128_512).
  cbn [mbind option_bind].
  do 3 shape_step.
  rewrite Upsample_forward_double. cbn [mbind option_bind].
  do 4 shape_step.
  rewrite Upsample_forward_double. cbn [mbind option_bind].
  do 4 shape_step.
  rewrite Upsample_forward_double. cbn [mbind option_bind].
  do 5 shape_step.
  shape_step.
  by replace (2 * (2 * (2 * h))) with (8 * h) by lia;
     replace (2 * (2 * (2 * w))) with (8 * w) by lia.
Qed.


(** C2 (as amended). For a positive number of groups dividing 128, a
    positive number of heads dividing 512, an even positive [zch] and an
    input of shape [[N; C; H; W]] with positive [H] and [W] divisible by 8,
    the encoder and the decoder are built, the encoder returns a latent
    sample (and mean and log-variance) of shape [[N; zch / 2; H / 8; W / 8]],
    and the decoder maps it back to shape [[N; C; H; W]]. *)
Theorem Encoder_Decoder_shape_round_trip C zch g nh N H W :
  0 < g -> (g | 128) -> 0 < nh -> (nh | 512) ->
  0 < zch -> Z.even zch = true ->
  0 <= N -> 0 < H -> (8 | H) -> 0 < W -> (8 | W) ->
  shape_round_trip C zch g nh N H W.
Proof.
  intros Hg Hg128 Hnh Hnh512 Hz Hev HN HH [h Hh] HW [w Hw].
  apply Z.even_spec in Hev as [k Hk]. subst zch H W.
  assert (AttentionBlock_init 512 g nh <> None) as Ha.
  { unfold AttentionBlock_init. by rewrite SelfAttention_init_ok. }
  destruct (Encoder_init C (2 * k) g nh) as [e|] eqn:He.
  2:{ unfold Encoder_init in He. by destruct (AttentionBlock_init 512 g nh). }
  destruct (Decoder_init C (2 * k) g nh) as [d|] eqn:Hd.
  2:{ unfold Decoder_init in Hd. by destruct (AttentionBlock_init 512 g nh). }
  exists e, d, [N; k; h; w], [N; k; h; w].
  rewrite (Z.mul_comm 2 k), !Z.div_mul by lia.
  rewrite (Z.mul_comm k 2), (Z.mul_comm h 8), (Z.mul_comm w 8).
  repeat split; [by rewrite <- He | by rewrite <- Hd | |].
  - apply (Encoder_forward_shape C k g nh); (done || lia).
  - apply (Decoder_forward_shape C k g nh); (done || lia).
Qed.

(** C2, counterexample. With [zch = 3] (three image channels, 32 groups,
    one head) and one 8x8 image, the claimed round trip fails: the two
    chunks have 2 and 1 channels, the latent sample has 2 channels instead
    of [3 / 2 = 1], and the decoder's first convolution expects 1. *)
Lemma shape_round_trip_odd_zch : ~ shape_round_trip 3 3 32 1 1 8 8.
Proof.
  intros (e & d & mean & lv & He & Hd & Henc & Hdec).
  vm_compute in He. injection He as <-.
  vm_compute in Henc. discriminate.
Qed.

(** C2, witness: the default configuration on four 224x224 images. *)
Lemma Encoder_Decoder_shape_round_trip_default :
  shape_round_trip 3 8 32 1 4 224 224.
Proof.
  apply Encoder_Decoder_shape_round_trip;
    try lia; try reflexivity; [by exists 4 | by exists 512 | by exists 28 | by exists 28].
Defined.

End ShapeFacts.

Module TensorFacts.
Import Tensor.
Local Open Scope R_scope.

Lemma zip_kl_term (m l : list R) :
  zip_with Rminus
    (zip_with Rminus (map (fun x => 1 + x) l) (map (fun x => x ^ 2) m))
    (map exp l)
  = zip_with kl_term m l.
Proof.
  revert l. induction m as [|a m IH]; intros [|b l]; cbn [zip_with map]; try done.
  by rewrite IH.
Qed.















End TensorFacts.

Module AvgMeterFacts.
Import AvgMeter.
Local Open Scope R_scope.

Lemma avg_guard (m : AvgMeter) :
  avg m = Py.Ok (if (0 <? count m)%Z then total m / IZR (count m) else 0).
Proof.
  unfold avg, truediv. destruct (Z.ltb_spec 0 (count m)) as [Hpos|Hle]; [|done].
  by rewrite (proj2 (Z.eqb_neq _ _)) by lia.
Qed.

Lemma fold_add (xs : list R) (m : AvgMeter) :
  count (fold_left add xs m) = (count m + Z.of_nat (length xs))%Z /\
  total (fold_left add xs m) = fold_left Rplus xs (total m).
Proof.
  revert m. induction xs as [|x xs IH]; intros m; cbn [fold_left length].
  - split; [lia | done].
  - destruct (IH (add m x)) as [Hc Ht]. rewrite Hc, Ht. cbn [add count total].
    split; [lia | done].
Qed.

(** C9. [avg] never divides by zero: it returns [total / count] when
    [count > 0] and [0.0] otherwise. A meter constructed with a value
    has that value as its total and a count of zero, so its average is
    [0.0]; after further additions the count is the number of additions
    only, while the total still includes the constructor's value. This is
    the meter [_update_losses] creates for a key it has not seen. *)
Theorem avg_guarded_and_initial_value_uncounted
    (m : AvgMeter) (val : R) (xs : list R) (key : string)
    (output_losses : gmap string AvgMeter) :
  avg m = Py.Ok (if (0 <? count m)%Z then total m / IZR (count m) else 0) /\
  count (init val) = 0%Z /\ total (init val) = val /\ avg (init val) = Py.Ok 0 /\
  count (fold_left add xs (init val)) = Z.of_nat (length xs) /\
  total (fold_left add xs (init val)) = fold_left Rplus xs val /\
  _update_losses [(key, val)] (delete key output_losses) !! key = Some (init val).
Proof.
  split; [apply avg_guard|]. repeat split.
  - destruct (fold_add xs (init val)) as [Hc _]. rewrite Hc. cbn. lia.
  - by destruct (fold_add xs (init val)) as [_ ->].
  - cbn [_update_losses fold_left]. rewrite lookup_delete_eq. apply lookup_insert_eq.
Qed.

Example avg_of_fresh_meter : avg (init 5) = Py.Ok 0.
Proof. reflexivity. Qed.

Example avg_after_one_add : avg (add (init 5) 3) = Py.Ok ((5 + 3) / 1).
Proof. reflexivity. Qed.

Example avg_after_reset_three_adds (a b c : R) :
  avg (add (add (add (reset (init 7)) a) b) c) = Py.Ok ((0 + a + b + c) / 3).
Proof. reflexivity. Qed.

End AvgMeterFacts.

Module MetricFacts.
Import Py Metric PyFacts.
Local Open Scope py_scope.

Section WithValue.
Context {value : Type} (nan : value) (class_attribute : string -> bool).

(** C7. For an epoch index outside [[0, num_epochs)] and any mapping of
    metric values, [Metric.__setitem__] returns normally and leaves every
    object of the store unchanged; it only adds one warning to the log. *)
Theorem setitem_out_of_range_is_noop (w : world value) (self : positive)
    (epoch E : Z) (metric_values : list (string * m_values_t value)) :
  (objects w !!! self) !! "num_epochs" = Some (A_int E) ->
  ~ (0 <= epoch < E) ->
  __setitem__ class_attribute self epoch metric_values w
  = (mkWorld (objects w)
       (log w ++ ["Epoch indexed is out of range. The max epoch indexable is "
                  +:+ pretty E]),
     Ok tt).
Proof.
  intros HE Hout. unfold __setitem__, getattr, bind, read.
  rewrite HE. cbn [ret as_int].
  assert ((0 <=? epoch) && (epoch <? E) = false) as ->; [|done].
  apply andb_false_iff.
  destruct (Z.leb_spec 0 epoch); [|by left]. right. apply Z.ltb_ge. lia.
Qed.


Lemma getitem_Some (w : world value) d name a :
  (objects w !!! d) !! name = Some a -> getitem d name w = (w, Ok a).
Proof. intros Ha. unfold getitem, bind, read. by rewrite Ha. Qed.

Lemma getattr_Some (w : world value) d name a :
  (objects w !!! d) !! name = Some a -> getattr d name w = (w, Ok a).
Proof. intros Ha. unfold getattr, bind, read. by rewrite Ha. Qed.


Lemma delitem_Some (w : world value) d name a :
  (objects w !!! d) !! name = Some a ->
  delitem d name w
  = (mkWorld (<[d := delete name (objects w !!! d)]> (objects w)) (log w), Ok tt).
Proof. intros Ha. unfold delitem, bind, read. by rewrite Ha. Qed.

Lemma setattr_eq (w : world value) l name a :
  setattr l name a w
  = (mkWorld (<[l := <[name := a]> (objects w !!! l)]> (objects w)) (log w), Ok tt).
Proof. done. Qed.

Lemma init_ok (w : world value) E C :
  0 <= E -> 0 <= C ->
  init nan E C w
  = (mkWorld (<[fresh (dom (objects w)) := fresh_dict nan E C]> (objects w)) (log w),
     Ok (fresh (dom (objects w)))).
Proof.
  intros HE HC. unfold init, new_buffer.
  rewrite (proj2 (Z.ltb_ge C 0)), (proj2 (Z.ltb_ge E 0)) by lia.
  done.
Qed.

Lemma fresh_not_allocated (w : world value) l d :
  objects w !! l = Some d -> fresh (dom (objects w)) <> l.
Proof.
  intros Hl Heq. pose proof (is_fresh (dom (objects w))) as Hf.
  rewrite Heq in Hf. apply Hf, elem_of_dom. eauto.
Qed.














Lemma read_allocated (w : world value) l d :
  objects w !! l = Some d -> read l w = (w, Ok d).
Proof. intros Hl. unfold read. by rewrite (lookup_total_correct _ _ _ Hl). Qed.

Lemma init_either (w : world value) E C new_num_epochs :
  0 <= E -> 0 <= C ->
  let cap := capacity E new_num_epochs in
    match new_num_epochs with
    | Some new =>
        if negb (new =? 0) && (E <? new) then init nan new C else init nan E C
    | None => init nan E C
    end w
    = (mkWorld (<[fresh (dom (objects w)) := fresh_dict nan cap C]> (objects w)) (log w),
       Ok (fresh (dom (objects w)))).
Proof.
  intros HE HC. unfold capacity.
  destruct new_num_epochs as [new|]; [|by apply init_ok].
  destruct (Z.ltb_spec E new) as [Hlt|Hge].
  - rewrite (proj2 (Z.eqb_neq new 0)) by lia. cbn [negb andb].
    apply init_ok; lia.
  - rewrite andb_false_r. by apply init_ok.
Qed.



(** *** The row-copying loop of [load] *)

Lemma copy_row_exact (B vb : list (list value)) (k : nat) (E : Z) vrow mrow :
  0 <= E -> vb !! k = Some vrow -> B !! k = Some mrow ->
  length vrow = Z.to_nat E -> (Z.to_nat E <= length mrow)%nat ->
  copy_row B vb (Z.of_nat k) E = Ok (<[k := vrow ++ drop (Z.to_nat E) mrow]> B).
Proof.
  intros HE Hv Hm Hlv Hlm. unfold copy_row, slice_to.
  rewrite Nat2Z.id, Hv, Hm, (proj2 (Z.leb_le 0 E)) by done.
  rewrite (take_ge vrow) by lia.
  rewrite length_take, Nat.min_l by done.
  by rewrite decide_True by done.
Qed.

Lemma insert_take_drop {A} (M l : list A) (k : nat) x y :
  M !! k = Some x -> l !! k = Some y ->
  <[k := x]> (take k M ++ drop k l) = take (S k) M ++ drop (S k) l.
Proof.
  intros HM Hl.
  assert (k < length M)%nat by (by eapply lookup_lt_Some).
  rewrite insert_app_r_alt by (rewrite length_take; lia).
  rewrite length_take, Nat.min_l, Nat.sub_diag by lia.
  rewrite (drop_S l y k Hl). cbn [insert list_insert].
  rewrite (take_S_r M k x HM), <- app_assoc. done.
Qed.

Section copy_loop.

Variables (instance : positive) (name : string) (E : Z).
Variables (vb mb0 : list (list value)) (v : attr value).
Variables (d : gmap string (attr value)).
Variables (O : gmap positive (gmap string (attr value))) (lg : list string).
Hypothesis HE : 0 <= E.
Hypothesis Hv : v = A_buffer vb.
Hypothesis Hlen : length vb = length mb0.
Hypothesis Hvrows : Forall (fun row => length row = Z.to_nat E) vb.
Hypothesis Hmrows : Forall (fun row => (Z.to_nat E <= length row)%nat) mb0.

Let merged := zip_with (fun v m => v ++ drop (Z.to_nat E) m) vb mb0.

Let wk (B : list (list value)) : world value :=
  mkWorld (<[instance := <[name := A_buffer B]> d]> O) lg.

Let body (i : Z) : M (world value) unit :=
  let! metric := getitem instance name in
  let! mb := as_buffer metric in
  let! vb := as_buffer v in
  match copy_row mb vb i E with
  | Ok mb' => setattr instance name (A_buffer mb')
  | Raise e => raise e
  end.

Lemma copy_loop_rows n k :
  (k + n = length vb)%nat ->
  for_each (map Z.of_nat (seq k n)) body (wk (take k merged ++ drop k mb0))
  = (wk (take (k + n) merged ++ drop (k + n) mb0), Ok tt).
Proof.
  revert k. induction n as [|n IH]; intros k Hk.
  - by rewrite Nat.add_0_r.
  - cbn [seq map for_each].
    destruct (lookup_lt_is_Some_2 vb k ltac:(lia)) as [vrow Hvrow].
    destruct (lookup_lt_is_Some_2 mb0 k ltac:(lia)) as [mrow Hmrow].
    assert (merged !! k = Some (vrow ++ drop (Z.to_nat E) mrow)) as Hmerged.
    { subst merged. rewrite lookup_zip_with, Hvrow, Hmrow. done. }
    assert (length merged = length vb) as Hlm.
    { subst merged. rewrite length_zip_with. lia. }
    assert ((take k merged ++ drop k mb0) !! k = Some mrow) as HB.
    { rewrite lookup_app_r by (rewrite length_take; lia).
      rewrite length_take, Nat.min_l, Nat.sub_diag by lia.
      by rewrite lookup_drop, Nat.add_0_r. }
    assert (body (Z.of_nat k) (wk (take k merged ++ drop k mb0))
            = (wk (take (S k) merged ++ drop (S k) mb0), Ok tt)) as Hbody.
    { unfold body.
      erewrite bind_ok; cycle 1.
      { apply getitem_Some. unfold wk. cbn [objects].
        rewrite lookup_total_insert_eq. apply lookup_insert_eq. }
      cbn [as_buffer]. unfold bind at 1. cbn [ret].
      rewrite Hv. cbn [as_buffer]. unfold bind at 1. cbn [ret].
      rewrite (copy_row_exact _ _ _ _ vrow mrow); try done.
      2:{ by eapply (proj1 (List.Forall_forall _ _) Hvrows), list_elem_of_In,
             list_elem_of_lookup_2. }
      2:{ by eapply (proj1 (List.Forall_forall _ _) Hmrows), list_elem_of_In,
             list_elem_of_lookup_2. }
      rewrite setattr_eq. unfold wk. cbn [objects log].
      rewrite lookup_total_insert_eq, !insert_insert_eq.
      by rewrite (insert_take_drop merged mb0 k _ mrow). }
    rewrite (bind_ok _ _ _ _ _ Hbody).
    rewrite IH by lia. by rewrite Nat.add_succ_r.
Qed.

Lemma copy_loop_all :
  for_each (range (Z.of_nat (length vb))) body (wk mb0) = (wk merged, Ok tt).
Proof.
  assert (length merged = length vb) as Hlm.
  { subst merged. rewrite length_zip_with. lia. }
  unfold range. rewrite Nat2Z.id.
  pose proof (copy_loop_rows (length vb) 0 eq_refl) as Hloop.
  rewrite take_0, drop_0 in Hloop. cbn [app] in Hloop. rewrite Hloop. cbn [Nat.add].
  by rewrite take_ge, drop_ge, app_nil_r by lia.
Qed.

End copy_loop.

Lemma merged_with_nan_buffer (b : list (list value)) C E cap :
  0 <= E <= cap -> buffer_dims C E b ->
  zip_with (fun v m => v ++ drop (Z.to_nat E) m) b (nan_buffer nan C cap)
  = extend nan (cap - E) b.
Proof.
  intros Hcap [Hlen _]. unfold nan_buffer, extend. rewrite <- Hlen. clear Hlen.
  induction b as [|row b IH]; [done|]. cbn [length replicate zip_with map].
  rewrite IH, drop_replicate. do 3 f_equal. lia.
Qed.


Lemma extend_dims (b : list (list value)) C E cap :
  0 <= E <= cap -> buffer_dims C E b -> buffer_dims C cap (extend nan (cap - E) b).
Proof.
  intros Hcap [Hlen Hrows]. unfold extend. split; [by rewrite length_map|].
  apply Forall_map. eapply Forall_impl; [exact Hrows|]. intros row Hrow. cbn.
  rewrite length_app, length_replicate, Hrow. lia.
Qed.

Lemma extend_0 (b : list (list value)) : extend nan 0 b = b.
Proof.
  unfold extend. induction b as [|row b IH]; [done|]. cbn [map].
  by rewrite IH, app_nil_r.
Qed.

(** One round of the outer loop of [load]: the rows saved under [name]
    replace the start of the rows of the new instance. *)
Lemma copy_name instance name E C cap vb d
    (O : gmap positive (gmap string (attr value))) lg :
  0 <= E <= cap -> 0 <= C -> buffer_dims C E vb ->
  d !! "num_channels" = Some (A_int C) -> name <> "num_channels" ->
  (let! metric := getitem instance name in
   let! nc := getattr instance "num_channels" in
   let! nc := as_int nc in
   for_each (range nc) (fun i =>
     let! metric := getitem instance name in
     let! mb := as_buffer metric in
     let! vb := as_buffer (A_buffer vb) in
     match copy_row mb vb i E with
     | Ok mb' => setattr instance name (A_buffer mb')
     | Raise e => raise e
     end))
    (mkWorld (<[instance := <[name := A_buffer (nan_buffer nan C cap)]> d]> O) lg)
  = (mkWorld (<[instance := <[name := A_buffer (extend nan (cap - E) vb)]> d]> O) lg, Ok tt).
Proof.
  intros Hcap HC Hdims HdC Hname.
  erewrite bind_ok; cycle 1.
  { apply getitem_Some. cbn [objects].
    rewrite lookup_total_insert_eq. apply lookup_insert_eq. }
  erewrite bind_ok; cycle 1.
  { apply getattr_Some. cbn [objects].
    rewrite lookup_total_insert_eq, lookup_insert_ne by done. exact HdC. }
  cbn [as_int]. unfold bind at 1. cbn [ret].
  destruct Hdims as [Hlen Hrows].
  replace C with (Z.of_nat (length vb)) at 1 by lia.
  rewrite (copy_loop_all instance name E vb (nan_buffer nan C cap) (A_buffer vb) d O lg);
    try done; try lia.
  - by rewrite merged_with_nan_buffer by done.
  - unfold nan_buffer. rewrite length_replicate. lia.
  - unfold nan_buffer. apply Forall_replicate. rewrite length_replicate. lia.
Qed.

(** C6. [Metric.load] on a saved state with epoch horizon [E] returns
    a new instance whose capacity is the new epoch count when that is
    given and greater than [E], and [E] otherwise; each of its buffers
    holds, channel by channel, the saved row followed by [capacity - E]
    unset ([nan]) entries, so the values at epochs [0 .. E-1] are the
    saved ones. When the capacity stays [E] the buffers are the saved
    buffers. *)
Theorem load_extends_buffers (w : world value) (sd : positive)
    (new_num_epochs : option Z) E C channels b1 b2 :
  objects w !! sd = Some (metric_dict E C channels b1 b2) ->
  0 <= E -> 0 <= C -> buffer_dims C E b1 -> buffer_dims C E b2 ->
  let cap := capacity E new_num_epochs in
  let instance := fresh (dom (objects w)) in
  exists w',
    load nan (Some sd) new_num_epochs w = (w', Ok (Some instance)) /\
    objects w' !! instance
      = Some (metric_dict cap C channels
                (extend nan (cap - E) b1) (extend nan (cap - E) b2)) /\
    buffer_dims C cap (extend nan (cap - E) b1) /\
    buffer_dims C cap (extend nan (cap - E) b2) /\
    (forall E', new_num_epochs = Some E' -> E < E' -> cap = E') /\
    ((new_num_epochs = None \/ exists E', new_num_epochs = Some E' /\ E' <= E) ->
     cap = E /\ extend nan (cap - E) b1 = b1 /\ extend nan (cap - E) b2 = b2).
Proof.
  intros Hsd HE HC Hb1 Hb2 cap instance.
  assert (E <= cap) as Hcap.
  { subst cap. unfold capacity. destruct new_num_epochs as [new|]; [|lia].
    destruct (Z.ltb_spec E new); lia. }
  assert (instance <> sd) as Hne by by eapply fresh_not_allocated.
  assert (objects w !!! sd = metric_dict E C channels b1 b2) as Htot
    by by apply lookup_total_correct.
  eexists. split; [|split; [|split; [|split; [|split]]]].
  - unfold load.
    rewrite (bind_ok _ _ _ _ _ (read_allocated w sd _ Hsd)).
    rewrite decide_False.
    2:{ intros Hemp. apply (f_equal (fun m => m !! "num_epochs")) in Hemp.
        by rewrite lookup_empty in Hemp. }
    rewrite (bind_ok _ _ _ _ (A_int E) (getitem_Some w sd "num_epochs" _ ltac:(by rewrite Htot))).
    rewrite (bind_ok _ _ _ _ (A_int C) (getitem_Some w sd "num_channels" _ ltac:(by rewrite Htot))).
    cbn [as_int]. unfold bind at 1 2. cbn [ret].
    pose proof (init_either w E C new_num_epochs HE HC) as Hinit.
    cbn zeta in Hinit. fold cap instance in Hinit.
    rewrite (bind_ok _ _ _ _ _ Hinit).
    erewrite bind_ok; cycle 1.
    { apply getitem_Some. cbn [objects]. rewrite lookup_total_insert_ne, Htot by done.
      reflexivity. }
    rewrite (bind_ok _ _ _ _ _ (setattr_eq _ _ _ _)).
    cbn [objects log]. rewrite lookup_total_insert_eq, insert_insert_eq.
    erewrite bind_ok; cycle 1.
    { eapply delitem_Some. cbn [objects].
      rewrite lookup_total_insert_ne, Htot by done. reflexivity. }
    cbn [objects log]. rewrite (lookup_total_insert_ne _ instance sd), Htot by done.
    erewrite bind_ok; cycle 1.
    { eapply delitem_Some. cbn [objects]. rewrite lookup_total_insert_eq. reflexivity. }
    cbn [objects log]. rewrite lookup_total_insert_eq, insert_insert_eq.
    erewrite bind_ok; cycle 1.
    { eapply delitem_Some. cbn [objects]. rewrite lookup_total_insert_eq. reflexivity. }
    cbn [objects log]. rewrite lookup_total_insert_eq, insert_insert_eq.
    erewrite bind_ok; cycle 1.
    { unfold read. cbn [objects]. rewrite lookup_total_insert_eq. reflexivity. }
    rewrite (insert_insert_ne _ sd instance) by done.
    change (map_to_list
              (delete "channels" (delete "num_channels" (delete "num_epochs"
                 (metric_dict E C channels b1 b2)))))
      with [("kl_divergence_losses", A_buffer b2); ("mse_losses", A_buffer b1)].
    cbn [for_each].
    change (<["channels":=channels]> (fresh_dict nan cap C))
      with (<["kl_divergence_losses" := A_buffer (nan_buffer nan C cap)]>
              (<["channels":=channels]> (fresh_dict nan cap C))).
    unfold bind at 1. unfold bind at 1.
    rewrite (copy_name instance "kl_divergence_losses" E C cap b2) by done.
    change (<["kl_divergence_losses" := A_buffer (extend nan (cap - E) b2)]>
              (<["channels":=channels]> (fresh_dict nan cap C)))
      with (<["mse_losses" := A_buffer (nan_buffer nan C cap)]>
              (<["kl_divergence_losses" := A_buffer (extend nan (cap - E) b2)]>
                 (<["channels":=channels]> (fresh_dict nan cap C)))).
    unfold bind at 1.
    rewrite (copy_name instance "mse_losses" E C cap b1) by done.
    cbn [ret]. unfold bind, logger, modify, ret. cbn [objects log]. reflexivity.
  - cbn [objects]. rewrite lookup_insert_eq. reflexivity.
  - by apply extend_dims.
  - by apply extend_dims.
  - intros E' -> Hlt. subst cap. unfold capacity.
    by rewrite (proj2 (Z.ltb_lt E E')) by done.
  - intros Hkeep. assert (cap = E) as ->.
    { subst cap. unfold capacity. destruct Hkeep as [->|(E' & -> & Hle)]; [done|].
      by rewrite (proj2 (Z.ltb_ge E E')) by done. }
    by rewrite Z.sub_diag, !extend_0.
Qed.

End WithValue.
End MetricFacts.

Module TrainerFacts.
Import Py Trainer.
Import PyFacts.
Local Open Scope py_scope.

Section WithEngine.
Context `{Engine} {value : Type} (nan : value).


Lemma avg_ok (m : AvgMeter.AvgMeter) : exists r, AvgMeter.avg m = Ok r.
Proof.
  unfold AvgMeter.avg, AvgMeter.truediv.
  destruct (Z.ltb_spec 0 (AvgMeter.count m)); [|by eexists].
  rewrite (proj2 (Z.eqb_neq _ _)) by lia. by eexists.
Qed.

Lemma train_step_spec images targets optimize (s : @state _ value) :
  exists s' new_calls,
    train_step images targets optimize s = (s', Ok tt) /\
    gas s'.1 = gas s.1 /\
    calls s'.2 = calls s.2 ++ new_calls /\
    let fire := (gas s.1 <=? gac s.1 + len images) || optimize in
    gac s'.1 = (if fire then 0 else gac s.1 + len images) /\
    forall seen rest,
      optimizer_steps seen (new_calls ++ rest)
      = (if fire then [seen + 1] else []) ++ optimizer_steps (seen + 1) rest.
Proof.
  destruct s as [t p]. unfold train_step, bind, self, proc. cbn [fst snd].
  destruct (encoder (params t) images (torch_rng p)) as [[encoded [mean lv]] g].
  cbn [update update_proc do_call modify fst snd set_grads set_recon_loss
       set_kl_loss set_gac gas gac params grads optimizer recon_loss kl_loss].
  destruct ((gas t <=? gac t + len images) || optimize) eqn:Hfire.
  - destruct (optimizer_step (optimizer t) (params t)
                (backward (params t) images targets (torch_rng p) (grads t)))
      as [o w'].
    cbn [update update_proc do_call modify fst snd set_params set_optimizer
         set_grads set_gac gas gac grads recon_loss kl_loss lift].
    destruct (avg_ok (AvgMeter.add (recon_loss t)
                (mse_loss (decoder (params t) encoded) targets))) as [r ->].
    destruct (avg_ok (AvgMeter.add (kl_loss t) (kl_div mean lv))) as [k ->].
    cbn [update_proc modify fst snd]. eexists _, _.
    split; [reflexivity|]. cbn [fst snd gas gac calls add_call set_torch_rng].
    split; [done|]. split.
    { rewrite <- !app_assoc. reflexivity. }
    split; [done|]. intros seen rest. reflexivity.
  - eexists _, _. split; [reflexivity|].
    cbn [fst snd gas gac calls add_call set_torch_rng ret].
    split; [done|]. split; [reflexivity|]. split; [done|]. done.
Qed.

Lemma train_loop_schedule batches length index loss_data (s : @state _ value) :
  exists s' r new_calls,
    train_loop length index batches loss_data s = (s', Ok r) /\
    gas s'.1 = gas s.1 /\
    calls s'.2 = calls s.2 ++ new_calls /\
    optimizer_steps index new_calls
      = schedule (gas s.1) (gac s.1) length index (sizes batches) /\
    (batches <> [] -> index + Z.of_nat (List.length batches) = length ->
     gac s'.1 = 0).
Proof.
  revert index loss_data s.
  induction batches as [|[images targets] rest IH]; intros index loss_data s.
  - exists s, loss_data, []. cbn [train_loop ret sizes map schedule optimizer_steps].
    rewrite app_nil_r. done.
  - cbn [train_loop].
    destruct (train_step_spec (input_function images) (input_function targets)
                (length - 1 <=? index) s)
      as (s1 & calls1 & Hstep & Hgas1 & Hcalls1 & Hgac1 & Hsteps1).
    rewrite (bind_ok _ _ _ _ _ Hstep).
    unfold bind at 1, self. cbn [fst snd].
    destruct (avg_ok (recon_loss s1.1)) as [r Hr].
    destruct (avg_ok (kl_loss s1.1)) as [k Hk].
    unfold bind at 1, lift. rewrite Hr. unfold bind at 1. rewrite Hk.
    destruct (IH (index + 1) (Some (r, k)) s1)
      as (s2 & r2 & calls2 & Hloop & Hgas2 & Hcalls2 & Hsteps2 & Hgac2).
    exists s2, r2, (calls1 ++ calls2).
    split; [done|]. split; [congruence|]. split.
    { by rewrite Hcalls2, Hcalls1, app_assoc. }
    split.
    + rewrite Hsteps1, Hsteps2, Hgas1. cbn [sizes map schedule fst].
      cbn zeta in Hgac1. rewrite Hgac1.
      by destruct ((gas s.1 <=? gac s.1 + len (input_function images))
                   || (length - 1 <=? index)).
    + intros _ Hlen. cbn [List.length] in Hlen.
      destruct rest as [|b rest].
      * cbn [train_loop ret] in Hloop. injection Hloop as <- _.
        cbn zeta in Hgac1. rewrite Hgac1.
        rewrite (proj2 (Z.leb_le (length - 1) index)) by (cbn in Hlen; lia).
        by rewrite orb_true_r.
      * apply Hgac2; [done|]. cbn [List.length] in *. lia.
Qed.

Lemma train_one_epoch_schedule train_loader (s : @state _ value) :
  exists s' r new_calls,
    train_one_epoch train_loader s = (s', Ok r) /\
    gas s'.1 = gas s.1 /\
    calls s'.2 = calls s.2 ++ new_calls /\
    optimizer_steps 0 new_calls
      = schedule (gas s.1) (gac s.1) (Z.of_nat (List.length train_loader)) 0
          (sizes train_loader) /\
    (train_loader <> [] -> gac s'.1 = 0).
Proof.
  unfold train_one_epoch.
  unfold bind at 1 2 3 4, update, do_call, update_proc, modify. cbn [fst snd].
  match goal with
  | |- context [train_loop ?l 0 train_loader None ?s0] =>
      destruct (train_loop_schedule train_loader l 0 None s0)
        as (s' & r & new_calls & Hloop & Hgas & Hcalls & Hsteps & Hgac)
  end.
  exists s', r, (ZeroGrad :: new_calls).
  split; [done|]. split; [done|]. split.
  { rewrite Hcalls. cbn [snd calls add_call]. by rewrite <- app_assoc. }
  split; [done|]. intros Hne. apply Hgac; [done | lia].
Qed.

(** C1 (as amended). An epoch of [train_one_epoch] returns normally and
    takes its optimizer steps by [schedule]: the accumulation counter grows
    by the number of samples of each mini-batch, a step is taken after a
    batch exactly when the counter has reached [gas] or the batch is the
    last of the epoch, and a step resets the counter to zero (so it is zero
    after every non-empty epoch). In particular, with ten mini-batches of
    one sample each, [gas = 4] and a counter that starts at zero, the steps
    come after batches 4, 8 and 10: three in the epoch. *)
Theorem gradient_accumulation_schedule train_loader (s : @state _ value) :
  exists s' r new_calls,
    train_one_epoch train_loader s = (s', Ok r) /\
    calls s'.2 = calls s.2 ++ new_calls /\
    optimizer_steps 0 new_calls
      = schedule (gas s.1) (gac s.1) (Z.of_nat (List.length train_loader)) 0
          (sizes train_loader) /\
    (train_loader <> [] -> gac s'.1 = 0) /\
    (List.length train_loader = 10%nat ->
     Forall (fun b => len (input_function b.1) = 1) train_loader ->
     gas s.1 = 4 -> gac s.1 = 0 ->
     optimizer_steps 0 new_calls = [4; 8; 10]).
Proof.
  destruct (train_one_epoch_schedule train_loader s)
    as (s' & r & new_calls & Hrun & _ & Hcalls & Hsteps & Hgac).
  exists s', r, new_calls. repeat split; try done.
  intros Hlen Hone Hgas Hgac0. rewrite Hsteps, Hgas, Hgac0, Hlen.
  assert (sizes train_loader = replicate 10 1) as ->.
  { unfold sizes. rewrite <- Hlen. clear -Hone.
    induction Hone as [|b l Hb _ IH]; [done|]. cbn [map List.length replicate].
    by rewrite Hb, IH. }
  reflexivity.
Qed.


(** *** Validation *)

Lemma validate_body_spec l batch (s : @state _ value) :
  exists s' l',
    validate_body l batch s = (s', Ok l') /\
    calls s'.2 = calls s.2 /\
    reconstructed_image l' = Some (reconstruction s batch) /\
    targets l' = Some (input_function batch.2).
Proof.
  destruct s as [t p], batch as [images tgts].
  unfold validate_body, reconstruction, bind, self, proc. cbn [fst snd].
  destruct (encoder (params t) (input_function images) (torch_rng p))
    as [[encoded [mean lv]] g].
  cbn [update update_proc modify fst snd set_recon_loss set_kl_loss
       recon_loss kl_loss params lift].
  destruct (avg_ok (AvgMeter.add (recon_loss t)
              (mse_loss (decoder (params t) encoded) (input_function tgts))))
    as [r ->].
  destruct (avg_ok (AvgMeter.add (kl_loss t) (kl_div mean lv))) as [k ->].
  cbn [set_torch_rng numpy_rng].
  destruct (np_random_rand (numpy_rng p)) as [random_val g'].
  cbn [update_proc modify fst snd].
  destruct (_ && _); eexists _, _; (split; [reflexivity|]); repeat split; reflexivity.
Qed.

Lemma validate_loop_ok l val_loader (s : @state _ value) :
  exists s' l',
    validate_loop l val_loader s = (s', Ok l') /\ calls s'.2 = calls s.2.
Proof.
  revert l s. induction val_loader as [|batch rest IH]; intros l s.
  - by exists s, l.
  - cbn [validate_loop].
    destruct (validate_body_spec l batch s) as (s1 & l1 & Hbody & Hcalls1 & _).
    rewrite (bind_ok _ _ _ _ _ Hbody).
    destruct (IH l1 s1) as (s2 & l2 & Hloop & Hcalls2).
    exists s2, l2. split; [done | congruence].
Qed.

Lemma validate_loop_snoc l val_loader batch (s : @state _ value) :
  validate_loop l (val_loader ++ [batch]) s
  = bind (validate_loop l val_loader) (fun l => validate_body l batch) s.
Proof.
  revert l s. induction val_loader as [|b rest IH]; intros l s.
  - cbn [app validate_loop]. unfold bind, ret.
    by destruct (validate_body l batch s) as [? [?|?]].
  - cbn [app validate_loop]. rewrite bind_assoc. unfold bind at 1 2.
    destruct (validate_body l b s) as [s1 [l1|e]]; [|done]. apply IH.
Qed.

(** C8. Over a non-empty validation loader (its last batch is [batch]),
    [validate] returns normally and calls the sample generator exactly
    once, with the reconstruction and the reference of the last batch
    processed, whatever pair the random selection captured on the way. *)
Theorem validate_renders_last_batch val_loader batch (s : @state _ value) :
  exists s1 l1 s2 r,
    validate_loop (mkLocals None None None None None) val_loader (validate_entry s)
      = (s1, Ok l1) /\
    validate (val_loader ++ [batch]) s = (s2, Ok r) /\
    calls s2.2
      = calls s.2 ++ [Generate (reconstruction s1 batch) (input_function batch.2)].
Proof.
  destruct (validate_loop_ok (mkLocals None None None None None) val_loader
              (validate_entry s)) as (s1 & l1 & Hloop & Hcalls1).
  destruct (validate_body_spec l1 batch s1)
    as (s2 & l2 & Hbody & Hcalls2 & Hrecon & Htargets).
  exists s1, l1. eexists _, _. split; [done|].
  unfold validate. unfold bind at 1 2, update, modify. cbn [fst snd].
  change (set_kl_loss _ _, s.2) with (validate_entry s).
  rewrite (bind_ok _ _ (validate_entry s) s2 l2).
  2:{ rewrite validate_loop_snoc. by rewrite (bind_ok _ _ _ _ _ Hloop). }
  rewrite Hrecon, Htargets.
  unfold bind, generate, do_call, update_proc, modify, ret. cbn [fst snd].
  split; [reflexivity|]. cbn [calls add_call snd].
  rewrite Hcalls2, Hcalls1. reflexivity.
Qed.

Lemma validate_empty_loader (s : @state _ value) :
  (validate [] s).2 = Raise UnboundLocalError.
Proof. reflexivity. Qed.


(** *** Resuming from a checkpoint *)

Lemma on_heap_trainer {A} (c : M (Metric.world value) A) (s : @state _ value) :
  (on_heap c s).1.1 = s.1.
Proof. unfold on_heap. by destruct (c (heap s.2)). Qed.

(** C5. With a resume path configured: if the file exists (and holds
    the optimizer state, the scheduler state and the epoch),
    [load_checkpoint] leaves the trainer with the saved epoch plus one as
    its epoch index and with the optimizer and scheduler states loaded; if
    the file does not exist, the call returns normally and changes nothing
    but the log, which gets one more line. *)
Theorem load_checkpoint_resumes_after_saved_epoch (s : @state _ value) path :
  resume_ckpt s.1 = Some path -> path <> "" ->
  (forall ckpt_data o sch e,
     files s.2 !! path = Some ckpt_data ->
     ckpt_data !! "optimizer_state_dict" = Some (CV_optimizer o) ->
     ckpt_data !! "lr_scheduler_state_dict" = Some (CV_scheduler sch) ->
     ckpt_data !! "epoch" = Some (CV_int e) ->
     let t' := (load_checkpoint nan s).1.1 in
     epoch t' = e + 1 /\
     optimizer t' = optimizer_load_state_dict (optimizer s.1) o /\
     lr_scheduler t' = scheduler_load_state_dict (lr_scheduler s.1) sch) /\
  (files s.2 !! path = None ->
   load_checkpoint nan s
   = ((s.1,
       set_heap
         (Metric.mkWorld (Metric.objects (heap s.2))
            (Metric.log (heap s.2) ++ ["No such checkpoint file at " +:+ path]))
         s.2),
      Ok tt)).
Proof.
  intros Hresume Hpath. split.
  - intros ckpt_data o sch e Hfile Ho Hs He t'.
    pose (P := fun t' : Trainer =>
                 epoch t' = e + 1 /\
                 optimizer t' = optimizer_load_state_dict (optimizer s.1) o /\
                 lr_scheduler t' = scheduler_load_state_dict (lr_scheduler s.1) sch).
    change (P t'). subst t'.
    destruct s as [t p]. cbn [fst snd] in *.
    unfold load_checkpoint. unfold bind at 1, self. cbn [fst snd].
    rewrite Hresume, decide_False by done.
    unfold bind at 1, proc. cbn [fst snd]. rewrite Hfile.
    unfold ckpt_getitem. rewrite Ho, Hs, He.
    unfold bind at 1 2 3 4 5 6 7 8 9, ret, update, modify. cbn [fst snd].
    set (t1 := set_epoch (e + 1) (set_lr_scheduler _ (set_optimizer _ t))).
    assert (P t1) as Ht1 by done.
    assert (forall m, P (set_metric m t1)) as Ht1m by done.
    clearbody P t1.
    assert (forall (c : M (@state _ value) (option positive)) s0,
              s0.1 = t1 ->
              (forall s1, (c s1).1.1 = s1.1) ->
              P (bind c (fun sd =>
                   let! t := self in
                   let! m := on_heap (Metric.load nan sd (Some (num_epochs t))) in
                   let! _ := update (set_metric m) in
                   logger ("Checkpoint loaded successfully from " +:+ path +:+ "!"))
                   s0).1.1)
      as Hrest.
    { intros c s0 Hs0 Hc. unfold bind at 1. specialize (Hc s0).
      destruct (c s0) as [s1 [sd|err]]; cbn [fst snd] in Hc;
        [|cbn [fst snd]; by rewrite Hc, Hs0].
      unfold bind at 1, self. cbn [fst snd].
      unfold bind at 1.
      pose proof (on_heap_trainer (Metric.load nan sd (Some (num_epochs s1.1))) s1)
        as Hheap.
      destruct (on_heap _ s1) as [s2 [m|err]]; cbn [fst snd] in Hheap;
        [|cbn [fst snd]; by rewrite Hheap, Hc, Hs0].
      unfold bind, update, modify, logger. cbn [fst snd].
      rewrite on_heap_trainer. cbn [fst snd].
      by rewrite Hheap, Hc, Hs0. }
    destruct (ckpt_data !! "metric_state_dict") as [[| | | |[| |]|d]|];
      apply Hrest; try done; intros s1; unfold bind, ret, raise;
      rewrite ?on_heap_trainer; try done.
  - intros Hfile. destruct s as [t p]. cbn [fst snd] in *.
    unfold load_checkpoint. unfold bind at 1, self. cbn [fst snd].
    rewrite Hresume, decide_False by done.
    unfold bind at 1, proc. cbn [fst snd]. rewrite Hfile. reflexivity.
Qed.

End WithEngine.
End TrainerFacts.

Module Examples.
Import Py Toy.

(** C1, counterexample. Ten mini-batches of two samples each with
    [gas = 4]: the steps do not come after batches 4, 8 and 10. *)
Lemma two_samples_per_batch_steps :
  ~ @Trainer.steps_after_4_8_10 toy_engine (option Z) (ten_batches 2) toy_state.
Proof.
  intros (s' & r & new_calls & Hrun & Hcalls & Hsteps).
  destruct (@TrainerFacts.train_one_epoch_schedule toy_engine (option Z)
              (ten_batches 2) toy_state)
    as (s'' & r' & new_calls' & Hrun' & _ & Hcalls' & Hsteps' & _).
  rewrite Hrun in Hrun'. injection Hrun' as <- <-.
  rewrite Hcalls in Hcalls'. apply app_inv_head in Hcalls'. subst new_calls'.
  rewrite Hsteps in Hsteps'. vm_compute in Hsteps'. discriminate.
Qed.

(** C1, witness: ten mini-batches of one sample each with [gas = 4]. *)
Lemma one_sample_per_batch_steps :
  @Trainer.steps_after_4_8_10 toy_engine (option Z) (ten_batches 1) toy_state.
Proof.
  destruct (@TrainerFacts.gradient_accumulation_schedule toy_engine (option Z)
              (ten_batches 1) toy_state)
    as (s' & r & new_calls & Hrun & Hcalls & _ & _ & Hten).
  exists s', r, new_calls. repeat split; [done | done |].
  apply Hten; [reflexivity | repeat constructor | reflexivity | reflexivity].
Defined.


(** What the code does on the counterexample of C1: a step after every
    second batch. *)
Lemma two_samples_per_batch_schedule :
  exists s' r new_calls,
    @Trainer.train_one_epoch toy_engine (option Z) (ten_batches 2) toy_state
      = (s', Ok r) /\
    Trainer.calls s'.2 = Trainer.calls toy_state.2 ++ new_calls /\
    Trainer.optimizer_steps 0 new_calls = [2; 4; 6; 8; 10].
Proof.
  destruct (@TrainerFacts.train_one_epoch_schedule toy_engine (option Z)
              (ten_batches 2) toy_state)
    as (s' & r & new_calls & Hrun & _ & Hcalls & Hsteps & _).
  exists s', r, new_calls.
  split; [exact Hrun|]. split; [exact Hcalls|].
  rewrite Hsteps. vm_compute. reflexivity.
Qed.

(** C5, witness: a checkpoint saved at epoch 3 resumes at epoch 4; with
    no file at the path, the call returns normally. *)
Lemma resume_from_epoch_3 :
  Trainer.epoch
    (Trainer.load_checkpoint None
       (toy_resume_state {["checkpoints/checkpoint.pth" := toy_checkpoint]})).1.1 = 4
  /\
  (Trainer.load_checkpoint None (toy_resume_state ∅)).2 = Ok tt.
Proof.
  split.
  - apply (proj1 (@TrainerFacts.load_checkpoint_resumes_after_saved_epoch
                    toy_engine (option Z) None
                    (toy_resume_state {["checkpoints/checkpoint.pth" := toy_checkpoint]})
                    "checkpoints/checkpoint.pth" eq_refl ltac:(done))
             toy_checkpoint 7 9 3 eq_refl eq_refl eq_refl eq_refl).
  - rewrite (proj2 (@TrainerFacts.load_checkpoint_resumes_after_saved_epoch
                      toy_engine (option Z) None (toy_resume_state ∅)
                      "checkpoints/checkpoint.pth" eq_refl ltac:(done)) eq_refl).
    reflexivity.
Defined.

(** C6, witness: a state saved for three epochs loaded for five. *)
Lemma load_into_five_epochs :
  exists w',
    Metric.load None (Some 1%positive) (Some 5) toy_saved_world
      = (w', Ok (Some 2%positive)) /\
    Metric.objects w' !! 2%positive
      = Some (Metric.metric_dict 5 2 (Metric.A_channels ["train"; "val"])
                [[Some 5; Some 4; None; None; None]; [Some 6; None; None; None; None]]
                [[Some 1; Some 1; None; None; None]; [Some 2; None; None; None; None]]).
Proof.
  destruct (MetricFacts.load_extends_buffers None toy_saved_world 1%positive (Some 5)
              3 2 (Metric.A_channels ["train"; "val"])
              [[Some 5; Some 4; None]; [Some 6; None; None]]
              [[Some 1; Some 1; None]; [Some 2; None; None]]
              eq_refl ltac:(lia) ltac:(lia)
              ltac:(split; [reflexivity | repeat constructor])
              ltac:(split; [reflexivity | repeat constructor]))
    as (w' & Hload & Hinst & _).
  exists w'. split; [exact Hload | exact Hinst].
Defined.

(** C7, witness: epoch index 3 on a metric for three epochs. *)
Lemma write_past_the_last_epoch :
  Metric.__setitem__ (fun _ => false) 1%positive 3
    [("mse_losses", Metric.MV_dict [("ch_0", Some 5)])] toy_world
  = (Metric.mkWorld (Metric.objects toy_world)
       (Metric.log toy_world
        ++ ["Epoch indexed is out of range. The max epoch indexable is 3"]),
     Ok tt).
Proof.
  apply (MetricFacts.setitem_out_of_range_is_noop (fun _ => false) toy_world
           1%positive 3 3); [reflexivity | lia].
Defined.



End Examples.

(** ** The preprocessor and the postprocessor *)

Module ProcessingFacts.
Import Shape Processing ShapeFacts.

Lemma one_or_three c : c = 1 \/ c = 3 -> (c =? 1) || (c =? 3) = true.
Proof. intros [-> | ->]; reflexivity. Qed.

Lemma Input_forward_resized img_channels img_size dt b w h c :
  img_channels = 1 \/ img_channels = 3 ->
  0 < w -> 0 < h -> 0 < img_size.1 -> 0 < img_size.2 ->
  c = 1 \/ c = 3 ->
  Input_forward (mkInput img_channels img_size) dt [b; w; h; c]
  = if (c =? 1) && (img_channels =? 3) && (if dt is uint8 then true else false)
    then None
    else Some [b; img_channels; img_size.1; img_size.2].
Proof.
  intros HC Hw Hh Hs0 Hs1 Hc.
  unfold Input_forward, size_differs_from_list, resize.
  cbn [inp_img_channels inp_img_size].
  rewrite (one_or_three c Hc).
  rewrite (proj2 (Z.ltb_lt 0 h)), (proj2 (Z.ltb_lt 0 w)),
    (proj2 (Z.ltb_lt 0 img_size.1)), (proj2 (Z.ltb_lt 0 img_size.2)) by done.
  cbn [andb mbind option_bind].
  destruct Hc as [-> | ->], HC as [-> | ->], dt; reflexivity.
Qed.

Lemma Input_forward_rgb img_channels img_size dt b w h :
  img_channels = 1 \/ img_channels = 3 ->
  0 < w -> 0 < h -> 0 < img_size.1 -> 0 < img_size.2 ->
  Input_forward (mkInput img_channels img_size) dt [b; w; h; 3]
  = Some [b; img_channels; img_size.1; img_size.2].
Proof.
  intros HC Hw Hh Hs0 Hs1. rewrite Input_forward_resized by (done || by right).
  reflexivity.
Qed.

Lemma broadcast_dim_1_r x : broadcast_dim x 1 = Some x.
Proof.
  unfold broadcast_dim. destruct (Z.eqb_spec x 1) as [->|]; [done|].
  by destruct (x =? 1).
Qed.

Lemma broadcast_statistics b x h w n :
  broadcast [b; x; h; w] [n; 1; 1]
  = option_map (fun d => [b; d; h; w]) (broadcast_dim x n).
Proof.
  unfold broadcast. cbn [rev app broadcast_rev]. rewrite !broadcast_dim_1_r.
  by destruct (broadcast_dim x n).
Qed.

Lemma Output_forward_default_ok b c h w :
  c = 1 \/ c = 3 -> Output_forward Output_default [b; c; h; w] = Some [b; w; h; 3].
Proof.
  intros Hc. unfold Output_forward, Output_default, Output_init.
  cbn [out_std out_mean]. rewrite broadcast_statistics.
  destruct Hc as [-> | ->]; cbn [broadcast_dim Z.eqb Pos.eqb option_map mbind option_bind];
    rewrite broadcast_statistics; reflexivity.
Qed.

(** X1. The preprocessor is built for one or three channels only. It then
    returns the configured geometry, whatever the extents and the channel
    count (one or three) of the raw batch, with one exception: a
    single-channel batch of integers under a three-channel configuration
    is refused, because the normalisation of that branch wants floating
    point. A batch with another channel count is refused as well. *)
Theorem Input_forward_configured_shape img_channels img_size dt b w h c :
  0 < w -> 0 < h -> 0 < img_size.1 -> 0 < img_size.2 ->
  match Input_init img_channels img_size with
  | Some inp =>
      (img_channels = 1 \/ img_channels = 3) /\
      Input_forward inp dt [b; w; h; c]
      = if (c =? 3) || (c =? 1) && negb ((img_channels =? 3) && (if dt is uint8 then true else false))
        then Some [b; img_channels; img_size.1; img_size.2]
        else None
  | None => img_channels <> 1 /\ img_channels <> 3
  end.
Proof.
  intros Hw Hh Hs0 Hs1. unfold Input_init.
  destruct ((img_channels =? 1) || (img_channels =? 3)) eqn:HC.
  - apply orb_true_iff in HC.
    assert (img_channels = 1 \/ img_channels = 3) as HC'.
    { destruct HC as [HC | HC]; apply Z.eqb_eq in HC; auto. }
    split; [done|].
    destruct (Z.eqb_spec c 3) as [->|Hc3].
    { rewrite Input_forward_resized by (done || by right). reflexivity. }
    destruct (Z.eqb_spec c 1) as [->|Hc1].
    { rewrite Input_forward_resized by (done || by left).
      cbn [orb andb Z.eqb Pos.eqb]. by destruct (img_channels =? 3), dt. }
    unfold Input_forward.
    by rewrite (proj2 (Z.eqb_neq c 1)), (proj2 (Z.eqb_neq c 3)) by done.
  - apply orb_false_iff in HC as [H1 H3].
    split; by apply Z.eqb_neq.
Qed.

(** X1, an instance. *)
Lemma Input_forward_grey_examples :
  Input_forward (mkInput 3 (224, 112)) float32 [4; 100; 50; 1] = Some [4; 3; 224; 112] /\
  Input_forward (mkInput 3 (224, 112)) uint8 [4; 100; 50; 1] = None.
Proof.
  split.
  - exact (proj2 (Input_forward_configured_shape 3 (224, 112) float32 4 100 50 1
                    ltac:(lia) ltac:(lia) ltac:(cbn; lia) ltac:(cbn; lia))).
  - exact (proj2 (Input_forward_configured_shape 3 (224, 112) uint8 4 100 50 1
                    ltac:(lia) ltac:(lia) ltac:(cbn; lia) ltac:(cbn; lia))).
Defined.

(** X2. The postprocessor with its default statistics returns three
    channels for an input of one or three channels and fails on any
    other channel count: a single channel is already broadcast to three
    by the statistics, before the conversion to RGB is reached. *)
Theorem Output_forward_default_shape b c h w :
  Output_forward Output_default [b; c; h; w]
  = (if (c =? 1) || (c =? 3) then Some [b; w; h; 3] else None) /\
  (broadcast [b; 1; h; w] (out_std Output_default) = Some [b; 3; h; w]).
Proof.
  split; [|unfold Output_default, Output_init; cbn [out_std];
           by rewrite broadcast_statistics].
  destruct ((c =? 1) || (c =? 3)) eqn:Hc.
  - apply Output_forward_default_ok.
    apply orb_true_iff in Hc. destruct Hc as [Hc | Hc]; apply Z.eqb_eq in Hc; auto.
  - apply orb_false_iff in Hc as [H1 H3].
    unfold Output_forward, Output_default, Output_init. cbn [out_std out_mean].
    rewrite broadcast_statistics. unfold broadcast_dim.
    rewrite H3, H1. reflexivity.
Qed.

End ProcessingFacts.

(** ** The stacks on images of any size *)

Module StackFacts.
Import Shape Processing ShapeFacts ProcessingFacts.

Lemma conv_out_stride2 h : conv_out (h + 1) 3 2 0 = h / 2.
Proof.
  unfold conv_out.
  replace (h + 1 + 2 * 0 - (3 - 1) - 1) with (h + (-1) * 2) by lia.
  rewrite Z.div_add by lia. lia.
Qed.

Lemma Conv2d_forward_stride2 n c c' h w :
  2 <= h -> 2 <= w ->
  Conv2d_forward (mkConv2d c c' 3 2 0) [n; c; h + 1; w + 1]
  = Some [n; c'; h / 2; w / 2].
Proof.
  intros Hh Hw. unfold Conv2d_forward.
  cbn [in_channels out_channels kernel_size stride padding].
  rewrite Z.eqb_refl, (proj2 (Z.leb_le 3 _)), (proj2 (Z.leb_le 3 _)) by lia.
  cbn [andb]. by rewrite !conv_out_stride2.
Qed.

Lemma eighth h : h / 2 / 2 / 2 = h / 8.
Proof. rewrite !Z.div_div by lia. reflexivity. Qed.

Lemma Encoder_layers_floor C zch g nh n h w e :
  0 < g -> (g | 128) -> 0 < nh -> (nh | 512) ->
  0 <= n -> 8 <= h -> 8 <= w ->
  Encoder_init C zch g nh = Some e ->
  Encoder_layers e [n; C; h; w] = Some [n; zch; h / 8; w / 8].
Proof.
  intros Hg Hg128 Hnh Hnh512 Hn Hh Hw He.
  unfold Encoder_init in He.
  destruct (AttentionBlock_init 512 g nh) as [a|] eqn:Ha; [|done].
  cbn [mbind option_bind] in He. injection He as <-.
  assert (4 <= h / 2 /\ 2 <= h / 2 / 2 /\ 1 <= h / 2 / 2 / 2) as (Hh2 & Hh4 & Hh8).
  { repeat split; repeat (apply Z.div_le_lower_bound; [lia|]); lia. }
  assert (4 <= w / 2 /\ 2 <= w / 2 / 2 /\ 1 <= w / 2 / 2 / 2) as (Hw2 & Hw4 & Hw8).
  { repeat split; repeat (apply Z.div_le_lower_bound; [lia|]); lia. }
  cbn [Encoder_layers module_forward stride Z.eqb Pos.eqb mbind option_bind
       pad_right_bottom].
  do 2 shape_step.
  cbn [mbind option_bind pad_right_bottom].
  rewrite Conv2d_forward_stride2 by lia.
  cbn [mbind option_bind pad_right_bottom].
  do 2 shape_step.
  cbn [mbind option_bind pad_right_bottom].
  rewrite Conv2d_forward_stride2 by lia.
  cbn [mbind option_bind pad_right_bottom].
  do 2 shape_step.
  cbn [mbind option_bind pad_right_bottom].
  rewrite Conv2d_forward_stride2 by lia.
  cbn [mbind option_bind pad_right_bottom].
  do 3 shape_step.
  rewrite (AttentionBlock_forward_shape 512 g nh n _ _ a)
    by (lia || assumption || by apply divide_128_512).
  cbn [mbind option_bind].
  do 4 shape_step.
  by rewrite !eighth.
Qed.

Lemma Encoder_forward_floor C k g nh n h w e :
  0 < g -> (g | 128) -> 0 < nh -> (nh | 512) -> 0 < k ->
  0 <= n -> 8 <= h -> 8 <= w ->
  Encoder_init C (2 * k) g nh = Some e ->
  Encoder_forward e [n; C; h; w]
  = Some ([n; k; h / 8; w / 8], ([n; k; h / 8; w / 8], [n; k; h / 8; w / 8])).
Proof.
  intros Hg Hg128 Hnh Hnh512 Hk Hn Hh Hw He. unfold Encoder_forward.
  rewrite (Encoder_layers_floor C (2 * k) g nh) by done.
  cbn [mbind option_bind]. rewrite chunk2_dim1_even by lia.
  cbn [mbind option_bind]. rewrite broadcast_refl. cbn [mbind option_bind].
  rewrite broadcast_refl. reflexivity.
Qed.

Lemma stacks_init C zch g nh :
  0 < g -> (g | 128) -> 0 < nh -> (nh | 512) ->
  exists e d, Encoder_init C zch g nh = Some e /\ Decoder_init C zch g nh = Some d.
Proof.
  intros Hg Hg128 Hnh Hnh512.
  assert (AttentionBlock_init 512 g nh <> None) as Ha.
  { unfold AttentionBlock_init. by rewrite SelfAttention_init_ok. }
  unfold Encoder_init, Decoder_init.
  destruct (AttentionBlock_init 512 g nh); [|done]. by eexists _, _.
Qed.

Lemma times_eight_fits h : 8 * (h / 8) = h <-> (8 | h).
Proof.
  split.
  - intros Heq. exists (h / 8). lia.
  - intros [q ->]. rewrite Z.div_mul by lia. lia.
Qed.

(** X3. Any image of at least 8 by 8 pixels is encoded to a latent of
    [H / 8] by [W / 8] (rounded down) and decoded to [8 * (H / 8)] by
    [8 * (W / 8)] pixels: the reconstruction has the shape of the input
    exactly when both extents are multiples of 8. *)
Theorem Encoder_Decoder_round_down C zch g nh N H W :
  0 < g -> (g | 128) -> 0 < nh -> (nh | 512) ->
  0 < zch -> Z.even zch = true ->
  0 <= N -> 8 <= H -> 8 <= W ->
  exists e d,
    Encoder_init C zch g nh = Some e /\
    Decoder_init C zch g nh = Some d /\
    (let latent := [N; zch / 2; H / 8; W / 8] in
     Encoder_forward e [N; C; H; W] = Some (latent, (latent, latent)) /\
     Decoder_forward d latent = Some [N; C; 8 * (H / 8); 8 * (W / 8)]) /\
    ([N; C; 8 * (H / 8); 8 * (W / 8)] = [N; C; H; W]
     <-> (8 | H) /\ (8 | W)).
Proof.
  intros Hg Hg128 Hnh Hnh512 Hz Hev HN HH HW.
  apply Z.even_spec in Hev as [k Hk]. subst zch.
  assert (AttentionBlock_init 512 g nh <> None) as Ha.
  { unfold AttentionBlock_init. by rewrite SelfAttention_init_ok. }
  destruct (Encoder_init C (2 * k) g nh) as [e|] eqn:He.
  2:{ unfold Encoder_init in He. by destruct (AttentionBlock_init 512 g nh). }
  destruct (Decoder_init C (2 * k) g nh) as [d|] eqn:Hd.
  2:{ unfold Decoder_init in Hd. by destruct (AttentionBlock_init 512 g nh). }
  exists e, d. split; [done|]. split; [done|].
  assert (1 <= H / 8 /\ 1 <= W / 8) as [Hh Hw].
  { split; apply Z.div_le_lower_bound; lia. }
  replace (2 * k / 2) with k by (rewrite (Z.mul_comm 2 k), Z.div_mul; lia).
  split; [split|].
  - unfold Encoder_forward.
    rewrite (Encoder_layers_floor C (2 * k) g nh) by done.
    cbn [mbind option_bind]. rewrite chunk2_dim1_even by lia.
    cbn [mbind option_bind]. rewrite broadcast_refl. cbn [mbind option_bind].
    rewrite broadcast_refl. reflexivity.
  - by apply (Decoder_forward_shape C k g nh).
  - split.
    + intros Heq. injection Heq as HeqH HeqW.
      split; [exists (H / 8) | exists (W / 8)]; lia.
    + intros [[h ->] [w ->]]. rewrite !Z.div_mul by lia.
      by rewrite (Z.mul_comm h 8), (Z.mul_comm w 8).
Qed.

(** X3, an instance. *)
Lemma Encoder_Decoder_round_down_example :
  exists e d,
    Encoder_init 3 8 32 1 = Some e /\ Decoder_init 3 8 32 1 = Some d /\
    Encoder_forward e [1; 3; 100; 30] = Some ([1; 4; 12; 3], ([1; 4; 12; 3], [1; 4; 12; 3])) /\
    Decoder_forward d [1; 4; 12; 3] = Some [1; 3; 96; 24].
Proof.
  destruct (Encoder_Decoder_round_down 3 8 32 1 1 100 30) as (e & d & He & Hd & [Henc Hdec] & _);
    try lia; try reflexivity; [by exists 4 | by exists 512 |].
  by exists e, d.
Defined.


Lemma Encoder_layers_snoc l m x :
  Encoder_layers (l ++ [m]) x = Encoder_layers l x ≫= Encoder_layers [m].
Proof.
  revert x. induction l as [|m' l IH]; intros x; cbn [app Encoder_layers].
  - by destruct (_ ≫= _).
  - destruct (match m' with M_Conv2d _ => _ | _ => _ end) as [x1|]; [|done].
    cbn [mbind option_bind]. destruct (module_forward m' x1) as [x2|]; [|done].
    cbn [mbind option_bind]. apply IH.
Qed.

Lemma Conv2d_forward_channels m x y :
  Conv2d_forward m x = Some y -> exists n h w, y = [n; out_channels m; h; w].
Proof.
  unfold Conv2d_forward. destruct x as [|n [|c [|h [|w [|? ?]]]]]; try done.
  destruct (_ && _); [|done]. intros [= <-]. eauto.
Qed.

Lemma Encoder_layers_channels C zch g nh e x y :
  Encoder_init C zch g nh = Some e -> Encoder_layers e x = Some y ->
  exists n h w, y = [n; zch; h; w].
Proof.
  intros He Hy. unfold Encoder_init in He.
  destruct (AttentionBlock_init 512 g nh) as [a|]; [|done].
  cbn [mbind option_bind] in He. injection He as <-.
  match type of Hy with
  | Encoder_layers (?m1 :: ?m2 :: ?m3 :: ?m4 :: ?m5 :: ?m6 :: ?m7 :: ?m8 :: ?m9
                    :: ?m10 :: ?m11 :: ?m12 :: ?m13 :: ?m14 :: ?m15 :: ?m16
                    :: ?m17 :: [?last]) _ = _ =>
      change (Encoder_layers
                ([m1; m2; m3; m4; m5; m6; m7; m8; m9; m10; m11; m12; m13; m14;
                  m15; m16; m17] ++ [last]) x = Some y) in Hy
  end.
  rewrite Encoder_layers_snoc in Hy.
  destruct (Encoder_layers _ x) as [x'|]; [|done].
  cbn [mbind option_bind Encoder_layers module_forward stride Z.eqb Pos.eqb] in Hy.
  destruct (Conv2d_forward _ x') as [y'|] eqn:Hconv; [|done].
  cbn [mbind option_bind] in Hy. injection Hy as <-.
  by apply Conv2d_forward_channels in Hconv.
Qed.

Lemma chunk_sizes_odd k : 1 <= k -> chunk_sizes (2 * k + 1) 2 = [k + 1; k].
Proof.
  intros Hk. unfold chunk_sizes.
  rewrite (proj2 (Z.eqb_neq _ _)) by lia.
  replace ((2 * k + 1 + 2 - 1) / 2) with (k + 1).
  2:{ apply Z.div_unique_pos with (r := 0); lia. }
  replace ((2 * k + 1 + (k + 1) - 1) / (k + 1)) with 2.
  2:{ apply Z.div_unique_pos with (r := k - 1); lia. }
  change (Z.to_nat (2 - 1)) with 1%nat. cbn [replicate app].
  do 2 f_equal. lia.
Qed.

(** X4. With an odd [zch] the encoder and the decoder never compose: the
    encoder cannot unpack two chunks ([zch = 1]), or its two chunks do not
    broadcast ([zch >= 5]), or it returns a latent of two channels where
    the decoder is built for one ([zch = 3]). *)
Theorem odd_zch_never_reconstructs C zch g nh e d x :
  0 < zch -> Z.odd zch = true ->
  Encoder_init C zch g nh = Some e ->
  Decoder_init C zch g nh = Some d ->
  Encoder_forward e x ≫= (fun r => Decoder_forward d r.1) = None.
Proof.
  intros Hz Hodd He Hd. apply Z.odd_spec in Hodd as [k ->].
  unfold Encoder_forward.
  destruct (Encoder_layers e x) as [y|] eqn:Hy; [|done].
  destruct (Encoder_layers_channels _ _ _ _ _ _ _ He Hy) as (n & h & w & ->).
  cbn [mbind option_bind]. unfold chunk2_dim1.
  destruct (Z.eq_dec k 0) as [->|Hk].
  { reflexivity. }
  rewrite chunk_sizes_odd by lia. cbn [mbind option_bind].
  rewrite broadcast_refl. cbn [mbind option_bind].
  unfold broadcast. cbn [rev app broadcast_rev]. rewrite !broadcast_dim_refl.
  unfold broadcast_dim.
  rewrite (proj2 (Z.eqb_neq (k + 1) k)), (proj2 (Z.eqb_neq (k + 1) 1)) by lia.
  destruct (Z.eqb_spec k 1) as [->|Hk1]; [|done].
  cbn [option_map rev app mbind option_bind fst].
  unfold Decoder_init in Hd.
  destruct (AttentionBlock_init 512 g nh) as [a|]; [|done].
  cbn [mbind option_bind] in Hd. injection Hd as <-.
  reflexivity.
Qed.

(** X4, an instance. *)
Lemma odd_zch_never_reconstructs_example :
  exists e d,
    Encoder_init 3 5 32 1 = Some e /\ Decoder_init 3 5 32 1 = Some d /\
    Encoder_forward e [2; 3; 64; 64] ≫= (fun r => Decoder_forward d r.1) = None.
Proof.
  do 2 eexists. split; [reflexivity|]. split; [reflexivity|].
  apply (odd_zch_never_reconstructs 3 5 32 1); [lia | reflexivity..].
Defined.





(** X7. The reconstruction that [validate] renders: for a three-channel
    batch of any extents, as the data set yields them, the preprocessor, the encoder, the
    decoder and the postprocessor compose when the configured image size
    is a multiple of 8 in both directions, and the rendered batch has the
    configured size (transposed) and three channels. *)
Theorem rendered_reconstruction_shape cfg dt b w h :
  img_channels cfg = 1 \/ img_channels cfg = 3 ->
  0 < num_groups cfg -> (num_groups cfg | 128) ->
  0 < cfg_n_heads cfg -> (cfg_n_heads cfg | 512) ->
  0 < zch cfg -> Z.even (zch cfg) = true ->
  0 < (img_size cfg).1 -> (8 | (img_size cfg).1) ->
  0 < (img_size cfg).2 -> (8 | (img_size cfg).2) ->
  0 <= b -> 0 < w -> 0 < h ->
  exists inp vae,
    Input_init (img_channels cfg) (img_size cfg) = Some inp /\
    VAE_init cfg = Some vae /\
    rendered_reconstruction inp (encoder vae) (decoder vae) Output_default dt [b; w; h; 3]
    = Some [b; (img_size cfg).2; (img_size cfg).1; 3].
Proof.
  intros HC Hg Hg128 Hnh Hnh512 Hz Hev Hs0 [s0 Hd0] Hs1 [s1 Hd1] Hb Hw Hh.
  assert ((img_channels cfg =? 1) || (img_channels cfg =? 3) = true) as HCb.
  { apply orb_true_iff. destruct HC as [-> | ->]; [by left | by right]. }
  apply Z.even_spec in Hev as [k Hk].
  assert (AttentionBlock_init 512 (num_groups cfg) (cfg_n_heads cfg) <> None) as Ha.
  { unfold AttentionBlock_init. by rewrite SelfAttention_init_ok. }
  destruct (Encoder_init (img_channels cfg) (zch cfg) (num_groups cfg) (cfg_n_heads cfg))
    as [e|] eqn:He.
  2:{ unfold Encoder_init in He. by destruct (AttentionBlock_init 512 _ _). }
  destruct (Decoder_init (img_channels cfg) (zch cfg) (num_groups cfg) (cfg_n_heads cfg))
    as [d|] eqn:Hd.
  2:{ unfold Decoder_init in Hd. by destruct (AttentionBlock_init 512 _ _). }
  exists (mkInput (img_channels cfg) (img_size cfg)), (mkVAE cfg e d).
  split; [unfold Input_init; by rewrite HCb|].
  split; [unfold VAE_init; by rewrite HCb, He, Hd|].
  unfold rendered_reconstruction. cbn [encoder decoder].
  rewrite Input_forward_rgb by done.
  cbn [mbind option_bind].
  rewrite Hd0, Hd1, (Z.mul_comm s0 8), (Z.mul_comm s1 8). rewrite Hk in He, Hd.
  rewrite (Encoder_forward_shape (img_channels cfg) k (num_groups cfg) (cfg_n_heads cfg))
    by (done || lia).
  cbn [mbind option_bind].
  rewrite (Decoder_forward_shape (img_channels cfg) k (num_groups cfg) (cfg_n_heads cfg))
    by (done || lia).
  cbn [mbind option_bind].
  by apply Output_forward_default_ok.
Qed.

(** X7, an instance. *)
Lemma rendered_reconstruction_default :
  exists inp vae,
    Input_init 3 (224, 224) = Some inp /\
    VAE_init (mkModelConfig 3 (224, 224) 32 8 1) = Some vae /\
    rendered_reconstruction inp (encoder vae) (decoder vae) Output_default uint8
      [4; 224; 224; 3]
    = Some [4; 224; 224; 3].
Proof.
  apply (rendered_reconstruction_shape (mkModelConfig 3 (224, 224) 32 8 1) uint8 4 224 224);
    cbn [img_channels num_groups cfg_n_heads zch img_size fst snd];
    first [lia | reflexivity | by exists 4 | by exists 512 | by exists 28].
Defined.

Lemma broadcast_dim_distinct a b :
  a <> b -> 1 < a -> 1 < b -> broadcast_dim a b = None.
Proof.
  intros Hab Ha Hb. unfold broadcast_dim.
  by rewrite (proj2 (Z.eqb_neq a b)), (proj2 (Z.eqb_neq a 1)),
    (proj2 (Z.eqb_neq b 1)) by lia.
Qed.

Lemma broadcast_extents b c h w h' w' :
  broadcast [b; c; h'; w'] [b; c; h; w]
  = w'' ← broadcast_dim w' w; h'' ← broadcast_dim h' h; Some [b; c; h''; w''].
Proof.
  unfold broadcast. cbn [rev app broadcast_rev]. rewrite !broadcast_dim_refl.
  by destruct (broadcast_dim w' w), (broadcast_dim h' h).
Qed.

(** X8. The loss of a training step exists exactly when the configured image
    size is a multiple of 8 in both directions: otherwise the decoder's
    reconstruction is smaller than the preprocessed target and the two do
    not broadcast in the reconstruction loss. *)
Theorem train_step_loss_needs_multiples_of_8 cfg dt b w h :
  img_channels cfg = 1 \/ img_channels cfg = 3 ->
  0 < num_groups cfg -> (num_groups cfg | 128) ->
  0 < cfg_n_heads cfg -> (cfg_n_heads cfg | 512) ->
  0 < zch cfg -> Z.even (zch cfg) = true ->
  8 <= (img_size cfg).1 -> 8 <= (img_size cfg).2 ->
  0 <= b -> 0 < w -> 0 < h ->
  exists inp vae,
    Input_init (img_channels cfg) (img_size cfg) = Some inp /\
    VAE_init cfg = Some vae /\
    train_step_loss inp (encoder vae) (decoder vae) dt [b; w; h; 3] [b; w; h; 3]
    = if ((img_size cfg).1 mod 8 =? 0) && ((img_size cfg).2 mod 8 =? 0)
      then Some [] else None.
Proof.
  intros HC Hg Hg128 Hnh Hnh512 Hz Hev Hs0 Hs1 Hb Hw Hh.
  pose proof (one_or_three _ HC) as HCb.
  apply Z.even_spec in Hev as [k Hk].
  destruct (stacks_init (img_channels cfg) (zch cfg) (num_groups cfg) (cfg_n_heads cfg))
    as (e & d & He & Hd); try done.
  exists (mkInput (img_channels cfg) (img_size cfg)), (mkVAE cfg e d).
  split; [unfold Input_init; by rewrite HCb|].
  split; [unfold VAE_init; by rewrite HCb, He, Hd|].
  unfold train_step_loss. cbn [encoder decoder].
  rewrite !Input_forward_rgb by (done || lia).
  cbn [mbind option_bind]. rewrite Hk in He, Hd.
  rewrite (Encoder_forward_floor (img_channels cfg) k (num_groups cfg) (cfg_n_heads cfg))
    by (done || lia).
  cbn [mbind option_bind].
  assert (1 <= (img_size cfg).1 / 8 /\ 1 <= (img_size cfg).2 / 8) as [Hq0 Hq1].
  { split; apply Z.div_le_lower_bound; lia. }
  rewrite (Decoder_forward_shape (img_channels cfg) k (num_groups cfg) (cfg_n_heads cfg))
    by (done || lia).
  cbn [mbind option_bind]. unfold MSELoss_forward, KLDiv_forward.
  rewrite !broadcast_refl. cbn [mbind option_bind]. rewrite broadcast_refl.
  cbn [mbind option_bind]. rewrite broadcast_extents.
  destruct (Z.eqb_spec ((img_size cfg).2 mod 8) 0) as [H1|H1].
  - apply Z.mod_divide in H1; [|lia]. apply times_eight_fits in H1. rewrite H1.
    rewrite broadcast_dim_refl. cbn [mbind option_bind].
    destruct (Z.eqb_spec ((img_size cfg).1 mod 8) 0) as [H0|H0].
    + apply Z.mod_divide in H0; [|lia]. apply times_eight_fits in H0. rewrite H0.
      rewrite broadcast_dim_refl. reflexivity.
    + rewrite broadcast_dim_distinct; [done| |lia|lia].
      intros Heq. apply times_eight_fits, Z.mod_divide in Heq; [done|lia].
  - rewrite andb_false_r. rewrite (broadcast_dim_distinct (8 * _) (img_size cfg).2);
      [done| |lia|lia].
    intros Heq. apply times_eight_fits, Z.mod_divide in Heq; [done|lia].
Qed.

(** X8, an instance. *)
Lemma train_step_loss_at_100_by_100 :
  exists inp vae,
    Input_init 3 (100, 100) = Some inp /\
    VAE_init (mkModelConfig 3 (100, 100) 32 8 1) = Some vae /\
    train_step_loss inp (encoder vae) (decoder vae) uint8 [4; 64; 64; 3] [4; 64; 64; 3]
    = None.
Proof.
  apply (train_step_loss_needs_multiples_of_8 (mkModelConfig 3 (100, 100) 32 8 1) uint8 4 64 64);
    cbn [img_channels num_groups cfg_n_heads zch img_size fst snd];
    first [lia | reflexivity | by exists 4 | by exists 512].
Defined.

End StackFacts.

(** ** The latent sample and the KL term *)

Module ReparameterisationFacts.
Import Tensor TensorFacts.
Local Open Scope R_scope.









Lemma kl_term_nonpos m l : kl_term m l <= 0.
Proof.
  unfold kl_term. pose proof (exp_ineq1_le l). pose proof (pow2_ge_0 m). lra.
Qed.

Lemma sum_kl_terms_nonpos (m l : list R) :
  fold_right Rplus 0 (zip_with kl_term m l) <= 0.
Proof.
  revert l. induction m as [|a m IH]; intros [|b l]; cbn [zip_with fold_right]; try lra.
  pose proof (kl_term_nonpos a b). specialize (IH l). lra.
Qed.

(** X11. With a non-negative weight [beta] the KL term is never negative,
    whatever the mean and the log-variance. *)
Theorem KLDiv_forward_nonneg self mean log_variance r :
  0 <= beta self ->
  KLDiv_forward self mean log_variance = Some r ->
  0 <= r.
Proof.
  intros Hbeta. unfold KLDiv_forward, sub, zip_t, add_scalar, pow, exp_t, map_t.
  cbn [shape data].
  destruct (decide (shape log_variance = shape mean)); [|done].
  cbn [mbind option_bind shape data].
  rewrite decide_True by done. cbn [mbind option_bind shape data].
  intros [= <-]. unfold sum. cbn [data]. rewrite zip_kl_term.
  pose proof (sum_kl_terms_nonpos (data mean) (data log_variance)).
  apply Rmult_le_pos; [done | lra].
Qed.

(** X11, an instance. *)
Lemma KLDiv_forward_nonneg_example :
  exists r,
    KLDiv_forward (mkKLDiv 0.00025) (mkTensor [2]%Z [1; -2]) (mkTensor [2]%Z [0; 3])
      = Some r /\ 0 <= r.
Proof.
  eexists. split; [reflexivity|].
  apply (KLDiv_forward_nonneg (mkKLDiv 0.00025) (mkTensor [2]%Z [1; -2])
           (mkTensor [2]%Z [0; 3])); [cbn [beta]; lra | reflexivity].
Defined.

End ReparameterisationFacts.

(** ** Averages of the losses *)

Module LossMeterFacts.
Import AvgMeter AvgMeterFacts.
Local Open Scope R_scope.

Lemma fold_left_Rplus (xs : list R) a :
  fold_left Rplus xs a = a + fold_right Rplus 0 xs.
Proof.
  revert a. induction xs as [|x xs IH]; intros a; cbn [fold_left fold_right]; [lra|].
  rewrite IH. lra.
Qed.

(** X12. After [reset], the average of one or more additions is their
    arithmetic mean, whatever the meter held before: this is how
    [train_one_epoch] and [validate] use their two meters. *)
Theorem avg_after_reset_is_mean (m : AvgMeter) (xs : list R) :
  xs <> [] ->
  avg (fold_left add xs (reset m))
  = Py.Ok (fold_right Rplus 0 xs / INR (length xs)).
Proof.
  intros Hne. rewrite avg_guard.
  destruct (fold_add xs (reset m)) as [-> ->]. cbn [reset count total].
  rewrite fold_left_Rplus, Z.add_0_l, Rplus_0_l.
  destruct (Z.ltb_spec 0 (Z.of_nat (length xs))) as [_|Hle].
  - by rewrite <- INR_IZR_INZ.
  - destruct xs; [done | cbn [length] in Hle; lia].
Qed.

(** X12, an instance. *)
Lemma avg_after_reset_of_three :
  avg (fold_left add [1; 2; 6] (reset (init 7)))
  = Py.Ok (fold_right Rplus 0 [1; 2; 6] / INR 3).
Proof. apply (avg_after_reset_is_mean (init 7) [1; 2; 6]). discriminate. Defined.

Lemma update_losses_cons key val input output_losses :
  _update_losses ((key, val) :: input) output_losses
  = _update_losses input
      (match output_losses !! key with
       | Some m => <[key := add m val]> output_losses
       | None => <[key := init val]> output_losses
       end).
Proof. reflexivity. Qed.

(** X13. [_update_losses] touches the meters of the keys it is given and no
    other: afterwards the dictionary has the old keys and the given ones,
    and the meter of every other key is as it was. *)
Theorem update_losses_keys (input_losses : list (string * R))
    (output_losses : gmap string AvgMeter) :
  dom (_update_losses input_losses output_losses)
    = dom output_losses ∪ list_to_set (input_losses.*1) /\
  forall key, key ∉ input_losses.*1 ->
    _update_losses input_losses output_losses !! key = output_losses !! key.
Proof.
  revert output_losses.
  induction input_losses as [|[k v] input IH]; intros output_losses.
  - split; [|done]. cbn [fmap list_fmap list_to_set]. by rewrite (right_id_L ∅ (∪)).
  - rewrite update_losses_cons.
    destruct (IH (match output_losses !! k with
                  | Some m => <[k := add m v]> output_losses
                  | None => <[k := init v]> output_losses
                  end)) as [Hdom Hframe].
    split.
    + rewrite Hdom. cbn [fmap list_fmap fst list_to_set].
      rewrite (assoc_L (∪) (dom output_losses)), (comm_L (∪) (dom output_losses)).
      by destruct (output_losses !! k); rewrite dom_insert_L.
    + intros key Hkey. cbn [fmap list_fmap fst] in Hkey.
      apply not_elem_of_cons in Hkey as [Hne Hkey].
      rewrite Hframe by done.
      destruct (output_losses !! k); by rewrite lookup_insert_ne.
Qed.

(** X14. A loss reported once per batch through [_update_losses] under a key
    the dictionary does not have yet: after the first report and [n]
    more, the meter's total is the sum of all [n + 1] values but its count
    is [n], so the average it gives is their sum divided by [n]. *)
Theorem update_losses_average_skips_first_count (key : string) (first : R)
    (later : list R) (output_losses : gmap string AvgMeter) :
  output_losses !! key = None -> later <> [] ->
  exists m,
    fold_left (fun d val => _update_losses [(key, val)] d) (first :: later) output_losses
      !! key = Some m /\
    avg m = Py.Ok ((first + fold_right Rplus 0 later) / INR (length later)).
Proof.
  intros Hfresh Hne. cbn [fold_left]. rewrite update_losses_cons, Hfresh.
  cbn [_update_losses fold_left].
  assert (forall xs d m0,
            d !! key = Some m0 ->
            fold_left (fun d val => _update_losses [(key, val)] d) xs d !! key
            = Some (fold_left add xs m0)) as Hfold.
  { induction xs as [|x xs IH]; intros d m0 Hd; cbn [fold_left]; [done|].
    rewrite update_losses_cons, Hd. cbn [_update_losses fold_left].
    apply IH. apply lookup_insert_eq. }
  eexists. split; [apply Hfold, lookup_insert_eq|].
  rewrite avg_guard. destruct (fold_add later (init first)) as [-> ->].
  cbn [init count total]. rewrite fold_left_Rplus, Z.add_0_l.
  destruct (Z.ltb_spec 0 (Z.of_nat (length later))) as [_|Hle].
  - by rewrite <- INR_IZR_INZ.
  - destruct later; [done | cbn [length] in Hle; lia].
Qed.

(** X14, an instance. *)
Lemma update_losses_two_reports :
  exists m,
    fold_left (fun d val => _update_losses [("mse_losses", val)] d) [4; 2] ∅
      !! "mse_losses" = Some m /\
    avg m = Py.Ok ((4 + fold_right Rplus 0 [2]) / INR 1).
Proof.
  apply (update_losses_average_skips_first_count "mse_losses" 4 [2] ∅);
    [reflexivity | discriminate].
Defined.

End LossMeterFacts.

(** ** Writing to a metric *)

Module MetricUpdateFacts.
Import Py Metric PyFacts MetricFacts.
Local Open Scope py_scope.

Section WithValue.
Context {value : Type} (nan : value) (class_attribute : string -> bool).

Lemma metric_dict_lookups E C ch (mse kl : list (list value)) :
  let d := metric_dict E C ch mse kl in
  d !! "num_epochs" = Some (A_int E) /\
  d !! "num_channels" = Some (A_int C) /\
  d !! "channels" = Some ch /\
  d !! "mse_losses" = Some (A_buffer mse) /\
  d !! "kl_divergence_losses" = Some (A_buffer kl).
Proof.
  unfold metric_dict. repeat split;
    repeat (rewrite lookup_insert_ne by done); apply lookup_insert_eq.
Qed.

Lemma metric_dict_set_mse E C ch (mse mse' kl : list (list value)) :
  <["mse_losses" := A_buffer mse']> (metric_dict E C ch mse kl)
  = metric_dict E C ch mse' kl.
Proof.
  unfold metric_dict.
  rewrite (insert_insert_ne _ "mse_losses" "kl_divergence_losses") by done.
  by rewrite insert_insert_eq.
Qed.

Lemma metric_dict_set_kl E C ch (mse kl kl' : list (list value)) :
  <["kl_divergence_losses" := A_buffer kl']> (metric_dict E C ch mse kl)
  = metric_dict E C ch mse kl'.
Proof. unfold metric_dict. by rewrite insert_insert_eq. Qed.

Lemma index_of_nonneg name (l : list string) i : index_of name l = Some i -> 0 <= i.
Proof.
  revert i. induction l as [|x l IH]; intros i; cbn [index_of]; [done|].
  destruct (decide (x = name)); [intros [= <-]; lia|].
  destruct (index_of name l) as [j|]; [|done].
  intros [= <-]. specialize (IH j eq_refl). lia.
Qed.

Lemma buffer_set_ok (b : list (list value)) i j v row :
  0 <= i -> 0 <= j -> b !! Z.to_nat i = Some row -> j < Z.of_nat (length row) ->
  buffer_set b i j v = Some (<[Z.to_nat i := <[Z.to_nat j := v]> row]> b).
Proof.
  intros Hi Hj Hrow Hlt. unfold buffer_set. rewrite Hrow.
  by rewrite (proj2 (Z.leb_le 0 i)), (proj2 (Z.leb_le 0 j)), (proj2 (Z.ltb_lt _ _)).
Qed.

Lemma in_range epoch E : 0 <= epoch < E -> negb ((0 <=? epoch) && (epoch <? E)) = false.
Proof.
  intros [H0 H1]. by rewrite (proj2 (Z.leb_le 0 epoch)), (proj2 (Z.ltb_lt epoch E)).
Qed.

(** The first steps of [__setitem__] on an epoch in range: what is left
    is the loop over the given metrics. *)
Lemma setitem_in_range (w : world value) self epoch E metric_values :
  (objects w !!! self) !! "num_epochs" = Some (A_int E) ->
  0 <= epoch < E ->
  __setitem__ class_attribute self epoch metric_values w
  = for_each metric_values (fun '(m_name, m_values) =>
      let! has := hasattr class_attribute self m_name in
      if negb has then
        logger ("Metric named " +:+ m_name +:+ " is not defined")
      else
        match m_values with
        | MV_dict items =>
            for_each items (fun '(chn, m_value) =>
              let! chi := channel_id self chn in
              store_cell self m_name chi epoch m_value)
        | MV_list l =>
            let! nc := getattr self "num_channels" in
            match nc with
            | A_int num_channels =>
                if negb (Z.of_nat (length l) =? num_channels) then raise ValueError
                else
                  for_each (range num_channels) (fun i =>
                    match l !! Z.to_nat i with
                    | Some v => store_cell self m_name i epoch v
                    | None => raise IndexError
                    end)
            | _ => raise ValueError
            end
        | MV_other => ret tt
        end) w.
Proof.
  intros HE Hin. unfold __setitem__.
  rewrite (bind_ok _ _ _ _ _ (getattr_Some w self "num_epochs" _ HE)).
  unfold bind at 1, as_int, ret. by rewrite in_range.
Qed.

Lemma store_cell_ok (w : world value) self m_name (b : list (list value)) i j v row :
  (objects w !!! self) !! m_name = Some (A_buffer b) ->
  0 <= i -> 0 <= j -> b !! Z.to_nat i = Some row -> j < Z.of_nat (length row) ->
  store_cell self m_name i j v w
  = (mkWorld (<[self := <[m_name := A_buffer (<[Z.to_nat i := <[Z.to_nat j := v]> row]> b)]>
                          (objects w !!! self)]> (objects w)) (log w), Ok tt).
Proof.
  intros Hb Hi Hj Hrow Hlt. unfold store_cell.
  rewrite (bind_ok _ _ _ _ _ (getitem_Some w self m_name _ Hb)).
  unfold bind at 1, as_buffer, ret. by rewrite (buffer_set_ok b i j v row).
Qed.


Lemma channel_id_ok (w : world value) self channels name i :
  (objects w !!! self) !! "channels" = Some (A_channels channels) ->
  index_of name channels = Some i ->
  channel_id self name w = (w, Ok i).
Proof.
  intros Hch Hi. unfold channel_id.
  rewrite (bind_ok _ _ _ _ _ (getattr_Some w self "channels" _ Hch)). by rewrite Hi.
Qed.

Lemma channel_id_unknown (w : world value) self channels name :
  (objects w !!! self) !! "channels" = Some (A_channels channels) ->
  index_of name channels = None ->
  channel_id self name w = (w, Raise ValueError).
Proof.
  intros Hch Hi. unfold channel_id.
  rewrite (bind_ok _ _ _ _ _ (getattr_Some w self "channels" _ Hch)). by rewrite Hi.
Qed.

Lemma hasattr_in_dict (w : world value) self name a :
  (objects w !!! self) !! name = Some a ->
  hasattr class_attribute self name w = (w, Ok true).
Proof. intros Ha. unfold hasattr, bind, read, ret. by rewrite Ha. Qed.

Lemma hasattr_not_in_dict (w : world value) self name :
  (objects w !!! self) !! name = None ->
  hasattr class_attribute self name w = (w, Ok (class_attribute name)).
Proof.
  intros Ha. unfold hasattr, bind, read, ret. rewrite Ha.
  rewrite bool_decide_eq_false_2; [done|]. by intros [? ?].
Qed.

(** X15. Writing one value with [metric[epoch] = {name: {channel: value}}]:
    for an epoch in range and a known channel, exactly the cell of that
    channel's row and that epoch's column of the named buffer takes the
    value; the other buffer, the other attributes, the other objects and
    the log stay as they were. *)
Theorem setitem_writes_cell (w : world value) (self : positive) (epoch E C : Z)
    (channels : list string) (mse kl : list (list value)) (chn : string) (i : Z)
    (v : value) :
  objects w !! self = Some (metric_dict E C (A_channels channels) mse kl) ->
  0 <= epoch < E ->
  index_of chn channels = Some i ->
  (forall row, mse !! Z.to_nat i = Some row -> epoch < Z.of_nat (length row) ->
   __setitem__ class_attribute self epoch [("mse_losses", MV_dict [(chn, v)])] w
   = (mkWorld
        (<[self := metric_dict E C (A_channels channels)
                     (<[Z.to_nat i := <[Z.to_nat epoch := v]> row]> mse) kl]> (objects w))
        (log w), Ok tt)) /\
  (forall row, kl !! Z.to_nat i = Some row -> epoch < Z.of_nat (length row) ->
   __setitem__ class_attribute self epoch [("kl_divergence_losses", MV_dict [(chn, v)])] w
   = (mkWorld
        (<[self := metric_dict E C (A_channels channels) mse
                     (<[Z.to_nat i := <[Z.to_nat epoch := v]> row]> kl)]> (objects w))
        (log w), Ok tt)).
Proof.
  intros Hself Hin Hi.
  pose proof (lookup_total_correct _ _ _ Hself) as Hd.
  destruct (metric_dict_lookups E C (A_channels channels) mse kl)
    as (HE & HC & Hch & Hmse & Hkl).
  rewrite <- Hd in HE, HC, Hch, Hmse, Hkl.
  pose proof (index_of_nonneg _ _ _ Hi) as Hi0.
  split; intros row Hrow Hlen; rewrite (setitem_in_range w self epoch E) by done;
    cbn [for_each].
  - unfold bind at 1 2.
    rewrite (hasattr_in_dict w self "mse_losses" _ Hmse). cbn [negb for_each].
    unfold bind at 1 2. rewrite (channel_id_ok w self channels chn i Hch Hi).
    rewrite (store_cell_ok w self "mse_losses" mse i epoch v row) by (done || lia).
    cbn [ret]. by rewrite Hd, metric_dict_set_mse.
  - unfold bind at 1 2.
    rewrite (hasattr_in_dict w self "kl_divergence_losses" _ Hkl). cbn [negb for_each].
    unfold bind at 1 2. rewrite (channel_id_ok w self channels chn i Hch Hi).
    rewrite (store_cell_ok w self "kl_divergence_losses" kl i epoch v row) by (done || lia).
    cbn [ret]. by rewrite Hd, metric_dict_set_kl.
Qed.

(** X16. A name that is neither an attribute of the metric nor of its class
    is skipped with a warning, and [__setitem__] goes on with the other
    names. *)
Theorem setitem_skips_unknown_metric (w : world value) (self : positive)
    (epoch E : Z) (m_name : string) (m_values : m_values_t value)
    (rest : list (string * m_values_t value)) :
  (objects w !!! self) !! "num_epochs" = Some (A_int E) ->
  0 <= epoch < E ->
  (objects w !!! self) !! m_name = None ->
  class_attribute m_name = false ->
  __setitem__ class_attribute self epoch ((m_name, m_values) :: rest) w
  = __setitem__ class_attribute self epoch rest
      (mkWorld (objects w)
         (log w ++ ["Metric named " +:+ m_name +:+ " is not defined"])).
Proof.
  intros HE Hin Hname Hclass.
  rewrite !(setitem_in_range _ self epoch E) by done.
  cbn [for_each]. unfold bind at 1 2.
  rewrite (hasattr_not_in_dict w self m_name Hname), Hclass. reflexivity.
Qed.



(** X19. [load] returns [None] and touches nothing when it is given [None]
    or an empty dictionary; given a dictionary without [num_epochs] it
    raises [KeyError] before it has deleted anything. *)
Theorem load_early_exits (w : world value) (sd : positive) (new_num_epochs : option Z) :
  load nan None new_num_epochs w = (w, Ok None) /\
  (objects w !!! sd = ∅ ->
   load nan (Some sd) new_num_epochs w = (w, Ok None)) /\
  (objects w !!! sd <> ∅ -> (objects w !!! sd) !! "num_epochs" = None ->
   load nan (Some sd) new_num_epochs w = (w, Raise KeyError)).
Proof.
  split; [done|]. split.
  - intros Hempty. unfold load, bind at 1, read. by rewrite Hempty, decide_True.
  - intros Hne Hkey. unfold load, bind at 1, read. rewrite decide_False by done.
    unfold bind at 1, getitem, bind, read. by rewrite Hkey.
Qed.

Lemma channel_label_inj : Inj (=) (=) (fun c : Z => "ch_" +:+ pretty c).
Proof. intros a b Hab. by apply (inj (String.app "ch_")), (inj pretty) in Hab. Qed.

Lemma index_of_map_seq (f : Z -> string) start n k :
  Inj (=) (=) f -> (k < n)%nat ->
  index_of (f (Z.of_nat (start + k))) (map f (map Z.of_nat (seq start n)))
  = Some (Z.of_nat k).
Proof.
  intros Hinj. revert start k. induction n as [|n IH]; intros start k Hk; [lia|].
  cbn [seq map index_of]. destruct k as [|k].
  - rewrite Nat.add_0_r, decide_True by done. reflexivity.
  - rewrite decide_False by (intros Heq; apply Hinj in Heq; lia).
    replace (start + S k)%nat with (S start + k)%nat by lia.
    rewrite IH by lia. cbn [option_map]. f_equal. lia.
Qed.

Lemma index_of_absent name (l : list string) :
  name ∉ l -> index_of name l = None.
Proof.
  induction l as [|x l IH]; intros Hnot; cbn [index_of]; [done|].
  apply not_elem_of_cons in Hnot as [Hne Hnot].
  rewrite decide_False by done. by rewrite IH.
Qed.

(** X20. A metric built for [C] channels answers [channel_id] for the label
    [ch_i] with [i], for every [i] below [C], and raises [ValueError] for
    any label outside its list; the constructor itself refuses a negative
    number of epochs or of channels. *)
Theorem init_channel_ids (w : world value) (E C : Z) :
  0 <= E -> 0 <= C ->
  exists self w',
    init nan E C w = (w', Ok self) /\
    objects w !! self = None /\
    (forall i, 0 <= i < C -> channel_id self ("ch_" +:+ pretty i) w' = (w', Ok i)) /\
    (forall name,
       name ∉ map (fun c => "ch_" +:+ pretty c) (range C) ->
       channel_id self name w' = (w', Raise ValueError)) /\
    (forall E' C', E' < 0 \/ C' < 0 -> init nan E' C' w = (w, Raise ValueError)).
Proof.
  intros HE HC. eexists _, _. split; [by apply init_ok|].
  split.
  { apply not_elem_of_dom, is_fresh. }
  set (self := fresh (dom (objects w))).
  set (w' := mkWorld (<[self := fresh_dict nan E C]> (objects w)) (log w)).
  assert ((objects w' !!! self) !! "channels"
          = Some (A_channels (map (fun c => "ch_" +:+ pretty c) (range C)))) as Hch.
  { unfold w'. cbn [objects]. rewrite lookup_total_insert_eq.
    apply (metric_dict_lookups E C). }
  split; [|split].
  - intros i Hi. apply (channel_id_ok w' self _ _ i Hch).
    unfold range.
    replace i with (Z.of_nat (0 + Z.to_nat i)) at 1 by lia.
    rewrite (index_of_map_seq _ 0 (Z.to_nat C) (Z.to_nat i) channel_label_inj) by lia.
    f_equal. lia.
  - intros name Hname. apply (channel_id_unknown w' self _ _ Hch).
    by apply index_of_absent.
  - intros E' C' Hneg. unfold init, new_buffer.
    assert ((C' <? 0) || (E' <? 0) = true) as ->; [|done].
    apply orb_true_iff. destruct Hneg as [Hneg | Hneg]; [right | left];
      by apply Z.ltb_lt.
Qed.

End WithValue.

Import Toy.

(** X15, an instance. *)
Lemma write_first_validation_loss :
  __setitem__ (fun _ => false) 1%positive 0
    [("mse_losses", MV_dict [("ch_1", Some 7)])] toy_world
  = (mkWorld
       (<[1%positive :=
            metric_dict 3 2 (A_channels ["ch_0"; "ch_1"])
              [[None; None; None]; [Some 7; None; None]]
              [[None; None; None]; [None; None; None]]]> (objects toy_world))
       (log toy_world), Ok tt).
Proof.
  apply (proj1 (setitem_writes_cell (fun _ => false) toy_world 1%positive 0 3 2
                  ["ch_0"; "ch_1"]
                  [[None; None; None]; [None; None; None]]
                  [[None; None; None]; [None; None; None]]
                  "ch_1" 1 (Some 7) eq_refl ltac:(lia) eq_refl)
           [None; None; None] eq_refl ltac:(cbn; lia)).
Defined.

(** X16, an instance. *)
Lemma skip_accuracy_then_stop :
  __setitem__ (fun _ => false) 1%positive 0 [("accuracy", MV_other)] toy_world
  = __setitem__ (fun _ => false) 1%positive 0 []
      (mkWorld (objects toy_world)
         (log toy_world ++ ["Metric named accuracy is not defined"])).
Proof.
  apply (setitem_skips_unknown_metric (fun _ => false) toy_world 1%positive 0 3
           "accuracy" MV_other []); [reflexivity | lia | reflexivity | reflexivity].
Defined.



(** X19, an instance. *)
Lemma load_of_an_unallocated_dictionary :
  load (None : option Z) (Some 9%positive) (Some 5) toy_world = (toy_world, Ok None).
Proof.
  apply (proj1 (proj2 (load_early_exits None toy_world 9%positive (Some 5)))).
  reflexivity.
Defined.

(** X20, an instance. *)
Lemma channel_ids_of_three_channels :
  exists self w',
    init (None : option Z) 4 3 (mkWorld ∅ []) = (w', Ok self) /\
    channel_id self "ch_2" w' = (w', Ok 2).
Proof.
  destruct (init_channel_ids (None : option Z) (mkWorld ∅ []) 4 3 ltac:(lia) ltac:(lia))
    as (self & w' & Hinit & _ & Hid & _).
  exists self, w'. split; [exact Hinit|]. apply (Hid 2). lia.
Defined.

End MetricUpdateFacts.

(** ** The calls of an epoch *)

Module TrainerLoopFacts.
Import Py Trainer Trace PyFacts TrainerFacts.
Local Open Scope py_scope.

Ltac exists_last_step :=
  eexists _, _, _; split; [reflexivity|];
  cbn [fst snd gas gac epoch metric recon_loss kl_loss calls files heap
       add_call set_torch_rng ret];
  rewrite <- ?app_assoc; repeat split; eassumption || reflexivity.

Section WithEngine.
Context `{Engine} {value : Type} (nan : value).

(** Two states that differ at most in the loss meters, the random
    generators and the calls made. *)
Lemma validate_body_frame l batch (s : @state _ value) :
  exists s' l',
    validate_body l batch s = (s', Ok l') /\
    calls s'.2 = calls s.2 /\
    params s'.1 = params s.1 /\ grads s'.1 = grads s.1 /\
    optimizer s'.1 = optimizer s.1 /\ lr_scheduler s'.1 = lr_scheduler s.1 /\
    gac s'.1 = gac s.1 /\ epoch s'.1 = epoch s.1 /\ metric s'.1 = metric s.1 /\
    files s'.2 = files s.2 /\ heap s'.2 = heap s.2 /\
    AvgMeter.count (recon_loss s'.1) = (AvgMeter.count (recon_loss s.1) + 1)%Z /\
    loss_data l' <> None.
Proof.
  destruct s as [t p], batch as [images tgts].
  unfold validate_body, bind, self, proc. cbn [fst snd].
  destruct (encoder (params t) (input_function images) (torch_rng p))
    as [[encoded [mean lv]] g].
  cbn [update update_proc modify fst snd set_recon_loss set_kl_loss
       recon_loss kl_loss params lift].
  destruct (avg_ok (AvgMeter.add (recon_loss t)
              (mse_loss (decoder (params t) encoded) (input_function tgts))))
    as [r ->].
  destruct (avg_ok (AvgMeter.add (kl_loss t) (kl_div mean lv))) as [k ->].
  cbn [set_torch_rng numpy_rng].
  destruct (np_random_rand (numpy_rng p)) as [random_val g'].
  cbn [update_proc modify fst snd].
  destruct (_ && _); eexists _, _; (split; [reflexivity|]); repeat split; done.
Qed.

Lemma validate_loop_frame l val_loader (s : @state _ value) :
  exists s' l',
    validate_loop l val_loader s = (s', Ok l') /\
    calls s'.2 = calls s.2 /\
    params s'.1 = params s.1 /\ grads s'.1 = grads s.1 /\
    optimizer s'.1 = optimizer s.1 /\ lr_scheduler s'.1 = lr_scheduler s.1 /\
    gac s'.1 = gac s.1 /\ epoch s'.1 = epoch s.1 /\ metric s'.1 = metric s.1 /\
    files s'.2 = files s.2 /\ heap s'.2 = heap s.2 /\
    AvgMeter.count (recon_loss s'.1)
      = (AvgMeter.count (recon_loss s.1) + Z.of_nat (length val_loader))%Z /\
    (val_loader <> [] ->
     loss_data l' <> None /\ reconstructed_image l' <> None /\ targets l' <> None) /\
    (val_loader = [] -> l' = l).
Proof.
  revert l s. induction val_loader as [|batch rest IH]; intros l s.
  - exists s, l. cbn [validate_loop ret length]. rewrite Z.add_0_r. by repeat split.
  - cbn [validate_loop].
    destruct (validate_body_frame l batch s)
      as (s1 & l1 & Hbody & ? & ? & ? & ? & ? & ? & ? & ? & ? & ? & Hcount1 & Hloss1).
    destruct (validate_body_spec l batch s) as (s1' & l1' & Hbody' & _ & Hrecon & Htargets).
    rewrite Hbody in Hbody'. injection Hbody' as <- <-.
    rewrite (bind_ok _ _ _ _ _ Hbody).
    destruct (IH l1 s1)
      as (s2 & l2 & Hloop & ? & ? & ? & ? & ? & ? & ? & ? & ? & ? & Hcount2 & Hne & Hnil).
    exists s2, l2. split; [done|].
    repeat (split; [congruence|]). split.
    { rewrite Hcount2, Hcount1. cbn [length]. lia. }
    split; [|done]. intros _.
    destruct rest as [|b rest].
    + rewrite (Hnil eq_refl). by rewrite Hrecon, Htargets.
    + by apply Hne.
Qed.

Lemma validate_run val_loader (s : @state _ value) :
  exists s1 l1,
    validate_loop (mkLocals None None None None None) val_loader (validate_entry s)
      = (s1, Ok l1) /\
    validate val_loader s
    = match reconstructed_image l1, targets l1 with
      | Some ri, Some tg => ((s1.1, add_call (Generate ri tg) s1.2), Ok (loss_data l1))
      | _, _ => (s1, Raise UnboundLocalError)
      end.
Proof.
  destruct (validate_loop_ok (mkLocals None None None None None) val_loader
              (validate_entry s)) as (s1 & l1 & Hloop & _).
  exists s1, l1. split; [done|].
  unfold validate. unfold bind at 1 2, update, modify. cbn [fst snd].
  change (set_kl_loss _ _, s.2) with (validate_entry s).
  rewrite (bind_ok _ _ _ _ _ Hloop).
  by destruct (reconstructed_image l1), (targets l1).
Qed.

(** X21. Validation trains nothing: whatever the loader, [validate] leaves the
    weights, the gradients, the optimizer, the scheduler, the accumulation
    counter, the epoch, the metric, the files and the heap as they were,
    and makes no call to the autograd engine or the optimizer. It fails
    exactly when the loader is empty, with [UnboundLocalError] and before
    any sample is rendered; otherwise it renders once and returns the two
    averages. *)
Theorem validate_trains_nothing val_loader (s : @state _ value) :
  let s' := (validate val_loader s).1 in
  params s'.1 = params s.1 /\ grads s'.1 = grads s.1 /\
  optimizer s'.1 = optimizer s.1 /\ lr_scheduler s'.1 = lr_scheduler s.1 /\
  gac s'.1 = gac s.1 /\ epoch s'.1 = epoch s.1 /\ metric s'.1 = metric s.1 /\
  files s'.2 = files s.2 /\ heap s'.2 = heap s.2 /\
  (exists new_calls,
     calls s'.2 = calls s.2 ++ new_calls /\
     count trains new_calls = 0%nat /\
     count is_generate new_calls = (if val_loader is [] then 0 else 1)%nat) /\
  (if val_loader is [] then (validate val_loader s).2 = Raise UnboundLocalError
   else exists r, (validate val_loader s).2 = Ok (Some r)).
Proof.
  intros s'. subst s'.
  destruct (validate_run val_loader s) as (s1 & l1 & Hloop & ->).
  destruct (validate_loop_frame (mkLocals None None None None None) val_loader
              (validate_entry s))
    as (s1' & l1' & Hloop' & Hcalls & ? & ? & ? & ? & ? & ? & ? & ? & ? & _ & Hne & Hnil).
  rewrite Hloop in Hloop'. injection Hloop' as <- <-.
  destruct val_loader as [|batch rest].
  - rewrite (Hnil eq_refl). cbn [reconstructed_image raise fst snd].
    repeat (split; [done|]). split; [|done].
    exists []. by rewrite app_nil_r.
  - destruct Hne as (Hloss & Hrecon & Htargets); [done|].
    destruct (reconstructed_image l1) as [ri|]; [|done].
    destruct (targets l1) as [tg|]; [|done].
    destruct (loss_data l1) as [r|] eqn:Hr; [|done].
    cbn [fst snd]. repeat (split; [done|]). split; [|by exists r].
    exists [Generate ri tg]. cbn [calls add_call]. by rewrite Hcalls.
Qed.

Lemma count_app (p : call -> bool) (a b : list call) :
  count p (a ++ b) = (count p a + count p b)%nat.
Proof. unfold count. by rewrite filter_app, length_app. Qed.

Lemma train_step_trace images targets optimize (s : @state _ value) :
  let fire := (gas s.1 <=? gac s.1 + len images) || optimize in
  exists s' r k,
    train_step images targets optimize s = (s', Ok tt) /\
    AvgMeter.avg (recon_loss s'.1) = Ok r /\
    AvgMeter.avg (kl_loss s'.1) = Ok k /\
    calls s'.2 = calls s.2 ++ step_calls fire r k /\
    gas s'.1 = gas s.1 /\
    gac s'.1 = (if fire then 0 else gac s.1 + len images) /\
    epoch s'.1 = epoch s.1 /\ metric s'.1 = metric s.1 /\
    files s'.2 = files s.2 /\ heap s'.2 = heap s.2.
Proof.
  destruct s as [t p]. unfold train_step, bind, self, proc. cbn [fst snd].
  destruct (encoder (params t) images (torch_rng p)) as [[encoded [mean lv]] g].
  cbn [update update_proc do_call modify fst snd set_grads set_recon_loss
       set_kl_loss set_gac gas gac params grads optimizer recon_loss kl_loss].
  destruct (avg_ok (AvgMeter.add (recon_loss t)
              (mse_loss (decoder (params t) encoded) targets))) as [r Hr].
  destruct (avg_ok (AvgMeter.add (kl_loss t) (kl_div mean lv))) as [k Hk].
  destruct ((gas t <=? gac t + len images) || optimize) eqn:Hfire.
  - destruct (optimizer_step (optimizer t) (params t)
                (backward (params t) images targets (torch_rng p) (grads t)))
      as [o w'].
    cbn [update update_proc do_call modify fst snd set_params set_optimizer
         set_grads set_gac gas gac grads recon_loss kl_loss lift].
    rewrite Hr, Hk. cbn [update_proc modify fst snd].
    exists_last_step.
  - exists_last_step.
Qed.

Lemma count_step_calls fire r k :
  count is_backward (step_calls fire r k) = 1%nat /\
  count is_zero_grad (step_calls fire r k)
    = count is_optimizer_step (step_calls fire r k) /\
  count is_generate (step_calls fire r k) = 0%nat.
Proof. by destruct fire. Qed.

Lemma train_loop_trace batches length index loss_data (s : @state _ value) :
  exists s' r new_calls,
    train_loop length index batches loss_data s = (s', Ok r) /\
    calls s'.2 = calls s.2 ++ new_calls /\
    count is_backward new_calls = List.length batches /\
    count is_zero_grad new_calls = count is_optimizer_step new_calls /\
    count is_generate new_calls = 0%nat /\
    epoch s'.1 = epoch s.1 /\ metric s'.1 = metric s.1 /\
    files s'.2 = files s.2 /\ heap s'.2 = heap s.2 /\
    (batches = [] -> r = loss_data /\ new_calls = []) /\
    (batches <> [] -> index + Z.of_nat (List.length batches) = length ->
     exists front recon_avg kl_avg,
       new_calls = front ++ [OptimizerStep; ZeroGrad; Write recon_avg kl_avg] /\
       r = Some (recon_avg, kl_avg)).
Proof.
  revert index loss_data s.
  induction batches as [|[images targets] rest IH]; intros index loss_data s.
  - exists s, loss_data, []. cbn [train_loop ret]. rewrite app_nil_r.
    by repeat split.
  - cbn [train_loop].
    destruct (train_step_trace (input_function images) (input_function targets)
                (length - 1 <=? index) s)
      as (s1 & r & k & Hstep & Hr & Hk & Hcalls1 & _ & _ & ? & ? & ? & ?).
    rewrite (bind_ok _ _ _ _ _ Hstep).
    unfold bind at 1, self. cbn [fst snd].
    unfold bind at 1, lift. rewrite Hr. unfold bind at 1. rewrite Hk.
    destruct (IH (index + 1) (Some (r, k)) s1)
      as (s2 & r2 & calls2 & Hloop & Hcalls2 & Hb & Hz & Hg & ? & ? & ? & ?
          & Hnil & Hlast).
    match type of Hcalls1 with
    | _ = _ ++ step_calls ?f _ _ => set (fire := f) in *
    end.
    destruct (count_step_calls fire r k) as (Hb1 & Hz1 & Hg1).
    exists s2, r2, (step_calls fire r k ++ calls2).
    split; [done|]. split.
    { by rewrite Hcalls2, Hcalls1, app_assoc. }
    rewrite !count_app, Hb, Hz, Hg, Hb1, Hz1, Hg1. cbn [List.length].
    do 3 (split; [done|]). do 4 (split; [congruence|]).
    split; [done|]. intros _ Hlen. cbn [List.length] in Hlen.
    destruct rest as [|b rest].
    + destruct (Hnil eq_refl) as [-> ->].
      assert (fire = true) as ->.
      { subst fire. rewrite (proj2 (Z.leb_le (length - 1) index)) by (cbn in Hlen; lia).
        apply orb_true_r. }
      by exists [Backward], r, k.
    + destruct Hlast as (front & ra & ka & -> & ->); [done | cbn [List.length] in *; lia|].
      exists (step_calls fire r k ++ front), ra, ka.
      by rewrite app_assoc.
Qed.

(** X22. The calls of one epoch of training: one backward pass per
    mini-batch; the gradients are cleared once at the start and once after
    every optimizer step, and nowhere else; no sample is rendered. A
    non-empty epoch ends with an optimizer step on its last batch, and the
    two averages it returns are the ones that step reports; an empty one
    returns the empty dictionary. The epoch index, the metric, the files
    and the heap are left alone. *)
Theorem train_one_epoch_trace train_loader (s : @state _ value) :
  exists s' r new_calls,
    train_one_epoch train_loader s = (s', Ok r) /\
    calls s'.2 = calls s.2 ++ new_calls /\
    count is_backward new_calls = List.length train_loader /\
    count is_zero_grad new_calls = S (count is_optimizer_step new_calls) /\
    count is_generate new_calls = 0%nat /\
    epoch s'.1 = epoch s.1 /\ metric s'.1 = metric s.1 /\
    files s'.2 = files s.2 /\ heap s'.2 = heap s.2 /\
    match train_loader with
    | [] => r = None /\ new_calls = [ZeroGrad]
    | _ :: _ =>
        exists front recon_avg kl_avg,
          new_calls = ZeroGrad :: front ++ [OptimizerStep; ZeroGrad; Write recon_avg kl_avg] /\
          r = Some (recon_avg, kl_avg)
    end.
Proof.
  unfold train_one_epoch.
  unfold bind at 1 2 3 4, update, do_call, update_proc, modify. cbn [fst snd].
  match goal with
  | |- context [train_loop ?l 0 train_loader None ?s0] =>
      destruct (train_loop_trace train_loader l 0 None s0)
        as (s' & r & new_calls & Hloop & Hcalls & Hb & Hz & Hg & ? & ? & ? & ?
            & Hnil & Hlast)
  end.
  exists s', r, (ZeroGrad :: new_calls).
  split; [done|]. split.
  { rewrite Hcalls. cbn [snd calls add_call]. by rewrite <- app_assoc. }
  change (ZeroGrad :: new_calls) with ([ZeroGrad] ++ new_calls).
  rewrite !count_app, Hb, Hz, Hg.
  do 3 (split; [done|]). do 4 (split; [done|]).
  destruct train_loader as [|b rest].
  - by destruct (Hnil eq_refl) as [-> ->].
  - destruct Hlast as (front & ra & ka & -> & ->); [done | lia|].
    by exists front, ra, ka.
Qed.

End WithEngine.
End TrainerLoopFacts.

(** ** Writing and reading back a checkpoint *)

Module CheckpointFacts.
Import Py Trainer PyFacts TrainerFacts.
Local Open Scope py_scope.

Lemma list_ascii_of_string_app s t :
  list_ascii_of_string (s +:+ t) = list_ascii_of_string s ++ list_ascii_of_string t.
Proof. induction s as [|a s IH]; simpl; [done|]. f_equal. exact IH. Qed.

Lemma string_app_inj_r s1 s2 t : s1 +:+ t = s2 +:+ t -> s1 = s2.
Proof.
  intros Heq. apply (f_equal list_ascii_of_string) in Heq.
  rewrite !list_ascii_of_string_app in Heq. apply app_inv_tail in Heq.
  apply (f_equal string_of_list_ascii) in Heq.
  by rewrite !string_of_list_ascii_of_string in Heq.
Qed.

Lemma path_join_inj a b b' : path_join a b = path_join a b' -> b = b'.
Proof.
  unfold path_join. destruct (decide (a = "")); [done|].
  destruct (ends_with_slash a); intros Heq.
  - by apply (inj (String.app a)) in Heq.
  - apply (inj (String.app a)) in Heq. by apply (inj (String.app "/")) in Heq.
Qed.

Lemma numbered_inj a (e e' : Z) :
  path_join a ("checkpoint_" +:+ pretty e +:+ ".pth")
  = path_join a ("checkpoint_" +:+ pretty e' +:+ ".pth") -> e = e'.
Proof.
  intros Heq. apply path_join_inj in Heq.
  apply (inj (String.app "checkpoint_")) in Heq.
  apply string_app_inj_r in Heq. by apply (inj pretty) in Heq.
Qed.

Lemma numbered_not_latest a (e : Z) :
  path_join a ("checkpoint_" +:+ pretty e +:+ ".pth") <> path_join a "checkpoint.pth".
Proof. intros Heq. apply path_join_inj in Heq. discriminate. Qed.

Section WithEngine.
Context `{Engine} {value : Type} (nan : value).

Lemma load_checkpoint_fields (s : @state _ value) path ckpt_data o sch e :
  resume_ckpt s.1 = Some path -> path <> "" ->
  files s.2 !! path = Some ckpt_data ->
  ckpt_data !! "optimizer_state_dict" = Some (CV_optimizer o) ->
  ckpt_data !! "lr_scheduler_state_dict" = Some (CV_scheduler sch) ->
  ckpt_data !! "epoch" = Some (CV_int e) ->
  epoch (load_checkpoint nan s).1.1 = e + 1 /\
  optimizer (load_checkpoint nan s).1.1 = optimizer_load_state_dict (optimizer s.1) o /\
  lr_scheduler (load_checkpoint nan s).1.1
    = scheduler_load_state_dict (lr_scheduler s.1) sch.
Proof.
  intros Hresume Hpath Hfile Ho Hs He.
  pose (P := fun t' : Trainer =>
               epoch t' = e + 1 /\
               optimizer t' = optimizer_load_state_dict (optimizer s.1) o /\
               lr_scheduler t' = scheduler_load_state_dict (lr_scheduler s.1) sch).
  change (P (load_checkpoint nan s).1.1).
  destruct s as [t p]. cbn [fst snd] in *.
  unfold load_checkpoint. unfold bind at 1, self. cbn [fst snd].
  rewrite Hresume, decide_False by done.
  unfold bind at 1, proc. cbn [fst snd]. rewrite Hfile.
  unfold ckpt_getitem. rewrite Ho, Hs, He.
  unfold bind at 1 2 3 4 5 6 7 8 9, ret, update, modify. cbn [fst snd].
  set (t1 := set_epoch (e + 1) (set_lr_scheduler _ (set_optimizer _ t))).
  assert (P t1) as Ht1 by done.
  assert (forall m, P (set_metric m t1)) as Ht1m by done.
  clearbody P t1.
  assert (forall (c : M (@state _ value) (option positive)) s0,
            s0.1 = t1 ->
            (forall s1, (c s1).1.1 = s1.1) ->
            P (bind c (fun sd =>
                 let! t := self in
                 let! m := on_heap (Metric.load nan sd (Some (num_epochs t))) in
                 let! _ := update (set_metric m) in
                 logger ("Checkpoint loaded successfully from " +:+ path +:+ "!"))
                 s0).1.1)
    as Hrest.
  { intros c s0 Hs0 Hc. unfold bind at 1. specialize (Hc s0).
    destruct (c s0) as [s1 [sd|err]]; cbn [fst snd] in Hc;
      [|cbn [fst snd]; by rewrite Hc, Hs0].
    unfold bind at 1, self. cbn [fst snd].
    unfold bind at 1.
    pose proof (on_heap_trainer (Metric.load nan sd (Some (num_epochs s1.1))) s1)
      as Hheap.
    destruct (on_heap _ s1) as [s2 [m|err]]; cbn [fst snd] in Hheap;
      [|cbn [fst snd]; by rewrite Hheap, Hc, Hs0].
    unfold bind, update, modify, logger. cbn [fst snd].
    rewrite on_heap_trainer. cbn [fst snd].
    by rewrite Hheap, Hc, Hs0. }
  destruct (ckpt_data !! "metric_state_dict") as [[| | | |[| |]|d]|];
    apply Hrest; try done; intros s1; unfold bind, ret, raise;
    rewrite ?on_heap_trainer; try done.
Qed.

Lemma checkpoint_run kwargs (s : @state _ value) m :
  metric s.1 = Some m ->
  let latest := path_join (checkpoint_dir s.1) "checkpoint.pth" in
  let numbered := fun e : Z =>
    path_join (checkpoint_dir s.1) ("checkpoint_" +:+ pretty e +:+ ".pth") in
  exists s' data,
    checkpoint kwargs s = (s', Ok tt) /\
    s'.1 = s.1 /\
    Metric.objects (heap s'.2) = Metric.objects (heap s.2) /\
    calls s'.2 = calls s.2 /\
    files s'.2 !! latest = Some data /\
    files s'.2 !! numbered (epoch s.1) = Some data /\
    (2 <= epoch s.1 -> files s'.2 !! numbered (epoch s.1 - 2) = None) /\
    (forall path,
       path <> latest -> path <> numbered (epoch s.1) ->
       (2 <= epoch s.1 -> path <> numbered (epoch s.1 - 2)) ->
       files s'.2 !! path = files s.2 !! path) /\
    (forall key v, kwargs !! key = Some v -> data !! key = Some v) /\
    (kwargs !! "epoch" = None -> data !! "epoch" = Some (CV_int (epoch s.1))) /\
    (kwargs !! "optimizer_state_dict" = None ->
     data !! "optimizer_state_dict" = Some (CV_optimizer (optimizer s.1))) /\
    (kwargs !! "lr_scheduler_state_dict" = None ->
     data !! "lr_scheduler_state_dict" = Some (CV_scheduler (lr_scheduler s.1))) /\
    (kwargs !! "metric_state_dict" = None ->
     data !! "metric_state_dict"
     = Some (CV_metric (Metric.objects (heap s.2) !!! Metric.state_dict m))).
Proof.
  intros Hm latest numbered. destruct s as [t p]. cbn [fst snd] in *.
  unfold checkpoint. unfold bind at 1, self. cbn [fst snd]. rewrite Hm.
  unfold bind at 1, ret. unfold bind at 1, on_heap, Metric.read. cbn [fst snd].
  unfold bind at 1, update_proc, modify. cbn [fst snd].
  unfold bind at 1, modify. cbn [fst snd files set_files].
  rewrite lookup_insert_eq.
  unfold bind at 1, logger, on_heap, Metric.logger, modify.
  cbn [fst snd heap set_heap set_files files].
  fold latest. fold (numbered (epoch t)). fold (numbered (epoch t - 2)).
  match goal with
  | |- context [<[latest := ?d]> (files p)] => set (data := d)
  end.
  assert (forall key v, kwargs !! key = Some v -> data !! key = Some v) as Hkw.
  { intros key v Hkey. by apply lookup_union_Some_l. }
  assert (forall key, kwargs !! key = None ->
            data !! key
            = (<["model_config" := CV_config (config t)]>
               (<["encoder_model_state_dict" := CV_weights (params t)]>
               (<["decoder_model_state_dict" := CV_weights (params t)]>
               (<["optimizer_state_dict" := CV_optimizer (optimizer t)]>
               (<["lr_scheduler_state_dict" := CV_scheduler (lr_scheduler t)]>
               (<["epoch" := CV_int (epoch t)]>
               (<["metric_state_dict" :=
                    CV_metric (Metric.objects (heap p) !!! Metric.state_dict m)]>
                  (∅ : gmap string ckpt_value)))))))) !! key) as Hown.
  { intros key Hkey. by apply lookup_union_r. }
  assert (numbered (epoch t) <> latest) as Hne1 by apply numbered_not_latest.
  assert (numbered (epoch t - 2) <> latest) as Hne2 by apply numbered_not_latest.
  assert (numbered (epoch t - 2) <> numbered (epoch t)) as Hne3.
  { intros Heq. apply numbered_inj in Heq. lia. }
  clearbody data.
  assert (forall F : gmap string (gmap string ckpt_value),
            (F = <[numbered (epoch t) := data]> (<[latest := data]> (files p)) \/
             2 <= epoch t /\
             F = delete (numbered (epoch t - 2))
                   (<[numbered (epoch t) := data]> (<[latest := data]> (files p)))) ->
            (2 <= epoch t -> F !! numbered (epoch t - 2) = None) ->
            F !! latest = Some data /\
            F !! numbered (epoch t) = Some data /\
            (2 <= epoch t -> F !! numbered (epoch t - 2) = None) /\
            (forall path,
               path <> latest -> path <> numbered (epoch t) ->
               (2 <= epoch t -> path <> numbered (epoch t - 2)) ->
               F !! path = files p !! path)) as Hfiles.
  { intros F HF Hold. split; [|split; [|split; [done|]]].
    - destruct HF as [-> | [_ ->]]; rewrite ?lookup_delete_ne by done;
        rewrite lookup_insert_ne by done; apply lookup_insert_eq.
    - destruct HF as [-> | [_ ->]]; rewrite ?lookup_delete_ne by done;
        apply lookup_insert_eq.
    - intros path Hp1 Hp2 Hp3.
      destruct HF as [-> | [He ->]].
      + by rewrite !lookup_insert_ne by congruence.
      + specialize (Hp3 He). rewrite lookup_delete_ne by congruence.
        by rewrite !lookup_insert_ne by congruence. }
  destruct (Z.leb_spec 2 (epoch t)) as [He|He].
  - unfold bind at 1, proc. cbn [fst snd files set_heap set_files].
    destruct ((<[numbered (epoch t) := data]> (<[latest := data]> (files p)))
                !! numbered (epoch t - 2)) as [old|] eqn:Hold.
    + unfold bind, modify. cbn [fst snd files set_files set_heap heap].
      eexists _, data. split; [reflexivity|]. cbn [fst snd heap files calls Metric.objects].
      split; [done|]. split; [done|]. split; [done|].
      destruct (Hfiles _ (or_intror (conj He eq_refl))) as (H1 & H2 & H3 & H4).
      { intros _. apply lookup_delete_eq. }
      repeat (split; [assumption|]).
      repeat split; intros Hkey; rewrite (Hown _ Hkey);
        repeat (rewrite lookup_insert_ne by done); apply lookup_insert_eq.
    + eexists _, data. split; [reflexivity|]. cbn [fst snd heap files calls Metric.objects].
      split; [done|]. split; [done|]. split; [done|].
      destruct (Hfiles _ (or_introl eq_refl)) as (H1 & H2 & H3 & H4).
      { by intros _. }
      repeat (split; [assumption|]).
      repeat split; intros Hkey; rewrite (Hown _ Hkey);
        repeat (rewrite lookup_insert_ne by done); apply lookup_insert_eq.
  - eexists _, data. split; [reflexivity|]. cbn [fst snd heap files calls Metric.objects].
    split; [done|]. split; [done|]. split; [done|].
    destruct (Hfiles _ (or_introl eq_refl)) as (H1 & H2 & H3 & H4).
    { intros ?. lia. }
    repeat (split; [assumption|]).
    repeat split; intros Hkey; rewrite (Hown _ Hkey);
      repeat (rewrite lookup_insert_ne by done); apply lookup_insert_eq.
Qed.

(** X23. [checkpoint] on a trainer without a metric raises [AttributeError]
    before it writes anything. On a trainer that has its metric the same
    data go to [checkpoint.pth] and to the file numbered with the current
    epoch; from epoch 2 on, the file numbered two epochs back is gone
    afterwards; no other file changes, nor the trainer, the objects of the
    heap or the calls. Keyword arguments win over the trainer's own
    entries; without an override the file holds the trainer's epoch,
    optimizer state and scheduler state, and the metric's dictionary as it
    is at that moment. *)
Theorem checkpoint_writes_and_rotates kwargs (s : @state _ value) :
  let latest := path_join (checkpoint_dir s.1) "checkpoint.pth" in
  let numbered := fun e : Z =>
    path_join (checkpoint_dir s.1) ("checkpoint_" +:+ pretty e +:+ ".pth") in
  match metric s.1 with
  | None => checkpoint kwargs s = (s, Raise AttributeError)
  | Some m =>
      exists s' data,
        checkpoint kwargs s = (s', Ok tt) /\
        s'.1 = s.1 /\
        Metric.objects (heap s'.2) = Metric.objects (heap s.2) /\
        calls s'.2 = calls s.2 /\
        files s'.2 !! latest = Some data /\
        files s'.2 !! numbered (epoch s.1) = Some data /\
        (2 <= epoch s.1 -> files s'.2 !! numbered (epoch s.1 - 2) = None) /\
        (forall path,
           path <> latest -> path <> numbered (epoch s.1) ->
           (2 <= epoch s.1 -> path <> numbered (epoch s.1 - 2)) ->
           files s'.2 !! path = files s.2 !! path) /\
        (forall key v, kwargs !! key = Some v -> data !! key = Some v) /\
        (kwargs !! "epoch" = None -> data !! "epoch" = Some (CV_int (epoch s.1))) /\
        (kwargs !! "optimizer_state_dict" = None ->
         data !! "optimizer_state_dict" = Some (CV_optimizer (optimizer s.1))) /\
        (kwargs !! "lr_scheduler_state_dict" = None ->
         data !! "lr_scheduler_state_dict" = Some (CV_scheduler (lr_scheduler s.1))) /\
        (kwargs !! "metric_state_dict" = None ->
         data !! "metric_state_dict"
         = Some (CV_metric (Metric.objects (heap s.2) !!! Metric.state_dict m)))
  end.
Proof.
  intros latest numbered. destruct (metric s.1) as [m|] eqn:Hm.
  - by apply checkpoint_run.
  - destruct s as [t p]. cbn [fst snd] in Hm.
    unfold checkpoint. unfold bind at 1, self. cbn [fst snd]. by rewrite Hm.
Qed.

Lemma path_join_nonempty a b : b <> "" -> path_join a b <> "".
Proof.
  intros Hb. unfold path_join. destruct (decide (a = "")); [done|].
  destruct a; [done|]. by destruct (ends_with_slash _).
Qed.

(** X24. A checkpoint resumes the run that wrote it: after [checkpoint], a
    trainer whose resume path is its own [checkpoint.pth] comes out of
    [load_checkpoint] at the epoch after the saved one, with the saved
    optimizer and scheduler states loaded. *)
Theorem resume_from_own_checkpoint kwargs (s : @state _ value) m :
  metric s.1 = Some m ->
  kwargs !! "epoch" = None ->
  kwargs !! "optimizer_state_dict" = None ->
  kwargs !! "lr_scheduler_state_dict" = None ->
  resume_ckpt s.1 = Some (path_join (checkpoint_dir s.1) "checkpoint.pth") ->
  exists s1,
    checkpoint kwargs s = (s1, Ok tt) /\
    epoch (load_checkpoint nan s1).1.1 = epoch s.1 + 1 /\
    optimizer (load_checkpoint nan s1).1.1
      = optimizer_load_state_dict (optimizer s.1) (optimizer s.1) /\
    lr_scheduler (load_checkpoint nan s1).1.1
      = scheduler_load_state_dict (lr_scheduler s.1) (lr_scheduler s.1).
Proof.
  intros Hm Hke Hko Hks Hresume.
  destruct (checkpoint_run kwargs s m Hm)
    as (s1 & data & Hrun & Ht & _ & _ & Hlatest & _ & _ & _ & _ & He & Ho & Hs & _).
  exists s1. split; [done|].
  rewrite <- Ht.
  apply (load_checkpoint_fields s1 (path_join (checkpoint_dir s.1) "checkpoint.pth") data);
    rewrite ?Ht; auto.
  by apply path_join_nonempty.
Qed.

End WithEngine.
Import Toy ToyRun.

(** X23, an instance. *)
Lemma checkpoint_at_epoch_2 :
  exists s' data,
    checkpoint ∅ (toy_running_state 2) = (s', Ok tt) /\
    files s'.2 !! path_join "checkpoints" "checkpoint.pth" = Some data /\
    files s'.2 !! path_join "checkpoints" ("checkpoint_" +:+ pretty 2 +:+ ".pth")
      = Some data /\
    data !! "epoch" = Some (CV_int 2).
Proof.
  pose proof (checkpoint_writes_and_rotates (value := option Z) ∅ (toy_running_state 2))
    as Hc.
  cbv zeta in Hc. unfold toy_running_state in Hc. cbn [fst metric] in Hc.
  destruct Hc as (s' & data & Hrun & _ & _ & _ & Hlatest & Hnumbered & _ & _ & _ & He & _).
  exists s', data. split; [exact Hrun|]. split; [exact Hlatest|].
  split; [exact Hnumbered|]. exact (He eq_refl).
Defined.

(** X24, an instance. *)
Lemma resume_after_epoch_2 :
  exists s1,
    checkpoint ∅ (toy_running_state 2) = (s1, Ok tt) /\
    epoch (load_checkpoint None s1).1.1 = 3.
Proof.
  destruct (resume_from_own_checkpoint (None : option Z) ∅ (toy_running_state 2)
              1%positive eq_refl (lookup_empty _) (lookup_empty _) (lookup_empty _)
              eq_refl)
    as (s1 & Hrun & He & _).
  exists s1. split; [exact Hrun | exact He].
Defined.

End CheckpointFacts.

(** ** Results per epoch *)

Module EpochResultsFacts.
Import Py EpochResults PyFacts.
Local Open Scope py_scope.

Lemma dict_lookup_elem key a (d : list (string * positive)) :
  (key, a) ∈ d -> is_Some (dict_lookup key d).
Proof.
  induction d as [|[k b] d IH]; intros Hin; [by apply elem_of_nil in Hin|].
  cbn [dict_lookup]. destruct (decide (k = key)); [by eexists|].
  apply elem_of_cons in Hin as [[= -> ->]|Hin]; [done | by apply IH].
Qed.

Lemma dict_lookup_NoDup key a (d : list (string * positive)) :
  NoDup d.*1 -> (key, a) ∈ d -> dict_lookup key d = Some a.
Proof.
  induction d as [|[k b] d IH]; intros Hnd Hin; [by apply elem_of_nil in Hin|].
  cbn [fmap list_fmap fst] in Hnd. apply NoDup_cons in Hnd as [Hk Hnd].
  cbn [dict_lookup]. apply elem_of_cons in Hin as [[= -> ->]|Hin].
  - by rewrite decide_True.
  - rewrite decide_False; [by apply IH|].
    intros ->. apply Hk. by apply (list_elem_of_fmap_2 fst _ (key, a)).
Qed.

Lemma add_item_run new_res k a a' E L :
  dict_lookup k E = Some a' ->
  add_item new_res (k, a) (mkResults E L)
  = match new_res !! k with
    | Some v => (mkResults E (<[a' := (L !!! a') ++ [v]]> L), Ok tt)
    | None => (mkResults E L, Raise KeyError)
    end.
Proof.
  intros Ha'. unfold add_item, bind, get. cbn [entries lists]. rewrite Ha'.
  by destruct (new_res !! k).
Qed.

Lemma loop_run new_res E (todo : list (string * positive)) L :
  todo ⊆ E ->
  entries (for_each todo (add_item new_res) (mkResults E L)).1 = E /\
  (Forall (fun p => is_Some (new_res !! p.1)) todo ->
   for_each todo (add_item new_res) (mkResults E L)
   = (mkResults E (appended new_res todo E L), Ok tt)) /\
  (~ Forall (fun p => is_Some (new_res !! p.1)) todo ->
   (for_each todo (add_item new_res) (mkResults E L)).2 = Raise KeyError).
Proof.
  intros Hsub. revert L. induction todo as [|[k a] todo IH]; intros L.
  - split; [done|]. split; [done|]. intros Hn. destruct Hn. constructor.
  - assert (todo ⊆ E) as Hsub' by (intros x Hx; apply Hsub; by right).
    assert (is_Some (dict_lookup k E)) as [a' Ha'].
    { apply (dict_lookup_elem k a). apply Hsub. by left. }
    cbn [for_each]. unfold bind. rewrite (add_item_run new_res k a a' E L Ha').
    destruct (new_res !! k) as [v|] eqn:Hv.
    + destruct (IH Hsub' (<[a' := (L !!! a') ++ [v]]> L)) as (He & Hok & Hfail).
      split; [done|]. split.
      * intros Hall. apply Forall_cons in Hall as [_ Hall].
        rewrite (Hok Hall). cbn [appended foldl]. by rewrite Ha', Hv.
      * intros Hn. apply Hfail. intros Hall. apply Hn. constructor; [|done].
        cbn [fst]. by rewrite Hv.
    + cbn [fst snd entries]. split; [done|]. split; [|done].
      intros Hall. apply Forall_cons in Hall as [[? Hk] _]. cbn [fst] in Hk.
      by rewrite Hv in Hk.
Qed.

Lemma appended_untouched new_res todo E L b :
  b ∉ E.*2 -> appended new_res todo E L !! b = L !! b.
Proof.
  intros Hb. revert L. induction todo as [|[k a] todo IH]; intros L; [done|].
  cbn [appended foldl]. destruct (dict_lookup k E) as [a'|] eqn:Ha'; [|apply IH].
  fold (appended new_res todo E (<[a' := (L !!! a') ++ [default 0%R (new_res !! k)]]> L)).
  rewrite IH. apply lookup_insert_ne. intros ->. apply Hb.
  clear -Ha'. induction E as [|[k' c] E IHE]; [done|].
  cbn [dict_lookup] in Ha'. cbn [fmap list_fmap snd].
  destruct (decide (k' = k)); [inversion Ha'; subst; by left | right; by apply IHE].
Qed.

Lemma appended_once new_res todo E L k a :
  NoDup E.*1 -> NoDup E.*2 -> todo ⊆ E -> NoDup todo ->
  (k, a) ∈ E ->
  appended new_res todo E L !!! a
  = if decide ((k, a) ∈ todo)
    then (L !!! a) ++ [default 0%R (new_res !! k)]
    else L !!! a.
Proof.
  intros Hk Ha Hsub Hnd Hin. revert L Hsub Hnd.
  induction todo as [|[k1 a1] todo IH]; intros L Hsub Hnd.
  - cbn [appended foldl]. rewrite decide_False; [done | by intros ?%elem_of_nil].
  - assert (todo ⊆ E) as Hsub' by (intros x Hx; apply Hsub; by right).
    assert ((k1, a1) ∈ E) as Hin1 by (apply Hsub; by left).
    apply NoDup_cons in Hnd as [Hnot Hnd].
    cbn [appended foldl]. rewrite (dict_lookup_NoDup k1 a1 E Hk Hin1).
    fold (appended new_res todo E (<[a1 := (L !!! a1) ++ [default 0%R (new_res !! k1)]]> L)).
    rewrite IH by done.
    destruct (decide (a1 = a)) as [->|Hne].
    + assert (k1 = k) as ->.
      { clear -Ha Hin Hin1. induction E as [|[k' c] E IHE]; [by apply elem_of_nil in Hin|].
        cbn [fmap list_fmap snd] in Ha. apply NoDup_cons in Ha as [Hc Ha].
        apply elem_of_cons in Hin as [Heq|Hin];
          apply elem_of_cons in Hin1 as [Heq1|Hin1].
        - congruence.
        - injection Heq as _ <-. destruct Hc.
          by apply (list_elem_of_fmap_2 snd _ (k1, a)).
        - injection Heq1 as _ <-. destruct Hc.
          by apply (list_elem_of_fmap_2 snd _ (k, a)).
        - by apply IHE. }
      rewrite decide_False by done. rewrite decide_True by (by left).
      by rewrite lookup_total_insert_eq.
    + rewrite lookup_total_insert_ne by done.
      destruct (decide ((k, a) ∈ todo)) as [Hin'|Hnin].
      * by rewrite decide_True by (by right).
      * rewrite decide_False; [done|].
        intros [[= -> ->]|?]%elem_of_cons; done.
Qed.

(** X25. [_add_to_epoch_results] never adds a key: the dictionary has the same
    items afterwards, whether the call returns or raises, so that from an
    empty dictionary nothing is ever recorded and the branch that creates
    a list is never taken. The call raises [KeyError] exactly when some
    key of [epc_res] is missing from [new_res]. When it returns, and no
    two keys share a list, the list of every key has grown by that key's
    new value, and no other list has changed. *)
Theorem add_to_epoch_results_keeps_keys new_res (epc_res : results) :
  let run := _add_to_epoch_results new_res epc_res in
  let complete := Forall (fun p => is_Some (new_res !! p.1)) (entries epc_res) in
  entries run.1 = entries epc_res /\
  (~ complete -> run.2 = Raise KeyError) /\
  (complete ->
   run.2 = Ok tt /\
   (forall b, b ∉ (entries epc_res).*2 -> lists run.1 !! b = lists epc_res !! b) /\
   (NoDup (entries epc_res).*1 -> NoDup (entries epc_res).*2 ->
    forall k a, (k, a) ∈ entries epc_res ->
      lists run.1 !!! a = (lists epc_res !!! a) ++ [default 0%R (new_res !! k)])).
Proof.
  cbv zeta. destruct epc_res as [E L]. cbn [entries lists].
  unfold _add_to_epoch_results, bind, get. cbn [entries].
  destruct (loop_run new_res E E L) as (He & Hok & Hfail); [done|].
  split; [done|]. split; [done|].
  intros Hall. rewrite (Hok Hall). cbn [fst snd lists].
  split; [done|]. split; [intros b Hb; by apply appended_untouched|].
  intros Hk Ha k a Hin.
  rewrite (appended_once new_res E E L k a) by (try done; by apply (NoDup_fmap_1 fst)).
  by rewrite decide_True.
Qed.

(** X25, an instance. *)
Lemma add_to_one_list :
  entries
    (_add_to_epoch_results {["mse_losses" := 0.25%R; "accuracy" := 3%R]}
       (mkResults [("mse_losses", 1%positive)] {[1%positive := [0.5%R]]})).1
  = [("mse_losses", 1%positive)] /\
  lists
    (_add_to_epoch_results {["mse_losses" := 0.25%R; "accuracy" := 3%R]}
       (mkResults [("mse_losses", 1%positive)] {[1%positive := [0.5%R]]})).1
    !!! 1%positive
  = [0.5%R; 0.25%R].
Proof.
  destruct (add_to_epoch_results_keeps_keys
              {["mse_losses" := 0.25%R; "accuracy" := 3%R]}
              (mkResults [("mse_losses", 1%positive)] {[1%positive := [0.5%R]]}))
    as (Hkeys & _ & Hok).
  destruct Hok as (_ & _ & Hgrow).
  { constructor; [by eexists | constructor]. }
  split; [exact Hkeys|].
  rewrite (Hgrow ltac:(repeat constructor; by intros ?%elem_of_nil)
             ltac:(repeat constructor; by intros ?%elem_of_nil)
             "mse_losses" 1%positive ltac:(by left)).
  reflexivity.
Defined.

End EpochResultsFacts.

(** ** The loop over the epochs *)

Module FitFacts.
Import Py Trainer Trace Fit PyFacts TrainerFacts TrainerLoopFacts CheckpointFacts.
Local Open Scope py_scope.

Section WithEngine.
Context `{Engine} {value : Type} (nan : value) (class_attribute : string -> bool)
  (scheduler_step : sched_state -> sched_state)
  (of_float : R -> value)
  (print_results : option (R * R) -> string).

Lemma kept_refl (s : @state _ value) : bookkeeping_kept s s.
Proof. by repeat split. Qed.

Lemma kept_trans (s1 s2 s3 : @state _ value) :
  bookkeeping_kept s1 s2 -> bookkeeping_kept s2 s3 -> bookkeeping_kept s1 s3.
Proof. unfold bookkeeping_kept. intros ? ?. repeat split; destruct_and!; congruence. Qed.

Lemma train_step_kept images targets optimize (s : @state _ value) :
  bookkeeping_kept s (train_step images targets optimize s).1.
Proof.
  destruct s as [t p]. unfold train_step, bind, self, proc. cbn [fst snd].
  destruct (encoder (params t) images (torch_rng p)) as [[encoded [mean lv]] g].
  cbn [update update_proc do_call modify fst snd set_grads set_recon_loss
       set_kl_loss set_gac gas gac params grads optimizer recon_loss kl_loss].
  destruct (avg_ok (AvgMeter.add (recon_loss t)
              (mse_loss (decoder (params t) encoded) targets))) as [r Hr].
  destruct (avg_ok (AvgMeter.add (kl_loss t) (kl_div mean lv))) as [k Hk].
  destruct ((gas t <=? gac t + len images) || optimize).
  - destruct (optimizer_step (optimizer t) (params t)
                (backward (params t) images targets (torch_rng p) (grads t)))
      as [o w'].
    cbn [update update_proc do_call modify fst snd set_params set_optimizer
         set_grads set_gac gas gac grads recon_loss kl_loss lift].
    rewrite Hr, Hk. by repeat split.
  - by repeat split.
Qed.

Lemma train_loop_kept batches length index loss_data (s : @state _ value) :
  bookkeeping_kept s (train_loop length index batches loss_data s).1.
Proof.
  revert index loss_data s.
  induction batches as [|[images targets] rest IH]; intros index loss_data s.
  - apply kept_refl.
  - cbn [train_loop].
    pose proof (train_step_kept (input_function images) (input_function targets)
                  (length - 1 <=? index) s) as Hkept.
    destruct (train_step_trace (input_function images) (input_function targets)
                (length - 1 <=? index) s)
      as (s1 & r & k & Hstep & Hr & Hk & _).
    rewrite Hstep in Hkept. cbn [fst] in Hkept.
    rewrite (bind_ok _ _ _ _ _ Hstep).
    unfold bind at 1, self. cbn [fst snd].
    unfold bind at 1, lift. rewrite Hr. unfold bind at 1. rewrite Hk.
    eapply kept_trans; [exact Hkept | apply IH].
Qed.

Lemma train_one_epoch_kept train_loader (s : @state _ value) :
  exists s' r new_calls,
    train_one_epoch train_loader s = (s', Ok r) /\
    bookkeeping_kept s s' /\
    calls s'.2 = calls s.2 ++ new_calls /\
    count is_backward new_calls = List.length train_loader /\
    count is_generate new_calls = 0%nat /\
    (train_loader = [] <-> r = None).
Proof.
  unfold train_one_epoch.
  unfold bind at 1 2 3 4, update, do_call, update_proc, modify. cbn [fst snd].
  match goal with
  | |- context [train_loop ?l 0 train_loader None ?s0] =>
      destruct (train_loop_trace train_loader l 0 None s0)
        as (s' & r & new_calls & Hloop & Hcalls & Hb & _ & Hg & _ & _ & _ & _
            & Hnil & Hlast);
      pose proof (train_loop_kept train_loader l 0 None s0) as Hkept
  end.
  rewrite Hloop in Hkept. cbn [fst] in Hkept.
  exists s', r, (ZeroGrad :: new_calls).
  split; [done|]. split.
  { destruct Hkept as (? & ? & ? & ? & ? & ? & ? & ? & ?). by repeat split. }
  split.
  { rewrite Hcalls. cbn [snd calls add_call]. by rewrite <- app_assoc. }
  change (ZeroGrad :: new_calls) with ([ZeroGrad] ++ new_calls).
  rewrite !count_app, Hb, Hg. do 2 (split; [done|]).
  destruct train_loader as [|b rest].
  - by destruct (Hnil eq_refl) as [-> _].
  - destruct Hlast as (front & ra & ka & _ & ->); [done | lia|]. done.
Qed.

Lemma validate_body_kept l batch (s : @state _ value) :
  bookkeeping_kept s (validate_body l batch s).1.
Proof.
  destruct s as [t p], batch as [images tgts].
  unfold validate_body, bind, self, proc. cbn [fst snd].
  destruct (encoder (params t) (input_function images) (torch_rng p))
    as [[encoded [mean lv]] g].
  cbn [update update_proc modify fst snd set_recon_loss set_kl_loss
       recon_loss kl_loss params lift].
  destruct (avg_ok (AvgMeter.add (recon_loss t)
              (mse_loss (decoder (params t) encoded) (input_function tgts))))
    as [r ->].
  destruct (avg_ok (AvgMeter.add (kl_loss t) (kl_div mean lv))) as [k ->].
  cbn [set_torch_rng numpy_rng].
  destruct (np_random_rand (numpy_rng p)) as [random_val g'].
  cbn [update_proc modify fst snd].
  by destruct (_ && _).
Qed.

Lemma validate_loop_kept l val_loader (s : @state _ value) :
  bookkeeping_kept s (validate_loop l val_loader s).1.
Proof.
  revert l s. induction val_loader as [|batch rest IH]; intros l s.
  - apply kept_refl.
  - cbn [validate_loop].
    pose proof (validate_body_kept l batch s) as Hkept.
    destruct (validate_body_spec l batch s) as (s1 & l1 & Hbody & _).
    rewrite Hbody in Hkept. cbn [fst] in Hkept.
    rewrite (bind_ok _ _ _ _ _ Hbody).
    eapply kept_trans; [exact Hkept | apply IH].
Qed.

Lemma validate_kept val_loader (s : @state _ value) :
  bookkeeping_kept s (validate val_loader s).1 /\
  (val_loader = [] -> (validate val_loader s).2 = Raise UnboundLocalError) /\
  (val_loader <> [] ->
   exists r ri tg,
     (validate val_loader s).2 = Ok (Some r) /\
     calls (validate val_loader s).1.2 = calls s.2 ++ [Generate ri tg]).
Proof.
  destruct (validate_run val_loader s) as (s1 & l1 & Hloop & ->).
  pose proof (validate_loop_kept (mkLocals None None None None None) val_loader
                (validate_entry s)) as Hkept.
  rewrite Hloop in Hkept. cbn [fst] in Hkept.
  assert (bookkeeping_kept s s1) as Hkept'.
  { destruct Hkept as (? & ? & ? & ? & ? & ? & ? & ? & ?). by repeat split. }
  destruct (validate_loop_frame (mkLocals None None None None None) val_loader
              (validate_entry s))
    as (s1' & l1' & Hloop' & Hcalls & _ & _ & _ & _ & _ & _ & _ & _ & _ & _ & Hne & Hnil).
  rewrite Hloop in Hloop'. injection Hloop' as <- <-.
  destruct val_loader as [|batch rest].
  - rewrite (Hnil eq_refl). cbn [reconstructed_image fst snd].
    split; [done|]. split; [done|]. by intros [].
  - destruct Hne as (Hloss & Hrecon & Htargets); [done|].
    destruct (reconstructed_image l1) as [ri|]; [|done].
    destruct (targets l1) as [tg|]; [|done].
    destruct (loss_data l1) as [r|] eqn:Hr; [|done].
    cbn [fst snd]. split.
    { destruct Hkept' as (? & ? & ? & ? & ? & ? & ? & ? & ?). by repeat split. }
    split; [done|]. intros _. exists r, ri, tg. split; [done|].
    cbn [calls add_call]. by rewrite Hcalls.
Qed.

Lemma setitem_losses (w : Metric.world value) m e E C channels i ch (v1 v2 : value)
    (mse kl : list (list value)) row_m row_k :
  Metric.objects w !! m
    = Some (Metric.metric_dict E C (Metric.A_channels channels) mse kl) ->
  0 <= e < E ->
  Metric.index_of ch channels = Some i ->
  mse !! Z.to_nat i = Some row_m -> e < Z.of_nat (length row_m) ->
  kl !! Z.to_nat i = Some row_k -> e < Z.of_nat (length row_k) ->
  Metric.__setitem__ class_attribute m e
    [("mse_losses", Metric.MV_dict [(ch, v1)]);
     ("kl_divergence_losses", Metric.MV_dict [(ch, v2)])] w
  = (Metric.mkWorld
       (<[m := Metric.metric_dict E C (Metric.A_channels channels)
                 (<[Z.to_nat i := <[Z.to_nat e := v1]> row_m]> mse)
                 (<[Z.to_nat i := <[Z.to_nat e := v2]> row_k]> kl)]> (Metric.objects w))
       (Metric.log w), Ok tt).
Proof.
  intros Hm He Hi Hrm Hlm Hrk Hlk.
  pose proof (lookup_total_correct _ _ _ Hm) as Hd.
  destruct (MetricUpdateFacts.metric_dict_lookups E C (Metric.A_channels channels) mse kl)
    as (HE & HC & Hch & Hmse & Hkl).
  rewrite <- Hd in HE, HC, Hch, Hmse, Hkl.
  pose proof (MetricUpdateFacts.index_of_nonneg _ _ _ Hi) as Hi0.
  rewrite (MetricUpdateFacts.setitem_in_range class_attribute w m e E) by done.
  cbn [for_each]. unfold bind at 1 2.
  rewrite (MetricUpdateFacts.hasattr_in_dict class_attribute w m "mse_losses" _ Hmse).
  cbn [negb for_each]. unfold bind at 1 2.
  rewrite (MetricUpdateFacts.channel_id_ok w m channels ch i Hch Hi).
  rewrite (MetricUpdateFacts.store_cell_ok w m "mse_losses" mse i e v1 row_m)
    by (done || lia).
  cbn [ret]. rewrite Hd, MetricUpdateFacts.metric_dict_set_mse.
  set (mse' := <[Z.to_nat i := <[Z.to_nat e := v1]> row_m]> mse).
  set (w1 := Metric.mkWorld _ (Metric.log w)).
  assert (Metric.objects w1 !!! m
          = Metric.metric_dict E C (Metric.A_channels channels) mse' kl) as Hd1.
  { unfold w1. cbn [Metric.objects]. apply lookup_total_insert_eq. }
  destruct (MetricUpdateFacts.metric_dict_lookups E C (Metric.A_channels channels) mse' kl)
    as (_ & _ & Hch1 & _ & Hkl1).
  rewrite <- Hd1 in Hch1, Hkl1.
  unfold bind at 1 2.
  rewrite (MetricUpdateFacts.hasattr_in_dict class_attribute w1 m
             "kl_divergence_losses" _ Hkl1).
  cbn [negb for_each]. unfold bind at 1 2.
  rewrite (MetricUpdateFacts.channel_id_ok w1 m channels ch i Hch1 Hi).
  rewrite (MetricUpdateFacts.store_cell_ok w1 m "kl_divergence_losses" kl i e v2 row_k)
    by (done || lia).
  cbn [ret]. rewrite Hd1, MetricUpdateFacts.metric_dict_set_kl.
  unfold w1. cbn [Metric.objects Metric.log]. by rewrite insert_insert_eq.
Qed.

Lemma metric_setitem_losses (s : @state _ value) m e E C channels i ch r k
    (mse kl : list (list value)) row_m row_k :
  metric s.1 = Some m ->
  Metric.objects (heap s.2) !! m
    = Some (Metric.metric_dict E C (Metric.A_channels channels) mse kl) ->
  0 <= e < E ->
  Metric.index_of ch channels = Some i ->
  mse !! Z.to_nat i = Some row_m -> e < Z.of_nat (length row_m) ->
  kl !! Z.to_nat i = Some row_k -> e < Z.of_nat (length row_k) ->
  metric_setitem class_attribute e (losses_of of_float ch (Some (r, k))) s
  = ((s.1,
      set_heap
        (Metric.mkWorld
           (<[m := Metric.metric_dict E C (Metric.A_channels channels)
                     (<[Z.to_nat i := <[Z.to_nat e := of_float r]> row_m]> mse)
                     (<[Z.to_nat i := <[Z.to_nat e := of_float k]> row_k]> kl)]>
              (Metric.objects (heap s.2)))
           (Metric.log (heap s.2))) s.2), Ok tt).
Proof.
  intros Hm Hd He Hi Hrm Hlm Hrk Hlk. destruct s as [t p]. cbn [fst snd] in *.
  unfold metric_setitem, bind, self. cbn [fst snd]. rewrite Hm.
  unfold on_heap, losses_of. cbn [fst snd].
  by rewrite (setitem_losses (heap p) m e E C channels i ch _ _ mse kl row_m row_k).
Qed.

Lemma logger_run msg (s : @state _ value) :
  logger msg s
  = ((s.1, set_heap (Metric.mkWorld (Metric.objects (heap s.2))
                       (Metric.log (heap s.2) ++ [msg])) s.2), Ok tt).
Proof. reflexivity. Qed.

Lemma setitem_nothing (w : Metric.world value) m e E :
  (Metric.objects w !!! m) !! "num_epochs" = Some (Metric.A_int E) ->
  0 <= e < E ->
  Metric.__setitem__ class_attribute m e [] w = (w, Ok tt).
Proof.
  intros HE He. by rewrite (MetricUpdateFacts.setitem_in_range class_attribute w m e E).
Qed.

Lemma metric_setitem_run (s : @state _ value) m e E ch i losses
    (mse kl : list (list value)) row_m row_k :
  metric s.1 = Some m ->
  Metric.objects (heap s.2) !! m
    = Some (Metric.metric_dict E 2 (Metric.A_channels ["train"; "val"]) mse kl) ->
  0 <= e < E ->
  Metric.index_of ch ["train"; "val"] = Some (Z.of_nat i) ->
  mse !! i = Some row_m -> e < Z.of_nat (length row_m) ->
  kl !! i = Some row_k -> e < Z.of_nat (length row_k) ->
  exists s',
    metric_setitem class_attribute e (losses_of of_float ch losses) s = (s', Ok tt) /\
    s'.1 = s.1 /\ files s'.2 = files s.2 /\ calls s'.2 = calls s.2 /\
    Metric.objects (heap s'.2)
    = <[m := Metric.metric_dict E 2 (Metric.A_channels ["train"; "val"])
               (<[i := record_loss of_float e (fst <$> losses) row_m]> mse)
               (<[i := record_loss of_float e (snd <$> losses) row_k]> kl)]>
        (Metric.objects (heap s.2)).
Proof.
  intros Hm Hd He Hi Hrm Hlm Hrk Hlk. destruct losses as [[r k]|].
  - eexists. split.
    { apply (metric_setitem_losses s m e E 2 ["train"; "val"] (Z.of_nat i) ch r k
               mse kl row_m row_k); by rewrite ?Nat2Z.id. }
    cbn [fst snd heap set_heap files calls Metric.objects fmap option_fmap option_map
         record_loss]. by rewrite Nat2Z.id.
  - destruct s as [t p]. cbn [fst snd] in *.
    unfold metric_setitem, bind, self. cbn [fst snd]. rewrite Hm.
    unfold on_heap, losses_of. cbn [fst snd].
    rewrite (setitem_nothing (heap p) m e E); [|by rewrite
      (lookup_total_correct _ _ _ Hd); apply MetricUpdateFacts.metric_dict_lookups|done].
    eexists. split; [reflexivity|].
    cbn [fst snd heap set_heap files calls Metric.objects fmap option_fmap option_map
         record_loss].
    rewrite !list_insert_id by done. by rewrite insert_id.
Qed.

Lemma fit_epoch_first_half train_loader val_loader e (s : @state _ value)
    m E tm vm tk vk :
  metric s.1 = Some m ->
  Metric.objects (heap s.2) !! m
    = Some (Metric.metric_dict E 2 (Metric.A_channels ["train"; "val"])
              [tm; vm] [tk; vk]) ->
  0 <= e < E ->
  e < Z.of_nat (length tm) -> e < Z.of_nat (length tk) ->
  exists s5 losses data new_calls,
    let after :=
      Metric.metric_dict E 2 (Metric.A_channels ["train"; "val"])
        [record_loss of_float e (fst <$> losses) tm; vm]
        [record_loss of_float e (snd <$> losses) tk; vk] in
    fit_epoch class_attribute scheduler_step of_float print_results
      train_loader val_loader e s
    = fit_epoch_rest class_attribute of_float print_results val_loader e s5 /\
    (train_loader = [] <-> losses = None) /\
    epoch s5.1 = e /\
    lr_scheduler s5.1 = scheduler_step (lr_scheduler s.1) /\
    metric s5.1 = Some m /\
    num_epochs s5.1 = num_epochs s.1 /\
    checkpoint_dir s5.1 = checkpoint_dir s.1 /\
    resume_ckpt s5.1 = resume_ckpt s.1 /\
    Metric.objects (heap s5.2) = <[m := after]> (Metric.objects (heap s.2)) /\
    files s5.2 !! path_join (checkpoint_dir s.1) "checkpoint.pth" = Some data /\
    files s5.2 !! path_join (checkpoint_dir s.1)
                    ("checkpoint_" +:+ pretty e +:+ ".pth") = Some data /\
    data !! "epoch" = Some (CV_int e) /\
    data !! "metric_state_dict" = Some (CV_metric after) /\
    calls s5.2 = calls s.2 ++ new_calls /\
    count is_backward new_calls = List.length train_loader /\
    count is_generate new_calls = 0%nat.
Proof.
  intros Hm Hd He Htm Htk.
  unfold fit_epoch.
  unfold bind at 1, update, modify. cbn [fst snd].
  unfold bind at 1, self. cbn [fst snd].
  unfold bind at 1. rewrite logger_run. cbn [fst snd].
  match goal with
  | |- context [bind (train_one_epoch train_loader) _ ?s0] =>
      destruct (train_one_epoch_kept train_loader s0)
        as (s1 & losses & calls1 & Hrun1 & Hkept1 & Hcalls1 & Hb1 & Hg1 & Hr1)
  end.
  rewrite (bind_ok _ _ _ _ _ Hrun1).
  destruct Hkept1 as (Hn1 & Hm1 & Hdir1 & Hres1 & He1 & _ & Hlr1 & Hheap1 & Hfiles1).
  cbn [fst snd num_epochs metric checkpoint_dir resume_ckpt epoch lr_scheduler
       set_epoch heap files set_heap calls] in *.
  unfold bind at 1, update, modify. cbn [fst snd].
  set (s2 := (set_lr_scheduler (scheduler_step (lr_scheduler s1.1)) s1.1, s1.2)).
  assert (Metric.objects (heap s2.2) = Metric.objects (heap s.2)) as Hobj2.
  { unfold s2. cbn [snd]. by rewrite Hheap1. }
  destruct (metric_setitem_run s2 m e E "train" 0 losses [tm; vm] [tk; vk] tm tk)
    as (s3 & Hrun3 & Ht3 & Hfiles3 & Hcalls3 & Hobj3); try done.
  { by rewrite <- Hm, <- Hm1. }
  { by rewrite Hobj2. }
  rewrite (bind_ok _ _ _ _ _ Hrun3).
  unfold bind at 1. rewrite logger_run. cbn [fst snd].
  match goal with
  | |- context [bind (checkpoint ∅) _ ?s0] => set (s4 := s0)
  end.
  assert (metric s4.1 = Some m) as Hm4.
  { unfold s4. cbn [fst]. rewrite Ht3. unfold s2. cbn [fst metric set_lr_scheduler].
    by rewrite Hm1. }
  destruct (checkpoint_run ∅ s4 m Hm4)
    as (s5 & data & Hrun5 & Ht5 & Hobj5 & Hcalls5 & Hlatest & Hnumbered & _ & _ & _
        & Hepoch & _ & _ & Hmetric).
  rewrite (bind_ok _ _ _ _ _ Hrun5).
  assert (s4.1 = set_lr_scheduler (scheduler_step (lr_scheduler s1.1)) s1.1) as Hs4.
  { unfold s4. cbn [fst]. by rewrite Ht3. }
  assert (Metric.objects (heap s4.2)
          = <[m := Metric.metric_dict E 2 (Metric.A_channels ["train"; "val"])
                     [record_loss of_float e (fst <$> losses) tm; vm]
                     [record_loss of_float e (snd <$> losses) tk; vk]]>
              (Metric.objects (heap s.2))) as Hobj4.
  { unfold s4. cbn [snd heap set_heap Metric.objects]. by rewrite Hobj3, Hobj2. }
  rewrite Hs4 in Hlatest, Hnumbered, Hepoch.
  cbn [checkpoint_dir epoch set_lr_scheduler] in Hlatest, Hnumbered, Hepoch.
  rewrite Hdir1 in Hlatest, Hnumbered. rewrite He1 in Hnumbered, Hepoch.
  specialize (Hepoch (lookup_empty _)). specialize (Hmetric (lookup_empty _)).
  unfold Metric.state_dict in Hmetric. rewrite Hobj4, lookup_total_insert_eq in Hmetric.
  exists s5, losses, data, calls1.
  split; [reflexivity|]. split; [done|].
  rewrite Ht5, Hs4. cbn [epoch lr_scheduler metric num_epochs checkpoint_dir resume_ckpt
                         set_lr_scheduler].
  rewrite Hobj5, Hcalls5.
  assert (calls s4.2 = calls s.2 ++ calls1) as ->.
  { unfold s4. cbn [snd calls set_heap]. rewrite Hcalls3. unfold s2. by cbn [snd]. }
  rewrite Hlr1, Hm1. by repeat split.
Qed.

Lemma fit_epoch_second_half val_loader e (s : @state _ value) m E tm vm tk vk :
  metric s.1 = Some m ->
  Metric.objects (heap s.2) !! m
    = Some (Metric.metric_dict E 2 (Metric.A_channels ["train"; "val"])
              [tm; vm] [tk; vk]) ->
  0 <= e < E -> epoch s.1 = e ->
  e < Z.of_nat (length vm) -> e < Z.of_nat (length vk) ->
  val_loader <> [] ->
  exists s' rv kv data new_calls,
    let after :=
      Metric.metric_dict E 2 (Metric.A_channels ["train"; "val"])
        [tm; <[Z.to_nat e := of_float rv]> vm]
        [tk; <[Z.to_nat e := of_float kv]> vk] in
    fit_epoch_rest class_attribute of_float print_results val_loader e s = (s', Ok tt) /\
    epoch s'.1 = e /\
    lr_scheduler s'.1 = lr_scheduler s.1 /\
    metric s'.1 = Some m /\
    num_epochs s'.1 = num_epochs s.1 /\
    checkpoint_dir s'.1 = checkpoint_dir s.1 /\
    resume_ckpt s'.1 = resume_ckpt s.1 /\
    Metric.objects (heap s'.2) = <[m := after]> (Metric.objects (heap s.2)) /\
    files s'.2 !! path_join (checkpoint_dir s.1) "checkpoint.pth" = Some data /\
    files s'.2 !! path_join (checkpoint_dir s.1)
                    ("checkpoint_" +:+ pretty e +:+ ".pth") = Some data /\
    data !! "epoch" = Some (CV_int e) /\
    data !! "lr_scheduler_state_dict" = Some (CV_scheduler (lr_scheduler s.1)) /\
    data !! "metric_state_dict" = Some (CV_metric after) /\
    calls s'.2 = calls s.2 ++ new_calls /\
    count is_backward new_calls = 0%nat /\
    count is_generate new_calls = 1%nat.
Proof.
  intros Hm Hd He Hepoch0 Hvm Hvk Hval.
  unfold fit_epoch_rest.
  destruct (validate_kept val_loader s) as (Hkept6 & _ & Hok6).
  destruct (Hok6 Hval) as ([rv kv] & ri & tg & Hres & Hcalls6).
  destruct (validate val_loader s) as [s6 o6] eqn:Hrun6.
  cbn [fst snd] in Hkept6, Hres, Hcalls6. subst o6.
  rewrite (bind_ok _ _ _ _ _ Hrun6).
  destruct Hkept6 as (Hn6 & Hm6 & Hdir6 & Hres6 & He6 & _ & Hlr6 & Hheap6 & Hfiles6).
  destruct (metric_setitem_run s6 m e E "val" 1 (Some (rv, kv)) [tm; vm] [tk; vk] vm vk)
    as (s7 & Hrun7 & Ht7 & Hfiles7 & Hcalls7 & Hobj7); try done.
  { by rewrite Hm6. }
  { by rewrite Hheap6. }
  rewrite (bind_ok _ _ _ _ _ Hrun7).
  cbn [fmap option_fmap option_map fst snd record_loss list_insert] in Hobj7.
  unfold bind at 1. rewrite logger_run. cbn [fst snd].
  match goal with
  | |- context [bind (checkpoint ∅) _ ?s0] => set (s8 := s0)
  end.
  assert (s8.1 = s6.1) as Hs8 by (unfold s8; by cbn [fst]).
  assert (metric s8.1 = Some m) as Hm8 by (by rewrite Hs8, Hm6).
  destruct (checkpoint_run ∅ s8 m Hm8)
    as (s9 & data & Hrun9 & Ht9 & Hobj9 & Hcalls9 & Hlatest & Hnumbered & _ & _ & _
        & Hepoch & _ & Hsched & Hmetric).
  rewrite (bind_ok _ _ _ _ _ Hrun9).
  unfold bind at 1, self. cbn [fst snd].
  assert (Metric.objects (heap s8.2)
          = <[m := Metric.metric_dict E 2 (Metric.A_channels ["train"; "val"])
                     [tm; <[Z.to_nat e := of_float rv]> vm]
                     [tk; <[Z.to_nat e := of_float kv]> vk]]>
              (Metric.objects (heap s.2))) as Hobj8.
  { unfold s8. cbn [snd heap set_heap Metric.objects]. by rewrite Hobj7, Hheap6. }
  rewrite Hs8, Hdir6 in Hlatest, Hnumbered. rewrite He6, Hepoch0 in Hnumbered.
  rewrite Hs8, He6, Hepoch0 in Hepoch. rewrite Hs8, Hlr6 in Hsched.
  specialize (Hepoch (lookup_empty _)). specialize (Hsched (lookup_empty _)).
  specialize (Hmetric (lookup_empty _)).
  unfold Metric.state_dict in Hmetric. rewrite Hobj8, lookup_total_insert_eq in Hmetric.
  assert (epoch s9.1 = e) as He9 by (by rewrite Ht9, Hs8, He6).
  assert (lr_scheduler s9.1 = lr_scheduler s.1) as Hlr9 by (by rewrite Ht9, Hs8).
  assert (metric s9.1 = Some m) as Hm9 by (by rewrite Ht9).
  assert (num_epochs s9.1 = num_epochs s.1) as Hn9 by (by rewrite Ht9, Hs8).
  assert (checkpoint_dir s9.1 = checkpoint_dir s.1) as Hdir9 by (by rewrite Ht9, Hs8).
  assert (resume_ckpt s9.1 = resume_ckpt s.1) as Hres9 by (by rewrite Ht9, Hs8).
  assert (Metric.objects (heap s9.2)
          = <[m := Metric.metric_dict E 2 (Metric.A_channels ["train"; "val"])
                     [tm; <[Z.to_nat e := of_float rv]> vm]
                     [tk; <[Z.to_nat e := of_float kv]> vk]]>
              (Metric.objects (heap s.2))) as Hobj by (by rewrite Hobj9).
  assert (calls s9.2 = calls s.2 ++ [Generate ri tg]) as Hcalls.
  { rewrite Hcalls9. unfold s8. cbn [snd calls set_heap]. by rewrite Hcalls7. }
  assert (count is_backward [Generate ri tg] = 0%nat
          /\ count is_generate [Generate ri tg] = 1%nat) as [Hb Hg] by done.
  clearbody s8.
  destruct (negb (e =? num_epochs s9.1 - 1)).
  - rewrite logger_run.
    exists (s9.1, set_heap (Metric.mkWorld (Metric.objects (heap s9.2))
                              (Metric.log (heap s9.2) ++ [rule])) s9.2),
      rv, kv, data, [Generate ri tg].
    cbn [fst snd heap set_heap files calls Metric.objects].
    repeat (split; [assumption || reflexivity|]). assumption.
  - exists s9, rv, kv, data, [Generate ri tg].
    split; [reflexivity|].
    repeat (split; [assumption|]). assumption.
Qed.

Lemma recorded_refl lo (row : list value) : recorded of_float lo lo row row.
Proof.
  split; [done|]. intros j _. destruct (decide (lo <= Z.of_nat j < lo)); [lia | done].
Qed.

Lemma recorded_step lo hi x (old new : list value) :
  0 <= lo -> lo + 1 <= hi -> (Z.to_nat lo < length old)%nat ->
  recorded of_float (lo + 1) hi (<[Z.to_nat lo := of_float x]> old) new ->
  recorded of_float lo hi old new.
Proof.
  intros Hlo Hhi Hlen [Hl Hcells]. rewrite length_insert in Hl. split; [done|].
  intros j Hj. specialize (Hcells j). rewrite length_insert in Hcells.
  specialize (Hcells Hj).
  destruct (decide (lo + 1 <= Z.of_nat j < hi)) as [Hin|Hout].
  - rewrite decide_True by lia. done.
  - destruct (decide (lo <= Z.of_nat j < hi)) as [Hin'|Hout'].
    + assert (j = Z.to_nat lo) as -> by lia.
      exists x. rewrite Hcells. by apply list_lookup_insert_eq.
    + rewrite Hcells. apply list_lookup_insert_ne. lia.
Qed.

Lemma seq_shifted (e : Z) n :
  map (fun i => e + Z.of_nat i) (seq 1 n) = map (fun i => e + 1 + Z.of_nat i) (seq 0 n).
Proof.
  rewrite <- seq_shift, map_map. apply map_ext. intros i. lia.
Qed.

Lemma fit_loop_run train_loader val_loader m E n :
  (forall e, train_loader e <> []) -> val_loader <> [] ->
  forall e (s : @state _ value) tm vm tk vk,
    metric s.1 = Some m ->
    Metric.objects (heap s.2) !! m
      = Some (Metric.metric_dict E 2 (Metric.A_channels ["train"; "val"])
                [tm; vm] [tk; vk]) ->
    0 <= e -> e + Z.of_nat n <= E ->
    Forall (fun row : list value => length row = Z.to_nat E) [tm; vm; tk; vk] ->
    exists s' tm' vm' tk' vk' new_calls,
      let after :=
        Metric.metric_dict E 2 (Metric.A_channels ["train"; "val"])
          [tm'; vm'] [tk'; vk'] in
      for_each (map (fun i => e + Z.of_nat i) (seq 0 n))
        (fun epoch =>
           fit_epoch class_attribute scheduler_step of_float print_results
             (train_loader epoch) val_loader epoch) s = (s', Ok tt) /\
      metric s'.1 = Some m /\
      num_epochs s'.1 = num_epochs s.1 /\
      checkpoint_dir s'.1 = checkpoint_dir s.1 /\
      resume_ckpt s'.1 = resume_ckpt s.1 /\
      lr_scheduler s'.1 = Nat.iter n scheduler_step (lr_scheduler s.1) /\
      Metric.objects (heap s'.2) = <[m := after]> (Metric.objects (heap s.2)) /\
      Forall2 (recorded of_float e (e + Z.of_nat n)) [tm; vm; tk; vk] [tm'; vm'; tk'; vk'] /\
      (n <> 0%nat ->
       epoch s'.1 = e + Z.of_nat n - 1 /\
       exists data,
         files s'.2 !! path_join (checkpoint_dir s.1) "checkpoint.pth" = Some data /\
         data !! "epoch" = Some (CV_int (e + Z.of_nat n - 1)) /\
         data !! "metric_state_dict" = Some (CV_metric after)) /\
      calls s'.2 = calls s.2 ++ new_calls /\
      count is_generate new_calls = n /\
      count is_backward new_calls
        = sum_list (map (fun e => List.length (train_loader e))
                      (map (fun i => e + Z.of_nat i) (seq 0 n))).
Proof.
  intros Htrain Hval. induction n as [|n IH]; intros e s tm vm tk vk Hm Hd He HE Hrows.
  - exists s, tm, vm, tk, vk, []. cbn [seq map for_each ret sum_list Nat.iter].
    rewrite Z.add_0_r, app_nil_r.
    split; [done|]. do 5 (split; [done|]).
    split; [by rewrite insert_id|].
    split; [repeat constructor; apply recorded_refl|].
    split; [done|]. done.
  - apply Forall_cons in Hrows as [Htm Hrows]. apply Forall_cons in Hrows as [Hvm Hrows].
    apply Forall_cons in Hrows as [Htk Hrows]. apply Forall_cons in Hrows as [Hvk _].
    cbn [seq map for_each]. rewrite Z.add_0_r, seq_shifted.
    destruct (fit_epoch_first_half (train_loader e) val_loader e s m E tm vm tk vk)
      as (s5 & losses & data5 & calls5 & Hfirst & Hlosses & He5 & Hlr5 & Hm5 & Hn5
          & Hdir5 & Hres5 & Hobj5 & _ & _ & _ & _ & Hcalls5 & Hb5 & Hg5);
      try done; try lia.
    destruct losses as [[r k]|]; [|by destruct (Htrain e); apply Hlosses].
    cbn [fmap option_fmap option_map fst snd record_loss] in Hobj5.
    destruct (fit_epoch_second_half val_loader e s5 m E
                (<[Z.to_nat e := of_float r]> tm) vm
                (<[Z.to_nat e := of_float k]> tk) vk)
      as (s9 & rv & kv & data9 & calls9 & Hsecond & He9 & Hlr9 & Hm9 & Hn9 & Hdir9
          & Hres9 & Hobj9 & Hlatest9 & _ & Hepoch9 & _ & Hmetric9 & Hcalls9 & Hb9 & Hg9);
      try done; try lia.
    { rewrite Hobj5. apply lookup_insert_eq. }
    unfold bind at 1. rewrite Hfirst, Hsecond.
    rewrite Hobj5, insert_insert_eq in Hobj9.
    destruct (IH (e + 1) s9 (<[Z.to_nat e := of_float r]> tm)
                (<[Z.to_nat e := of_float rv]> vm)
                (<[Z.to_nat e := of_float k]> tk)
                (<[Z.to_nat e := of_float kv]> vk))
      as (s' & tm' & vm' & tk' & vk' & calls' & Hloop & Hm' & Hn' & Hdir' & Hres' & Hlr'
          & Hobj' & Hrec & Hlast & Hcalls' & Hg' & Hb');
      try done; try lia.
    { rewrite Hobj9. apply lookup_insert_eq. }
    { repeat constructor; by rewrite length_insert. }
    exists s', tm', vm', tk', vk', (calls5 ++ calls9 ++ calls').
    split; [done|]. split; [done|].
    split; [by rewrite Hn', Hn9, Hn5|]. split; [by rewrite Hdir', Hdir9, Hdir5|].
    split; [by rewrite Hres', Hres9, Hres5|].
    split.
    { rewrite Hlr', Hlr9, Hlr5. by rewrite Nat.iter_succ_r. }
    split; [by rewrite Hobj', Hobj9, insert_insert_eq|].
    split.
    { replace (e + Z.of_nat (S n)) with (e + 1 + Z.of_nat n) by lia.
      inversion Hrec as [|? ? ? ? H1 Hrec1]; subst.
      inversion Hrec1 as [|? ? ? ? H2 Hrec2]; subst.
      inversion Hrec2 as [|? ? ? ? H3 Hrec3]; subst.
      inversion Hrec3 as [|? ? ? ? H4 _]; subst.
      repeat constructor; eapply recorded_step; try eassumption; lia. }
    split.
    { intros _. destruct n as [|n'].
      - cbn [seq map for_each ret] in Hloop. injection Hloop as <-.
        split; [rewrite He9; lia|].
        exists data9. rewrite <- Hdir5.
        replace (e + Z.of_nat 1 - 1) with e by lia.
        split; [done|]. split; [done|].
        rewrite Hobj9 in Hobj'. apply (f_equal (fun O => O !!! m)) in Hobj'.
        rewrite !lookup_total_insert_eq in Hobj'. by rewrite Hmetric9, Hobj'.
      - destruct Hlast as [Hepoch' (data & Hlatest & Hde & Hdm)]; [done|].
        split; [rewrite Hepoch'; lia|].
        exists data. rewrite <- Hdir5, <- Hdir9.
        replace (e + Z.of_nat (S (S n')) - 1) with (e + 1 + Z.of_nat (S n') - 1) by lia.
        done. }
    split.
    { by rewrite Hcalls', Hcalls9, Hcalls5, <- !app_assoc. }
    rewrite !count_app, Hg5, Hg9, Hg', Hb5, Hb9, Hb'. split; [lia|].
    cbn [sum_list]. unfold Datatypes.id. lia.
Qed.

Lemma metric_dict_set_channels E C ch ch' (mse kl : list (list value)) :
  <["channels" := ch']> (Metric.metric_dict E C ch mse kl)
  = Metric.metric_dict E C ch' mse kl.
Proof.
  unfold Metric.metric_dict.
  rewrite (insert_insert_ne _ "channels" "kl_divergence_losses") by done.
  rewrite (insert_insert_ne _ "channels" "mse_losses") by done.
  by rewrite insert_insert_eq.
Qed.

Lemma on_heap_ok {A} (c : M (Metric.world value) A) (s : @state _ value) w' a :
  c (heap s.2) = (w', Ok a) -> on_heap c s = ((s.1, set_heap w' s.2), Ok a).
Proof. intros Hc. unfold on_heap. by rewrite Hc. Qed.

Lemma set_channel_run (w : Metric.world value) m i name channels :
  (Metric.objects w !!! m) !! "channels" = Some (Metric.A_channels channels) ->
  (i < length channels)%nat ->
  set_channel m i name w
  = (Metric.mkWorld
       (<[m := <["channels" := Metric.A_channels (<[i := name]> channels)]>
                 (Metric.objects w !!! m)]> (Metric.objects w))
       (Metric.log w), Ok tt).
Proof.
  intros Hch Hi. unfold set_channel.
  rewrite (bind_ok _ _ _ _ _ (MetricFacts.getattr_Some w m "channels" _ Hch)).
  by rewrite decide_True.
Qed.

Lemma fresh_dict_two_channels E :
  Metric.fresh_dict nan E 2
  = Metric.metric_dict E 2 (Metric.A_channels ["ch_0"; "ch_1"])
      [replicate (Z.to_nat E) nan; replicate (Z.to_nat E) nan]
      [replicate (Z.to_nat E) nan; replicate (Z.to_nat E) nan].
Proof. reflexivity. Qed.

Lemma fit_prologue train_loader val_loader (s : @state _ value) :
  resume_ckpt s.1 = None -> metric s.1 = None -> 0 <= num_epochs s.1 ->
  exists s0 m,
    let row := replicate (Z.to_nat (num_epochs s.1)) nan in
    fit nan class_attribute scheduler_step of_float print_results
      train_loader val_loader s
    = for_each (range_from (epoch s.1) (num_epochs s.1))
        (fun epoch =>
           fit_epoch class_attribute scheduler_step of_float print_results
             (train_loader epoch) val_loader epoch) s0 /\
    Metric.objects (heap s.2) !! m = None /\
    metric s0.1 = Some m /\
    epoch s0.1 = epoch s.1 /\
    num_epochs s0.1 = num_epochs s.1 /\
    checkpoint_dir s0.1 = checkpoint_dir s.1 /\
    resume_ckpt s0.1 = resume_ckpt s.1 /\
    lr_scheduler s0.1 = lr_scheduler s.1 /\
    Metric.objects (heap s0.2)
    = <[m := Metric.metric_dict (num_epochs s.1) 2 (Metric.A_channels ["train"; "val"])
               [row; row] [row; row]]> (Metric.objects (heap s.2)) /\
    files s0.2 = files s.2 /\
    calls s0.2 = calls s.2.
Proof.
  intros Hres Hm HE. destruct s as [t p]. cbn [fst snd] in *.
  unfold fit.
  rewrite (bind_ok _ _ (t, p) (t, p) tt).
  2:{ unfold load_checkpoint, bind, self. cbn [fst snd]. by rewrite Hres. }
  unfold bind at 1, self. cbn [fst snd]. rewrite Hm.
  set (m := fresh (dom (Metric.objects (heap p)))).
  set (row := replicate (Z.to_nat (num_epochs t)) nan).
  rewrite bind_assoc.
  erewrite bind_ok; cycle 1.
  { apply on_heap_ok. cbn [snd]. apply MetricFacts.init_ok; [done | lia]. }
  fold m. rewrite fresh_dict_two_channels. fold row.
  rewrite bind_assoc. unfold bind at 1, update, modify. cbn [fst snd].
  rewrite bind_assoc.
  erewrite bind_ok; cycle 1.
  { apply on_heap_ok. cbn [snd heap set_heap].
    apply (set_channel_run _ m 0 "train" ["ch_0"; "ch_1"]); [|cbn; lia].
    cbn [Metric.objects]. rewrite lookup_total_insert_eq.
    apply MetricUpdateFacts.metric_dict_lookups. }
  cbn [fst snd heap set_heap Metric.objects Metric.log list_insert].
  rewrite lookup_total_insert_eq, metric_dict_set_channels, insert_insert_eq.
  erewrite bind_ok; cycle 1.
  { apply on_heap_ok. cbn [snd heap set_heap].
    apply (set_channel_run _ m 1 "val" ["train"; "ch_1"]); [|cbn; lia].
    cbn [Metric.objects]. rewrite lookup_total_insert_eq.
    apply MetricUpdateFacts.metric_dict_lookups. }
  cbn [fst snd heap set_heap Metric.objects Metric.log list_insert].
  rewrite lookup_total_insert_eq, metric_dict_set_channels, insert_insert_eq.
  unfold bind at 1, self. cbn [fst snd epoch num_epochs set_metric].
  eexists _, m. split; [reflexivity|].
  cbn [fst snd metric epoch num_epochs checkpoint_dir resume_ckpt lr_scheduler
       set_metric heap set_heap files calls Metric.objects].
  split; [apply not_elem_of_dom, is_fresh|]. by repeat split.
Qed.

(** X26. A fresh run of [fit] (no checkpoint to resume from, no metric yet)
    with data to train and to validate on: it creates the metric with the
    channels [train] and [val], runs the epochs from the trainer's epoch
    index to the last one, steps the scheduler once per epoch, renders one
    sample sheet per epoch and makes one backward pass per mini-batch. In
    the end both buffers hold a float in the [train] and the [val] row at
    every epoch that was run and are untouched elsewhere, and
    [checkpoint.pth] is the checkpoint of the last epoch, written after its
    validation, with the metric as it ends up. *)
Theorem fit_records_every_epoch train_loader val_loader (s : @state _ value) :
  resume_ckpt s.1 = None -> metric s.1 = None ->
  0 <= epoch s.1 <= num_epochs s.1 ->
  (forall e, train_loader e <> []) -> val_loader <> [] ->
  exists s' m tm vm tk vk new_calls,
    let E := num_epochs s.1 in
    let after :=
      Metric.metric_dict E 2 (Metric.A_channels ["train"; "val"]) [tm; vm] [tk; vk] in
    fit nan class_attribute scheduler_step of_float print_results
      train_loader val_loader s = (s', Ok tt) /\
    Metric.objects (heap s.2) !! m = None /\
    metric s'.1 = Some m /\
    Metric.objects (heap s'.2) = <[m := after]> (Metric.objects (heap s.2)) /\
    Forall (recorded of_float (epoch s.1) E (replicate (Z.to_nat E) nan))
      [tm; vm; tk; vk] /\
    lr_scheduler s'.1
      = Nat.iter (Z.to_nat (E - epoch s.1)) scheduler_step (lr_scheduler s.1) /\
    (epoch s.1 < E ->
     epoch s'.1 = E - 1 /\
     exists data,
       files s'.2 !! path_join (checkpoint_dir s.1) "checkpoint.pth" = Some data /\
       data !! "epoch" = Some (CV_int (E - 1)) /\
       data !! "metric_state_dict" = Some (CV_metric after)) /\
    calls s'.2 = calls s.2 ++ new_calls /\
    count is_generate new_calls = Z.to_nat (E - epoch s.1) /\
    count is_backward new_calls
      = sum_list (map (fun e => List.length (train_loader e))
                    (range_from (epoch s.1) E)).
Proof.
  intros Hres Hm He Htrain Hval.
  destruct (fit_prologue train_loader val_loader s Hres Hm ltac:(lia))
    as (s0 & m & Hfit & Hfresh & Hm0 & He0 & Hn0 & Hdir0 & _ & Hlr0 & Hobj0 & Hfiles0
        & Hcalls0).
  set (E := num_epochs s.1) in *.
  set (row := replicate (Z.to_nat E) nan) in *.
  destruct (fit_loop_run train_loader val_loader m E (Z.to_nat (E - epoch s.1))
              Htrain Hval (epoch s.1) s0 row row row row)
    as (s' & tm & vm & tk & vk & new_calls & Hloop & Hm' & _ & Hdir' & _ & Hlr' & Hobj'
        & Hrec & Hlast & Hcalls' & Hg & Hb); try done; try lia.
  { rewrite Hobj0. apply lookup_insert_eq. }
  { repeat constructor; apply length_replicate. }
  replace (epoch s.1 + Z.of_nat (Z.to_nat (E - epoch s.1))) with E in * by lia.
  exists s', m, tm, vm, tk, vk, new_calls.
  split; [by rewrite Hfit|]. split; [done|]. split; [done|].
  split; [by rewrite Hobj', Hobj0, insert_insert_eq|].
  split.
  { inversion Hrec as [|? ? ? ? H1 Hrec1]; subst.
    inversion Hrec1 as [|? ? ? ? H2 Hrec2]; subst.
    inversion Hrec2 as [|? ? ? ? H3 Hrec3]; subst.
    inversion Hrec3 as [|? ? ? ? H4 _]; subst.
    constructor; [exact H1|]. constructor; [exact H2|].
    constructor; [exact H3|]. constructor; [exact H4|]. constructor. }
  split; [by rewrite Hlr', Hlr0|].
  split.
  { intros Hlt. destruct Hlast as [Hepoch (data & ? & ? & ?)]; [lia|].
    split; [done|]. exists data. by rewrite <- Hdir0. }
  split; [by rewrite Hcalls', Hcalls0|]. done.
Qed.

(** X27. A fresh run of [fit] with an empty validation loader and an epoch
    left to run fails with [UnboundLocalError] in its first epoch: after
    that epoch's training, scheduler step and first checkpoint, and before
    any sample is rendered. *)
Theorem fit_stops_at_empty_validation train_loader (s : @state _ value) :
  resume_ckpt s.1 = None -> metric s.1 = None ->
  0 <= epoch s.1 < num_epochs s.1 ->
  exists s' data new_calls,
    fit nan class_attribute scheduler_step of_float print_results
      train_loader [] s = (s', Raise UnboundLocalError) /\
    epoch s'.1 = epoch s.1 /\
    lr_scheduler s'.1 = scheduler_step (lr_scheduler s.1) /\
    files s'.2 !! path_join (checkpoint_dir s.1) "checkpoint.pth" = Some data /\
    data !! "epoch" = Some (CV_int (epoch s.1)) /\
    calls s'.2 = calls s.2 ++ new_calls /\
    count is_backward new_calls = List.length (train_loader (epoch s.1)) /\
    count is_generate new_calls = 0%nat.
Proof.
  intros Hres Hm He.
  destruct (fit_prologue train_loader [] s Hres Hm ltac:(lia))
    as (s0 & m & Hfit & Hfresh & Hm0 & He0 & Hn0 & Hdir0 & _ & Hlr0 & Hobj0 & Hfiles0
        & Hcalls0).
  set (E := num_epochs s.1) in *.
  set (row := replicate (Z.to_nat E) nan) in *.
  rewrite Hfit. unfold range_from.
  destruct (Z.to_nat (E - epoch s.1)) as [|n] eqn:Hn; [lia|].
  cbn [seq map for_each]. rewrite Z.add_0_r.
  assert (Z.of_nat (length row) = E) as Hrow.
  { unfold row. rewrite length_replicate. lia. }
  destruct (fit_epoch_first_half (train_loader (epoch s.1)) [] (epoch s.1) s0 m E
              row row row row)
    as (s5 & losses & data & calls5 & Hfirst & _ & He5 & Hlr5 & _ & _ & Hdir5 & _ & _
        & Hlatest & _ & Hepoch & _ & Hcalls5 & Hb5 & Hg5); try done; try lia.
  { rewrite Hobj0. apply lookup_insert_eq. }
  destruct (validate_kept [] s5) as (Hkept & Hraise & _).
  specialize (Hraise eq_refl).
  destruct (validate [] s5) as [s6 o6] eqn:Hrun6. cbn [fst snd] in Hkept, Hraise.
  subst o6.
  destruct Hkept as (_ & _ & _ & _ & He6 & _ & Hlr6 & _ & Hfiles6).
  exists s6, data, calls5.
  split.
  { apply bind_raise. rewrite Hfirst. unfold fit_epoch_rest. by apply bind_raise. }
  split; [by rewrite He6, He5|]. split; [by rewrite Hlr6, Hlr5, Hlr0|].
  split; [by rewrite Hfiles6, <- Hdir0|]. split; [done|].
  assert (calls s6.2 = calls s5.2) as ->.
  { pose proof (validate_run [] s5) as (s1 & l1 & Hloop & Hval).
    cbn [validate_loop ret] in Hloop. injection Hloop as <- <-.
    rewrite Hrun6 in Hval. cbn [reconstructed_image] in Hval.
    by injection Hval as ->. }
  by rewrite Hcalls5, Hcalls0.
Qed.

End WithEngine.

Import Toy.

(** X26, an instance. *)
Lemma fit_one_toy_epoch :
  exists s' m,
    @fit toy_engine (option Z) None (fun _ => false) (fun x : Z => x + 1)
      (fun _ => Some 0) (fun _ => "") (fun _ => ten_batches 1) [(1, 1)] toy_state
    = (s', Ok tt) /\
    @metric toy_engine s'.1 = Some m.
Proof.
  destruct (@fit_records_every_epoch toy_engine (option Z) None (fun _ => false)
              (fun x : Z => x + 1) (fun _ => Some 0) (fun _ => "")
              (fun _ => ten_batches 1) [(1, 1)] toy_state eq_refl eq_refl
              ltac:(vm_compute; split; discriminate)
              ltac:(intros _ Hc; vm_compute in Hc; discriminate Hc)
              ltac:(discriminate))
    as (s' & m & tm & vm & tk & vk & new_calls & Hfit & _ & Hm & _).
  exists s', m. split; [exact Hfit | exact Hm].
Defined.

(** X27, an instance. *)
Lemma fit_without_validation_data :
  exists s',
    @fit toy_engine (option Z) None (fun _ => false) (fun x : Z => x + 1)
      (fun _ => Some 0) (fun _ => "") (fun _ => ten_batches 1) [] toy_state
    = (s', Raise UnboundLocalError).
Proof.
  destruct (@fit_stops_at_empty_validation toy_engine (option Z) None (fun _ => false)
              (fun x : Z => x + 1) (fun _ => Some 0) (fun _ => "")
              (fun _ => ten_batches 1) toy_state eq_refl eq_refl
              ltac:(vm_compute; split; [discriminate | reflexivity]))
    as (s' & data & new_calls & Hfit & _).
  exists s'. exact Hfit.
Defined.

End FitFacts.
